(** * weather_data_api: the query engine of [src/step04_api/api.py]

    A shallow embedding of the Python functions of [api.py] and the
    properties of its specification.

    - Python [float] is IEEE-754 binary64; it is modelled by the Standard
      Library's [spec_float] with the binary64 parameters, whose operations
      are plain Gallina functions and evaluate inside Rocq.
    - Python [int] is [Z].
    - Python [str] is [string]; the model covers ASCII text.
    - A raised exception is the [Raise] case of [result].
    - Code that talks to the network runs in a state monad over an abstract
      outside world and a log of the calls that were made. *)

From Stdlib Require Import ZArith List String Ascii SpecFloat Lia Bool.
From Stdlib Require Import DecimalString.
From stdpp Require Import prelude.

Set Warnings "-register-all".

Local Open Scope string_scope.
Local Open Scope list_scope.
Local Open Scope Z_scope.

(* ================================================================== *)
(** * Python values *)
(* ================================================================== *)

(** Exceptions that the modelled code can raise. *)
Inductive exn : Type :=
  | AssertionError
  | KeyError
  | IndexError
  | TypeError
  | AttributeError
  | OverflowError
  | ValueError
  | JSONDecodeError
  | ConnectionError
  | ValidationError
  | ColumnNotFoundError
  | DuplicateError
  | OutOfBoundsError.

(** The outcome of evaluating a Python expression. *)
Inductive result (A : Type) : Type :=
  | Ok (a : A)
  | Raise (e : exn).
Arguments Ok {A} a.
Arguments Raise {A} e.

#[global] Instance result_ret : MRet result := fun A a => Ok a.
#[global] Instance result_bind : MBind result :=
  fun A B f m => match m with Ok a => f a | Raise e => Raise e end.

(** [try: e except: h], with a bare [except] clause. *)
Definition try_except {A B : Type} (e : result A) (h : B) (k : A -> B) : B :=
  match e with
  | Ok a => k a
  | Raise _ => h
  end.

Module Float64.

(** binary64: 53 bits of precision, exponents below 1024. *)
Definition prec : Z := 53.
Definition emax : Z := 1024.

Definition float : Type := spec_float.

Definition inf : float := S754_infinity false.
Definition nan : float := S754_nan.

(** The nearest binary64 number to an integer (ties to even); the result
    is infinite when the integer is beyond the largest finite float. *)
Definition round_Z (z : Z) : float := binary_normalize prec emax z 0 false.

(** Python's conversion [float(z)] of an [int], implicit in mixed
    arithmetic: it raises [OverflowError] where rounding overflows. *)
Definition of_int (z : Z) : result float :=
  match round_Z z with
  | S754_infinity _ => Raise OverflowError
  | f => Ok f
  end.

Definition add : float -> float -> float := SFadd prec emax.
Definition sub : float -> float -> float := SFsub prec emax.
Definition mul : float -> float -> float := SFmul prec emax.
Definition div : float -> float -> float := SFdiv prec emax.

Definition ltb : float -> float -> bool := SFltb.
Definition leb : float -> float -> bool := SFleb.
Definition eqb : float -> float -> bool := SFeqb.

Definition is_nan (x : float) : bool :=
  match x with S754_nan => true | _ => false end.

(** [lo <= x <= hi], the check behind pydantic's [Field(ge=lo, le=hi)]
    with integer bounds small enough to be floats exactly. *)
Definition in_range (lo hi : Z) (x : float) : bool :=
  leb (round_Z lo) x && leb x (round_Z hi).

End Float64.

Abbreviation float := Float64.float.

(** A value produced by [json.loads]: [None], [bool], [int], [float],
    [str], [list] or [dict] with string keys (kept as an association list
    in which the first binding of a key is the dict's entry). *)
Inductive json : Type :=
  | JNull
  | JBool (b : bool)
  | JInt (z : Z)
  | JFloat (f : float)
  | JStr (s : string)
  | JList (l : list json)
  | JDict (kvs : list (string * json)).

Fixpoint dict_get (k : string) (kvs : list (string * json)) : option json :=
  match kvs with
  | [] => None
  | (k', v) :: rest => if String.eqb k k' then Some v else dict_get k rest
  end.

(** [v[k]] for a string key [k]. *)
Definition getitem (k : string) (v : json) : result json :=
  match v with
  | JDict kvs =>
      match dict_get k kvs with
      | Some x => Ok x
      | None => Raise KeyError
      end
  | _ => Raise TypeError
  end.

(** [v[0]]: the first element of a list, the first character of a string;
    a dict of string keys has no key [0]. *)
Definition getitem0 (v : json) : result json :=
  match v with
  | JList (x :: _) => Ok x
  | JList [] => Raise IndexError
  | JStr (String c _) => Ok (JStr (String c EmptyString))
  | JStr EmptyString => Raise IndexError
  | JDict _ => Raise KeyError
  | _ => Raise TypeError
  end.

(** [str.lower] on ASCII text. *)
Definition lower_ascii (c : ascii) : ascii :=
  let n := nat_of_ascii c in
  if (Nat.leb 65 n && Nat.leb n 90)%bool then ascii_of_nat (n + 32) else c.

Fixpoint lower (s : string) : string :=
  match s with
  | EmptyString => EmptyString
  | String c s' => String (lower_ascii c) (lower s')
  end.

(** [needle in hay] on strings. *)
Fixpoint str_contains (needle hay : string) : bool :=
  if String.prefix needle hay then true
  else match hay with
       | EmptyString => false
       | String _ hay' => str_contains needle hay'
       end.

(** [v.lower()]: only [str] has the method. *)
Definition py_lower (v : json) : result string :=
  match v with
  | JStr s => Ok (lower s)
  | _ => Raise AttributeError
  end.

(* ================================================================== *)
(** * Temperature conversion *)
(* ================================================================== *)

(** [fahrenheit - 32]: integer arithmetic on [int] (and on [bool], a
    subclass of [int]), float arithmetic on [float], [TypeError] on
    anything else. *)
Inductive number : Type :=
  | NInt (z : Z)
  | NFloat (f : float).

Definition minus_32 (fahrenheit : json) : result number :=
  match fahrenheit with
  | JInt z => Ok (NInt (z - 32))
  | JBool b => Ok (NInt ((if b then 1 else 0) - 32))
  | JFloat f => Ok (NFloat (Float64.sub f (Float64.round_Z 32)))
  | _ => Raise TypeError
  end.

(** [x * n] for a float [x]. *)
Definition float_times (x : float) (n : number) : result float :=
  match n with
  | NInt z => y ← Float64.of_int z; Ok (Float64.mul x y)
  | NFloat y => Ok (Float64.mul x y)
  end.

(** [return 5/9 * (fahrenheit - 32)] *)
Definition convert_fahrenheit_to_celsius (fahrenheit : json) : result float :=
  let five_ninths := Float64.div (Float64.round_Z 5) (Float64.round_Z 9) in
  d ← minus_32 fahrenheit;
  float_times five_ninths d.

(** The JSON values that are Python numbers: [int], [bool], [float]. *)
Definition is_number (v : json) : bool :=
  match v with
  | JInt _ | JBool _ | JFloat _ => true
  | _ => false
  end.

(* ================================================================== *)
(** * The pydantic models *)
(* ================================================================== *)

(** [Coordinates]: both fields are range-checked at construction. *)
Record Coordinates : Type := mkCoordinates {
  latitude : float;
  longitude : float
}.

Definition Coordinates_init (lat lon : float) : result Coordinates :=
  if Float64.in_range (-90) 90 lat && Float64.in_range (-180) 180 lon
  then Ok (mkCoordinates lat lon)
  else Raise ValidationError.

(** [CurrentWeather].  The model does not validate on assignment, so
    after construction a field holds whatever was assigned to it: the
    three location fields are kept as the JSON values they were read as.
    The default -9999 of the temperature is held as the float of that
    value. *)
Record CurrentWeather : Type := mkCurrentWeather {
  valid_response : bool;
  temperature_celsius : float;
  radar_station : json;
  coordinates_city : json;
  coordinates_state : json;
  error_message : string
}.

(** The bound declared on [temperature_celsius]:
    [Field(ge=-150, le=150, default=-9999)]. *)
Definition temperature_celsius_in_bound (t : float) : bool :=
  Float64.in_range (-150) 150 t.

(** [CurrentWeather(valid_response=v, error_message=m)]: the two fields
    that the code passes are unconstrained and the defaults of the others
    are not validated, so the construction always succeeds. *)
Definition CurrentWeather_init (v : bool) (m : string) : CurrentWeather :=
  {| valid_response := v;
     temperature_celsius := Float64.round_Z (-9999);
     radar_station := JStr "";
     coordinates_city := JStr "";
     coordinates_state := JStr "";
     error_message := m |}.

(** Attribute assignments [current_weather.field = value]. *)
Definition set_error_message (c : CurrentWeather) (m : string)
    : CurrentWeather :=
  {| valid_response := valid_response c;
     temperature_celsius := temperature_celsius c;
     radar_station := radar_station c;
     coordinates_city := coordinates_city c;
     coordinates_state := coordinates_state c;
     error_message := m |}.

Definition set_temperature_celsius (c : CurrentWeather) (t : float)
    : CurrentWeather :=
  {| valid_response := valid_response c;
     temperature_celsius := t;
     radar_station := radar_station c;
     coordinates_city := coordinates_city c;
     coordinates_state := coordinates_state c;
     error_message := error_message c |}.

Definition set_radar_station (c : CurrentWeather) (v : json)
    : CurrentWeather :=
  {| valid_response := valid_response c;
     temperature_celsius := temperature_celsius c;
     radar_station := v;
     coordinates_city := coordinates_city c;
     coordinates_state := coordinates_state c;
     error_message := error_message c |}.

Definition set_coordinates_city (c : CurrentWeather) (v : json)
    : CurrentWeather :=
  {| valid_response := valid_response c;
     temperature_celsius := temperature_celsius c;
     radar_station := radar_station c;
     coordinates_city := v;
     coordinates_state := coordinates_state c;
     error_message := error_message c |}.

Definition set_coordinates_state (c : CurrentWeather) (v : json)
    : CurrentWeather :=
  {| valid_response := valid_response c;
     temperature_celsius := temperature_celsius c;
     radar_station := radar_station c;
     coordinates_city := coordinates_city c;
     coordinates_state := v;
     error_message := error_message c |}.

(* ================================================================== *)
(** * The outside world *)
(* ================================================================== *)

(** What the code reads of a [requests.Response]: the [ok] flag and the
    parsed body; [body = None] is a body that is not JSON, on which
    [.json()] raises. *)
Record Response : Type := mkResponse {
  ok : bool;
  body : option json
}.

Definition response_json (r : Response) : result json :=
  match body r with
  | Some j => Ok j
  | None => Raise JSONDecodeError
  end.

(** The calls that leave the process. *)
Inductive event : Type :=
  | Get (url : json)
  | Sleep (seconds : Z).

Record state (W : Type) : Type := mkState {
  world : W;
  log : list event
}.
Arguments mkState {W} world log.
Arguments world {W} s.
Arguments log {W} s.

(** Computations that may raise and that act on the world. *)
Definition M (W A : Type) : Type := state W -> result A * state W.

#[global] Instance M_ret {W} : MRet (M W) := fun A a s => (Ok a, s).
#[global] Instance M_bind {W} : MBind (M W) :=
  fun A B f m s =>
    match m s with
    | (Ok a, s') => f a s'
    | (Raise e, s') => (Raise e, s')
    end.

(** An expression without effects, evaluated inside [M]. *)
Definition lift {W A} (r : result A) : M W A := fun s => (r, s).

Definition is_get (e : event) : bool :=
  match e with Get _ => true | Sleep _ => false end.

(** The number of HTTP requests in a log. *)
Definition count_gets (l : list event) : nat := length (List.filter is_get l).

(** What a lookup adds to the log: requests and pauses. *)
Definition lookup_entry (ev : event) : Prop :=
  is_get ev = true \/ exists d, ev = Sleep d.

Section Network.

Context {W : Type}.

(** The network answers (or fails) a GET of [url]; time passes while the
    process sleeps. *)
Variable network : json -> W -> result Response * W.
Variable pause : Z -> W -> W.

(** Python's [str] of a float, used to build the station URL. *)
Variable str_float : float -> string.

(** [requests.get(url)] *)
Definition requests_get (url : json) : M W Response :=
  fun s =>
    let (r, w') := network url (world s) in
    (r, mkState w' (log s ++ [Get url])).

(** [time.sleep(seconds)] *)
Definition sleep (seconds : Z) : M W unit :=
  fun s =>
    if seconds <? 0 then (Raise ValueError, s)
    else (Ok tt, mkState (pause seconds (world s)) (log s ++ [Sleep seconds])).

(** [range(n)] *)
Definition range (n : Z) : list Z := map Z.of_nat (seq 0 (Z.to_nat n)).

(** The body of [for i in range(retry_counter)] in [retry_request]; when
    the loop runs out the function ends without a [return], which in
    Python returns [None]. *)
Fixpoint retry_loop (indices : list Z) (retry_counter sleep_duration : Z)
    (request_func : M W Response) : M W (option (Response * Z)) :=
  match indices with
  | [] => mret None
  | i :: rest =>
      response ← request_func;
      if ok response then mret (Some (response, i))
      else if i <? retry_counter - 1 then
        _ ← sleep sleep_duration;
        retry_loop rest retry_counter sleep_duration request_func
      else mret (Some (response, i))
  end.

Definition retry_request (retry_counter sleep_duration : Z)
    (request_func : M W Response) : M W (option (Response * Z)) :=
  let retry_counter := if retry_counter <? 1 then 0 else retry_counter in
  retry_loop (range retry_counter) retry_counter sleep_duration request_func.

(** The state after [n] attempts in a row that each got a response that
    is not ok and were each followed by the pause; [None] when the first
    [n] attempts do not go that way. *)
Fixpoint after_failures (n : nat) (sleep_duration : Z)
    (request_func : M W Response) (s : state W) : option (state W) :=
  match n with
  | O => Some s
  | S n' =>
      match request_func s with
      | (Ok response, s1) =>
          if ok response then None
          else match sleep sleep_duration s1 with
               | (Ok _, s2) =>
                   after_failures n' sleep_duration request_func s2
               | (Raise _, _) => None
               end
      | (Raise _, _) => None
      end
  end.

Definition base_url : string := "https://api.weather.gov/points/".

Definition request_station_information (coordinates : float * float)
    : M W Response :=
  let input_coordinates_str :=
    (str_float (fst coordinates) ++ "," ++ str_float (snd coordinates))%string
  in
  let url := (base_url ++ input_coordinates_str)%string in
  requests_get (JStr url).

(* ---------------------------------------------------------------- *)
(** ** Current weather *)

(** The five messages of [provide_response_error_messages]. *)
Definition forecast_url_missing_message : string :=
  "Valid response from current weather API, but forecast URL not in "
  ++ "expected place in response.".

Definition invalid_input_coordinates_message : string :=
  "Invalid input coordinates.  "
  ++ "The first coordinate should be latitude; "
  ++ "the second should be longitude.  "
  ++ "Ensure that the coordinates are within the United States.".

Definition invalid_weather_api_response_message : string :=
  "Invalid response from current weather API.".

Definition temperature_missing_message : string :=
  "Valid response from current weather API, but temperature not "
  ++ "in expected place in response.".

Definition location_missing_message : string :=
  "Valid response from current weather API, but location "
  ++ "information is incomplete.".

Definition provide_response_error_messages
    : string * string * string * string * string :=
  (forecast_url_missing_message, invalid_input_coordinates_message,
   invalid_weather_api_response_message, temperature_missing_message,
   location_missing_message).

(** [a, _ = x]: unpacking [None] is a [TypeError]. *)
Definition unpack {A B : Type} (x : option (A * B)) : M W (A * B) :=
  match x with
  | Some p => mret p
  | None => lift (Raise TypeError)
  end.

(** [station_response.json()['properties']['forecast']] *)
Definition forecast_url_of (station_response : Response) : result json :=
  j ← response_json station_response;
  p ← getitem "properties" j;
  getitem "forecast" p.

(** [forecast_response.json()['properties']['periods'][0]['temperature']] *)
Definition current_temperature_of (forecast_response : Response)
    : result json :=
  j ← response_json forecast_response;
  p ← getitem "properties" j;
  ps ← getitem "periods" p;
  p0 ← getitem0 ps;
  getitem "temperature" p0.

(** The three reads of city, state and radar station, in this order. *)
Definition location_of (station_response : Response)
    : result (json * json * json) :=
  city ←
    (j ← response_json station_response;
     p ← getitem "properties" j;
     r ← getitem "relativeLocation" p;
     q ← getitem "properties" r;
     getitem "city" q);
  state ←
    (j ← response_json station_response;
     p ← getitem "properties" j;
     r ← getitem "relativeLocation" p;
     q ← getitem "properties" r;
     getitem "state" q);
  radar_station ←
    (j ← response_json station_response;
     p ← getitem "properties" j;
     getitem "radarStation" p);
  Ok (city, state, radar_station).

(** [station_response.json()['type']] *)
Definition error_type_of (station_response : Response) : result json :=
  j ← response_json station_response;
  getitem "type" j.

Definition request_current_weather (coordinates : Coordinates)
    : M W CurrentWeather :=
  let retry_n := 3 in
  let retry_delay := 4 in
  let error_messages := provide_response_error_messages in
  let forecast_url_missing_message := error_messages.1.1.1.1 in
  let invalid_input_coordinates_message := error_messages.1.1.1.2 in
  let invalid_weather_api_response_message := error_messages.1.1.2 in
  let temperature_missing_message := error_messages.1.2 in
  let location_missing_message := error_messages.2 in
  let input_coordinates := (latitude coordinates, longitude coordinates) in
  x ← retry_request retry_n retry_delay
        (request_station_information input_coordinates);
  '(station_response, _) ← unpack x;
  if ok station_response then
    try_except (forecast_url_of station_response)
      (mret (CurrentWeather_init false forecast_url_missing_message))
      (fun forecast_url =>
         y ← retry_request retry_n retry_delay (requests_get forecast_url);
         '(forecast_response, _) ← unpack y;
         if ok forecast_response then
           let current_weather := CurrentWeather_init true "" in
           try_except (current_temperature_of forecast_response)
             (mret (set_error_message current_weather
                      temperature_missing_message))
             (fun current_temperature =>
                try_except (location_of station_response)
                  (t ← lift (convert_fahrenheit_to_celsius
                               current_temperature);
                   mret (set_error_message
                           (set_temperature_celsius current_weather t)
                           location_missing_message))
                  (fun '(city, state, radar_station) =>
                     t ← lift (convert_fahrenheit_to_celsius
                                 current_temperature);
                     mret (set_coordinates_state
                             (set_coordinates_city
                                (set_radar_station
                                   (set_temperature_celsius
                                      current_weather t)
                                   radar_station)
                                city)
                             state)))
         else mret (CurrentWeather_init false ""))
  else
    let current_weather := CurrentWeather_init false "" in
    error_type ← lift (error_type_of station_response);
    lowered ← lift (py_lower error_type);
    if str_contains "invalidpoint" lowered then
      mret (set_error_message current_weather
              invalid_input_coordinates_message)
    else
      mret (set_error_message current_weather
              invalid_weather_api_response_message).

End Network.

(* ================================================================== *)
(** * Nearest station *)
(* ================================================================== *)

(** What geopy does with a (latitude, longitude) pair before it measures
    anything: it raises [ValueError] unless both coordinates are finite
    and the latitude is within [-90, 90]; a longitude outside [-180, 180]
    is brought back into that range. *)
Definition is_finite (x : float) : bool :=
  match x with
  | S754_zero _ | S754_finite _ _ _ => true
  | _ => false
  end.

Definition geopy_accepts (p : float * float) : bool :=
  is_finite (fst p) && is_finite (snd p)
  && negb (Float64.ltb (Float64.round_Z 90) (SFabs (fst p))).

(** [geopy.distance.distance(a, b).kilometers] for a given length of the
    geodesic between two accepted points. *)
Definition gd_distance (geodesic : float * float -> float * float -> float)
    (a b : float * float) : result float :=
  if geopy_accepts a && geopy_accepts b then Ok (geodesic a b)
  else Raise ValueError.

Section GeoResolver.

(** [gd.distance(a, b).kilometers]: a distance, or the exception that
    geopy raises. *)
Variable distance : float * float -> float * float -> result float.

(** The loop [for i, e in enumerate(coordinates_srs)], from index [i]
    on, with the running [min_distance_idx] and [min_distance]. *)
Fixpoint closest_loop (input_coordinates : float * float) (i : Z)
    (coordinates_srs : list (float * float))
    (min_distance_idx : Z) (min_distance : float) : result (Z * float) :=
  match coordinates_srs with
  | [] => Ok (min_distance_idx, min_distance)
  | e :: rest =>
      distance ← distance input_coordinates e;
      if Float64.ltb distance min_distance
      then closest_loop input_coordinates (i + 1) rest i distance
      else closest_loop input_coordinates (i + 1) rest
             min_distance_idx min_distance
  end.

(** [coordinates_df] is the list of its (lat, lon) rows: the columns
    exist and are numeric by typing, which leaves the assertion that
    the frame has a row. *)
Definition identify_closest_coordinates
    (input_coordinates : float * float)
    (coordinates_df : list (float * float)) : result (Z * float) :=
  if (length coordinates_df =? 0)%nat then Raise AssertionError
  else closest_loop input_coordinates 0 coordinates_df (-1) Float64.inf.

(** geopy returns a distance from [input_coordinates] to every row of a
    frame, and each is a number below infinity. *)
Definition finite_distances (input_coordinates : float * float)
    (coordinates_df : list (float * float)) : Prop :=
  Forall
    (fun e => exists d, distance input_coordinates e = Ok d
                        /\ Float64.ltb d Float64.inf = true)
    coordinates_df.

End GeoResolver.

(* ================================================================== *)
(** * Same-day window of a temperature series *)
(* ================================================================== *)

Record datetime : Type := mkDatetime {
  year : Z;
  month : Z;
  day : Z;
  hour : Z;
  minute : Z;
  second : Z
}.

(** [.dt.date()] *)
Definition date_of (t : datetime) : Z * Z * Z := (year t, month t, day t).

Definition date_eqb (a b : Z * Z * Z) : bool :=
  let '(y1, m1, d1) := a in
  let '(y2, m2, d2) := b in
  (y1 =? y2) && (m1 =? m2) && (d1 =? d2).

(** Chronological order of timestamps. *)
Definition datetime_leb (a b : datetime) : bool :=
  if year a =? year b then
    if month a =? month b then
      if day a =? day b then
        if hour a =? hour b then
          if minute a =? minute b then second a <=? second b
          else minute a <? minute b
        else hour a <? hour b
      else day a <? day b
    else month a <? month b
  else year a <? year b.

(** A list of timestamps in which each one is at or before the next. *)
Fixpoint dates_ascending (l : list datetime) : bool :=
  match l with
  | a :: ((b :: _) as rest) => datetime_leb a b && dates_ascending rest
  | _ => true
  end.

(** The row index made by [with_row_index] is an unsigned 32-bit column;
    arithmetic on it wraps around. *)
Definition u32 (z : Z) : Z := z mod 2 ^ 32.

Section WindowExtractor.

(** A row of the frame, with the two columns that the function reads:
    the one named [id_colname], of integers, and the one named
    [date_colname], of timestamps. *)
Variable Row : Type.
Variable col_id : Row -> Z.
Variable col_date : Row -> datetime.

Record DataFrame : Type := mkDataFrame {
  columns : list string;
  rows : list Row
}.

Definition in_columns (c : string) (cs : list string) : bool :=
  existsb (String.eqb c) cs.

(** Whether a list of column names holds a name twice. *)
Fixpoint has_duplicates (cs : list string) : bool :=
  match cs with
  | [] => false
  | c :: rest => in_columns c rest || has_duplicates rest
  end.

(** The rows of [df.with_row_index()], numbered from [i]: each row with
    its value in the new column [index]. *)
Fixpoint with_row_index (i : Z) (l : list Row) : list (Z * Row) :=
  match l with
  | [] => []
  | r :: rest => (i, r) :: with_row_index (i + 1) rest
  end.

Fixpoint is_sorted (l : list Z) : bool :=
  match l with
  | a :: ((b :: _) as rest) => (a <=? b) && is_sorted rest
  | _ => true
  end.

(** [group_by(date)]: the groups of a list of (date, index) pairs, each
    with its indices in row order.  Polars leaves the order of the
    groups unspecified; here they come in order of first appearance,
    and the result of the function is sorted at the end. *)
Fixpoint add_to_group (d : Z * Z * Z) (i : Z)
    (groups : list (Z * Z * Z * list Z)) : list (Z * Z * Z * list Z) :=
  match groups with
  | [] => [(d, [i])]
  | (d', ixs) :: rest =>
      if date_eqb d d' then (d', (ixs ++ [i])%list) :: rest
      else (d', ixs) :: add_to_group d i rest
  end.

Definition group_by (l : list (Z * Z * Z * Z)) : list (Z * Z * Z * list Z) :=
  fold_left (fun groups '(d, i) => add_to_group d i groups) l [].

Definition group_first (g : Z * Z * Z * list Z) : list Z :=
  match snd g with
  | [] => []
  | i :: _ => [i]
  end.

Definition group_last (g : Z * Z * Z * list Z) : list Z :=
  match last (snd g) with
  | None => []
  | Some i => [i]
  end.

(** [df[idx, :]]: gathering a row index outside the frame raises. *)
Fixpoint gather (l : list Row) (idx : list Z) : result (list Row) :=
  match idx with
  | [] => Ok []
  | i :: rest =>
      if (0 <=? i) && (i <? Z.of_nat (length l)) then
        match l !! Z.to_nat i with
        | Some r => rs ← gather l rest; Ok (r :: rs)
        | None => Raise OutOfBoundsError
        end
      else Raise OutOfBoundsError
  end.

(** [.sort(date_colname)] *)
Fixpoint insert_sorted (r : Row) (l : list Row) : list Row :=
  match l with
  | [] => [r]
  | x :: rest =>
      if datetime_leb (col_date r) (col_date x) then r :: x :: rest
      else x :: insert_sorted r rest
  end.

Definition sort_by_date (l : list Row) : list Row :=
  fold_right insert_sorted [] l.

(** The three conditions of the [.filter(...)]. *)
Definition on_target (id : Z) (target_datetime : datetime) (r : Row) : bool :=
  (col_id r =? id)
  && (month (col_date r) =? month target_datetime)
  && (day (col_date r) =? day target_datetime).

(** The (date, index) pairs of the rows of [l] that pass the filter, with
    the row index counted from [i]. *)
Definition target_date_idx (i : Z) (l : list Row) (id : Z)
    (target_datetime : datetime) : list (Z * Z * Z * Z) :=
  map (fun p => (date_of (col_date (snd p)), fst p))
    (List.filter (fun p => on_target id target_datetime (snd p))
       (with_row_index i l)).

(** [group_by(date).first()['index'] - 1] *)
Definition pre_target_date_start_idx (tdi : list (Z * Z * Z * Z)) : list Z :=
  map (fun i => u32 (i - 1)) (concat (map group_first (group_by tdi))).

(** [group_by(date).last()['index'] + 1] *)
Definition post_target_date_end_idx (tdi : list (Z * Z * Z * Z)) : list Z :=
  map (fun i => u32 (i + 1)) (concat (map group_last (group_by tdi))).

(** The result rows stand for their projection on [output_colnames].
    Polars raises [DuplicateError] where a frame would get two columns
    of one name: in [with_row_index] when the frame has a column [index]
    already, and in [select] when a name is listed twice. *)
Definition filter_df_by_id_and_date (df : DataFrame)
    (output_colnames : list string) (id : Z)
    (id_colname date_colname : string) (target_datetime : datetime)
    : result (list Row) :=
  if negb (0 <? length (rows df))%nat then Raise AssertionError
  else if negb (0 <? length output_colnames)%nat then Raise AssertionError
  else if negb (in_columns id_colname (columns df)) then Raise AssertionError
  else if negb (in_columns date_colname (columns df))
  then Raise AssertionError
  else if negb (forallb (fun e => in_columns e (columns df)) output_colnames)
  then Raise AssertionError
  else if negb (existsb (fun r => col_id r =? id) (rows df))
  then Raise AssertionError
  else if in_columns "index" (columns df) then Raise DuplicateError
  else
    let target_date_idx_df :=
      target_date_idx 0 (rows df) id target_datetime in
    if negb (is_sorted (map snd target_date_idx_df))
    then Raise AssertionError
    else
      let pre_target_date_start_idx_df :=
        pre_target_date_start_idx target_date_idx_df in
      let post_target_date_end_idx_df :=
        post_target_date_end_idx target_date_idx_df in
      let idx :=
        (map snd target_date_idx_df
         ++ pre_target_date_start_idx_df
         ++ post_target_date_end_idx_df)%list in
      df1 ← gather (rows df) idx;
      if has_duplicates output_colnames then Raise DuplicateError
      else if in_columns date_colname output_colnames
      then Ok (sort_by_date df1)
      else Raise ColumnNotFoundError.

(** The indices that [filter_df_by_id_and_date] gathers: those of the
    rows on the target day, then the one before each group, then the one
    after each group. *)
Definition window_idx (df : DataFrame) (id : Z) (target_datetime : datetime)
    : list Z :=
  let tdi := target_date_idx 0 (rows df) id target_datetime in
  map snd tdi ++ pre_target_date_start_idx tdi
  ++ post_target_date_end_idx tdi.

(** The six input pre-checks of [filter_df_by_id_and_date] all hold. *)
Definition prechecks_pass (df : DataFrame) (output_colnames : list string)
    (id : Z) (id_colname date_colname : string) : Prop :=
  rows df <> []
  /\ output_colnames <> []
  /\ in_columns id_colname (columns df) = true
  /\ in_columns date_colname (columns df) = true
  /\ forallb (fun e => in_columns e (columns df)) output_colnames = true
  /\ existsb (fun r => col_id r =? id) (rows df) = true.

End WindowExtractor.

(* ================================================================== *)
(** * The annual aggregate *)
(* ================================================================== *)

Record AnnualWeather : Type := mkAnnualWeather {
  current_temperature_celsius : float;
  current_station : string;
  current_city : string;
  current_state : string;
  current_error_message : string;
  distance_to_station_kilometers : float;
  annual_timestamp : list datetime;
  annual_temperature_celsius : list float;
  annual_usaf_station_id : Z;
  annual_wban_station_id : Z;
  annual_station_name : string;
  annual_station_state : string;
  annual_station_call : string;
  annual_station_latitude : float;
  annual_station_longitude : float;
  annual_station_elevation_meters : float
}.

(** Pydantic validates field by field and collects the failures; each
    validator below returns the list of its failures (their names). *)
Definition check (field : string) (b : bool) : list string :=
  if b then [] else [field].

(** A [str] field without constraints accepts a string and nothing else
    that JSON can hold. *)
Definition validate_str (field : string) (v : json) : list string * string :=
  match v with
  | JStr s => ([], s)
  | _ => ([field], "")
  end.

Definition str_len (s : string) : Z := Z.of_nat (String.length s).

(** [AnnualWeather(...)] with the keyword arguments in the order of the
    class.  The four fields taken from [CurrentWeather] carry no [Field]
    constraint (the class comment says why); [current_temperature_celsius]
    is already a float and is accepted as it is. *)
Definition AnnualWeather_init
    (current_temperature_celsius : float)
    (current_station current_city current_state : json)
    (current_error_message : string)
    (distance_to_station_kilometers : float)
    (annual_timestamp : list datetime)
    (annual_temperature_celsius : list float)
    (annual_usaf_station_id annual_wban_station_id : Z)
    (annual_station_name annual_station_state annual_station_call : string)
    (annual_station_latitude annual_station_longitude
     annual_station_elevation_meters : float) : result AnnualWeather :=
  let '(e1, station) := validate_str "current_station" current_station in
  let '(e2, city) := validate_str "current_city" current_city in
  let '(e3, state) := validate_str "current_state" current_state in
  let errors :=
    (e1 ++ e2 ++ e3
     ++ check "distance_to_station_kilometers"
          (Float64.in_range 0 21000 distance_to_station_kilometers)
     ++ check "annual_usaf_station_id"
          ((0 <=? annual_usaf_station_id)
           && (annual_usaf_station_id <? 1000000))
     ++ check "annual_wban_station_id"
          ((0 <=? annual_wban_station_id)
           && (annual_wban_station_id <? 100000))
     ++ check "annual_station_name" (str_len annual_station_name <=? 100)
     ++ check "annual_station_state"
          ((2 <=? str_len annual_station_state)
           && (str_len annual_station_state <=? 2))
     ++ check "annual_station_call" (str_len annual_station_call <=? 4)
     ++ check "annual_station_latitude"
          (Float64.in_range (-90) 90 annual_station_latitude)
     ++ check "annual_station_longitude"
          (Float64.in_range (-180) 180 annual_station_longitude)
     ++ check "annual_station_elevation_meters"
          (Float64.in_range (-440) 8850 annual_station_elevation_meters))%list
  in
  match errors with
  | [] =>
      Ok {| current_temperature_celsius := current_temperature_celsius;
            current_station := station;
            current_city := city;
            current_state := state;
            current_error_message := current_error_message;
            distance_to_station_kilometers := distance_to_station_kilometers;
            annual_timestamp := annual_timestamp;
            annual_temperature_celsius := annual_temperature_celsius;
            annual_usaf_station_id := annual_usaf_station_id;
            annual_wban_station_id := annual_wban_station_id;
            annual_station_name := annual_station_name;
            annual_station_state := annual_station_state;
            annual_station_call := annual_station_call;
            annual_station_latitude := annual_station_latitude;
            annual_station_longitude := annual_station_longitude;
            annual_station_elevation_meters :=
              annual_station_elevation_meters |}
  | _ :: _ => Raise ValidationError
  end.

(** The row of the station table that the nearest-station search picked. *)
Record StationData : Type := mkStationData {
  usaf : Z;
  wban : Z;
  station_name : string;
  st : string;
  call : option string;
  lat : float;
  lon : float;
  elev : float
}.

(** The constraints that [AnnualWeather] declares on the fields that come
    from the station row. *)
Definition station_data_valid (sd : StationData) : bool :=
  (0 <=? usaf sd) && (usaf sd <? 1000000)
  && (0 <=? wban sd) && (wban sd <? 100000)
  && (str_len (station_name sd) <=? 100)
  && (str_len (st sd) =? 2)
  && (str_len (default "" (call sd)) <=? 4)
  && Float64.in_range (-90) 90 (lat sd)
  && Float64.in_range (-180) 180 (lon sd)
  && Float64.in_range (-440) 8850 (elev sd).

(** The last step of [get_historical_and_current_temperatures]: the
    station call sign defaults to the empty string and the aggregate is
    built from the current weather, the distance, the windowed series and
    the station row. *)
Definition compile_annual_weather (current_weather : CurrentWeather)
    (min_distance_kilometers : float)
    (timestamps : list datetime) (temperatures : list float)
    (station_data : StationData) : result AnnualWeather :=
  let station_call :=
    match call station_data with
    | None => ""
    | Some c => c
    end in
  AnnualWeather_init
    (temperature_celsius current_weather)
    (radar_station current_weather)
    (coordinates_city current_weather)
    (coordinates_state current_weather)
    (error_message current_weather)
    min_distance_kilometers
    timestamps
    temperatures
    (usaf station_data)
    (wban station_data)
    (station_name station_data)
    (st station_data)
    station_call
    (lat station_data)
    (lon station_data)
    (elev station_data).

(* ================================================================== *)
(** * A scripted network *)
(* ================================================================== *)

(** The network of the unit tests: one queue of prepared answers for the
    station endpoint and one for every other URL; an exhausted queue
    refuses the connection. *)
Module Mock.

Record World : Type := mkWorld {
  station_answers : list Response;
  forecast_answers : list Response
}.

Definition network (url : json) (w : World) : result Response * World :=
  match url with
  | JStr u =>
      if String.prefix base_url u then
        match station_answers w with
        | r :: rest => (Ok r, mkWorld rest (forecast_answers w))
        | [] => (Raise ConnectionError, w)
        end
      else
        match forecast_answers w with
        | r :: rest => (Ok r, mkWorld (station_answers w) rest)
        | [] => (Raise ConnectionError, w)
        end
  | _ => (Raise TypeError, w)
  end.

Definition pause (seconds : Z) (w : World) : World := w.

Definition str_float (x : float) : string := "0.0".

Definition start (stations forecasts : list Response) : state World :=
  mkState (mkWorld stations forecasts) [].

Definition forecast_url : string :=
  "https://api.weather.gov/gridpoints/KILX/000,000/forecast".

Definition station_json : json :=
  JDict [("properties",
          JDict [("forecast", JStr forecast_url);
                 ("relativeLocation",
                  JDict [("properties",
                          JDict [("city", JStr "Homer");
                                 ("state", JStr "IL")])]);
                 ("radarStation", JStr "KILX")])].

Definition forecast_json (temperature : json) : json :=
  JDict [("properties",
          JDict [("periods", JList [JDict [("temperature", temperature)]])])].

Definition coordinates : Coordinates :=
  mkCoordinates (Float64.round_Z 40) (Float64.round_Z (-88)).

Definition station_url : json := JStr "https://api.weather.gov/points/0.0,0.0".

(** A response that is not ok, with a JSON body. *)
Definition not_ok (payload : json) : Response := mkResponse false (Some payload).

(** A response that is ok, with a JSON body. *)
Definition is_ok (payload : json) : Response := mkResponse true (Some payload).

(** The result of a request and the log of its calls, from the prepared
    answers of the two endpoints. *)
Definition run (stations forecasts : list Response)
    : result CurrentWeather * list event :=
  let (r, s) :=
    request_current_weather network pause str_float coordinates
      (start stations forecasts) in
  (r, log s).

Definition forecast_23 : Response := is_ok (forecast_json (JInt 23)).

Definition forecast_get : event := Get (JStr forecast_url).

Definition celsius_23 : float :=
  match convert_fahrenheit_to_celsius (JInt 23) with
  | Ok t => t
  | Raise _ => Float64.nan
  end.

(** The station row of the unit tests, with the coordinates and the
    elevation rounded to whole numbers. *)
Definition station_data : StationData :=
  {| usaf := 999999;
     wban := 54808;
     station_name := "CHAMPAIGN 9 SW";
     st := "IL";
     call := Some "XXX";
     lat := Float64.round_Z 40;
     lon := Float64.round_Z (-88);
     elev := Float64.round_Z 213 |}.

(** Rows of a temperature table: timestamp, station id, temperature in
    tenths of a degree. *)
Record Row : Type := mkRow {
  timestamp : datetime;
  station : Z;
  temperature : Z
}.

Definition table_columns : list string :=
  ["timestamp"; "station"; "temperature"].

Definition at_ (y m d h : Z) : datetime := mkDatetime y m d h 0 0.

Definition row (id : Z) (t : datetime) : Row := mkRow t id 0.

(** The frame of the docstring of [filter_df_by_id_and_date]. *)
Definition docstring_df : DataFrame Row :=
  mkDataFrame Row table_columns
    [row 8 (at_ 2020 1 1 0); row 8 (at_ 2020 1 1 12);
     row 8 (at_ 2020 1 2 0); row 8 (at_ 2020 1 2 12);
     row 8 (at_ 2020 1 3 0); row 8 (at_ 2020 1 3 12);
     row 5 (at_ 2020 1 1 0); row 5 (at_ 2020 1 1 12);
     row 5 (at_ 2020 1 2 0); row 5 (at_ 2020 1 2 12);
     row 5 (at_ 2020 1 3 0); row 5 (at_ 2020 1 3 12)].

(** A series that starts on the target day. *)
Definition starts_on_target_df : DataFrame Row :=
  mkDataFrame Row table_columns
    [row 5 (at_ 2020 1 2 0); row 5 (at_ 2020 1 2 12);
     row 5 (at_ 2020 1 3 0); row 5 (at_ 2020 1 3 12)].

(** A series that ends on the target day. *)
Definition ends_on_target_df : DataFrame Row :=
  mkDataFrame Row table_columns
    [row 5 (at_ 2020 1 1 0); row 5 (at_ 2020 1 1 12);
     row 5 (at_ 2020 1 2 0); row 5 (at_ 2020 1 2 12)].

Definition extract (df : DataFrame Row) (id : Z) (target : datetime)
    : result (list Row) :=
  filter_df_by_id_and_date Row station timestamp df
    ["timestamp"; "station"] id "station" "timestamp" target.

(** A stand-in for the length of a geodesic in examples: the differences
    of latitude and of longitude, added up. *)
Definition geodesic (a b : float * float) : float :=
  Float64.add
    (SFabs (Float64.sub (fst a) (fst b)))
    (SFabs (Float64.sub (snd a) (snd b))).

Definition distance : float * float -> float * float -> result float :=
  gd_distance geodesic.

Definition point (lat lon : Z) : float * float :=
  (Float64.round_Z lat, Float64.round_Z lon).

(** The stations of [test_identify_closest_coordinates_05]. *)
Definition stations : list (float * float) :=
  [point 34 (-116); point 71 (-156); point 70 (-160);
   point 72 (-148); point 69 (-143)].

(** Stations of which three are equally near to [point 70 (-160)]. *)
Definition tied_stations : list (float * float) :=
  [point 34 (-116); point 71 (-160); point 69 (-160); point 70 (-161)].

End Mock.


(* ================================================================== *)
(** * The annual request *)
(* ================================================================== *)

(** A row of a station's temperature table: the timestamp, the station
    id and the temperature in tenths of a degree Celsius. *)
Record TemperatureRow : Type := mkTemperatureRow {
  timestamp : datetime;
  station : Z;
  temperature : Z
}.

(** [str(z)] of an [int]. *)
Definition str_int (z : Z) : string := NilZero.string_of_int (Z.to_int z).

(** [int(str(usaf) + str(wban))]: [int] of a string made of two decimal
    numerals raises [ValueError] when the string is not a numeral. *)
Definition station_id_of (usaf wban : Z) : result Z :=
  match NilZero.int_of_string (str_int usaf ++ str_int wban) with
  | Some d => Ok (Z.of_int d)
  | None => Raise ValueError
  end.

(** [station_df[min_distance_idx, :].to_dict()] followed by the reads
    [station_data[...][0]]: a negative index counts from the end of the
    frame; outside the frame the row slice is empty and reading its
    element 0 raises. *)
Definition station_row (station_df : list StationData)
    (min_distance_idx : Z) : result StationData :=
  let n := Z.of_nat (length station_df) in
  let i := if min_distance_idx <? 0 then n + min_distance_idx
           else min_distance_idx in
  if (0 <=? i) && (i <? n) then
    match station_df !! Z.to_nat i with
    | Some r => Ok r
    | None => Raise IndexError
    end
  else Raise IndexError.

(** [with_columns(pl.lit(station_id).alias('station'))] on a frame that
    has no such column. *)
Definition with_station (station_id : Z) (df : DataFrame TemperatureRow)
    : DataFrame TemperatureRow :=
  mkDataFrame TemperatureRow
    (columns TemperatureRow df ++ ["station"])
    (map (fun r => mkTemperatureRow (timestamp r) station_id (temperature r))
       (rows TemperatureRow df)).

Section Assembler.

Context {W : Type}.

Variable network : json -> W -> result Response * W.
Variable pause : Z -> W -> W.
Variable str_float : float -> string.

(** [geopy.distance.distance(a, b).kilometers] *)
Variable distance : float * float -> float * float -> result float.

(** The reads of the file system and of the clock:
    [get_station_df(station_filepath)], [pl.read_parquet] of the file of
    a station (named by its file name), and [datetime.datetime.now()]. *)
Variable get_station_df : W -> result (list StationData).
Variable read_parquet : string -> W -> result (DataFrame TemperatureRow).
Variable now : W -> datetime.

(** Polars' [.round(1)] on a float column. *)
Variable round1 : float -> float.

(** A read of the world, which it leaves as it is. *)
Definition read {A : Type} (f : W -> result A) : M W A :=
  fun s => (f (world s), s).

Definition get_historical_temperatures (filename : string) (station_id : Z)
    : M W (list TemperatureRow) :=
  temperature_df ← read (read_parquet filename);
  let id_colname := "station" in
  let temperature_df :=
    if negb (in_columns id_colname (columns TemperatureRow temperature_df))
    then with_station station_id temperature_df
    else temperature_df in
  let colnames := ["timestamp"; "temperature"] in
  now ← read (fun w => Ok (now w));
  lift (filter_df_by_id_and_date TemperatureRow station timestamp
          temperature_df colnames station_id id_colname "timestamp" now).

(** [(pl.col('temperature') / 10).round(1)] *)
Definition tenths_to_degrees (t : Z) : float :=
  round1 (Float64.div (Float64.round_Z t) (Float64.round_Z 10)).

Definition get_historical_and_current_temperatures
    (coordinates : Coordinates) : M W AnnualWeather :=
  station_df ← read get_station_df;
  let input_coordinates := (latitude coordinates, longitude coordinates) in
  '(min_distance_idx, min_distance_kilometers) ←
    lift (identify_closest_coordinates distance input_coordinates
            (map (fun r => (lat r, lon r)) station_df));
  station_data ← lift (station_row station_df min_distance_idx);
  station_id ←
    lift (station_id_of (usaf station_data) (wban station_data));
  let station_temperature_filename :=
    (str_int (usaf station_data) ++ "-" ++ str_int (wban station_data)
     ++ ".parquet")%string in
  temperature_df ←
    get_historical_temperatures station_temperature_filename station_id;
  let temperatures :=
    map (fun r => tenths_to_degrees (temperature r)) temperature_df in
  station_coordinates ←
    lift (Coordinates_init (lat station_data) (lon station_data));
  current_weather ←
    request_current_weather network pause str_float station_coordinates;
  lift (compile_annual_weather current_weather min_distance_kilometers
          (map timestamp temperature_df) temperatures station_data).

End Assembler.

(** A scripted site for the annual request: the scripted network, a
    station table, the temperature tables by file name, and a clock. *)
Module MockSite.

Record World : Type := mkWorld {
  net : Mock.World;
  station_table : result (list StationData);
  archive : string -> result (DataFrame TemperatureRow);
  clock : datetime
}.

Definition network (url : json) (w : World) : result Response * World :=
  let (r, n) := Mock.network url (net w) in
  (r, mkWorld n (station_table w) (archive w) (clock w)).

Definition pause (seconds : Z) (w : World) : World := w.

Definition get_station_df (w : World) : result (list StationData) :=
  station_table w.

Definition read_parquet (filename : string) (w : World)
    : result (DataFrame TemperatureRow) :=
  archive w filename.

(** Dividing a whole number of tenths by ten gives a float that rounding
    to one decimal leaves as it is. *)
Definition round1 (x : float) : float := x.

Definition row (t : datetime) (tenths : Z) : TemperatureRow :=
  mkTemperatureRow t 0 tenths.

(** The table of station 999999-54808, without a station column: the
    records of two first days of January with the record before and the
    record after each of them. *)
Definition table : DataFrame TemperatureRow :=
  mkDataFrame TemperatureRow ["timestamp"; "temperature"]
    [row (Mock.at_ 2018 12 31 16) (-30);
     row (Mock.at_ 2019 1 1 8) (-15);
     row (Mock.at_ 2019 1 1 16) 0;
     row (Mock.at_ 2019 1 2 0) 5;
     row (Mock.at_ 2019 12 31 16) 20;
     row (Mock.at_ 2020 1 1 8) 25;
     row (Mock.at_ 2020 1 1 16) 100;
     row (Mock.at_ 2020 1 2 0) 90].

Definition files (filename : string) : result (DataFrame TemperatureRow) :=
  if String.eqb filename "999999-54808.parquet" then Ok table
  else Raise ValueError.

Definition start (stations forecasts : list Response)
    (station_table : result (list StationData)) (today : datetime)
    : state World :=
  mkState (mkWorld (Mock.mkWorld stations forecasts) station_table files
             today) [].

Definition annual (s : state World) : result AnnualWeather * list event :=
  let (r, s') :=
    get_historical_and_current_temperatures network pause Mock.str_float
      Mock.distance get_station_df read_parquet clock round1
      Mock.coordinates s in
  (r, log s').

End MockSite.

(* ================================================================== *)
(** * Properties *)
(* ================================================================== *)

(** ** Temperature conversion *)

(** C7: [convert_fahrenheit_to_celsius] sends 32 to 0, 212 to 100 and -40
    to -40, for [int] and for [float] arguments alike.  On every argument
    it computes the product of 5/9 and the argument less 32: on a float
    with the float difference; on an int with the exact integer
    difference, converted to a float ([OverflowError] where no float is
    near enough); on a bool as on the int 0 or 1. *)
Theorem convert_fahrenheit_to_celsius_fixed_points :
  convert_fahrenheit_to_celsius (JInt 32) = Ok (Float64.round_Z 0)
  /\ convert_fahrenheit_to_celsius (JInt 212) = Ok (Float64.round_Z 100)
  /\ convert_fahrenheit_to_celsius (JInt (-40)) = Ok (Float64.round_Z (-40))
  /\ convert_fahrenheit_to_celsius (JFloat (Float64.round_Z 32))
     = Ok (Float64.round_Z 0)
  /\ convert_fahrenheit_to_celsius (JFloat (Float64.round_Z 212))
     = Ok (Float64.round_Z 100)
  /\ convert_fahrenheit_to_celsius (JFloat (Float64.round_Z (-40)))
     = Ok (Float64.round_Z (-40))
  /\ (forall f : float,
        convert_fahrenheit_to_celsius (JFloat f)
        = Ok (Float64.mul
                (Float64.div (Float64.round_Z 5) (Float64.round_Z 9))
                (Float64.sub f (Float64.round_Z 32))))
  /\ (forall z : Z,
        convert_fahrenheit_to_celsius (JInt z)
        = match Float64.of_int (z - 32) with
          | Ok y =>
              Ok (Float64.mul
                    (Float64.div (Float64.round_Z 5) (Float64.round_Z 9)) y)
          | Raise e => Raise e
          end)
  /\ (forall b : bool,
        convert_fahrenheit_to_celsius (JBool b)
        = convert_fahrenheit_to_celsius (JInt (if b then 1 else 0))).
Proof.
  do 6 (split; [vm_compute; reflexivity|]).
  split; [intros f; reflexivity|].
  split.
  - intros z. unfold convert_fahrenheit_to_celsius, minus_32, float_times.
    simpl. destruct (Float64.of_int (z - 32)); reflexivity.
  - intros b. reflexivity.
Qed.

(** ** The order of binary64 numbers *)

Ltac cmp_cases :=
  repeat match goal with
         | H : context [Z.compare ?x ?y] |- _ =>
             destruct (Z.compare_spec x y); subst
         | |- context [Z.compare ?x ?y] =>
             destruct (Z.compare_spec x y); subst
         | H : context [Pos.compare ?x ?y] |- _ =>
             destruct (Pos.compare_spec x y); subst
         | |- context [Pos.compare ?x ?y] =>
             destruct (Pos.compare_spec x y); subst
         end;
  simpl in *; try congruence; try lia.

Ltac float_cases a := destruct a as [[]|[]| |[] ? ?].

Lemma SFcompare_antisym (a b : float) (c : comparison) :
  SFcompare a b = Some c -> SFcompare b a = Some (CompOpp c).
Proof.
  float_cases a; float_cases b; simpl; intros H; inversion H; subst; clear H;
    try reflexivity; f_equal;
    change (Pos.compare_cont Eq) with Pos.compare; cmp_cases.
Qed.

Lemma SFcompare_trans (a b c : float) (x y : comparison) :
  SFcompare a b = Some x -> SFcompare b c = Some y ->
  x <> Gt -> y <> Gt ->
  SFcompare a c = Some (match x with Eq => y | _ => Lt end).
Proof.
  float_cases a; float_cases b; float_cases c; simpl; intros H1 H2 Hx Hy;
    inversion H1; subst; clear H1; inversion H2; subst; clear H2;
    try congruence; try reflexivity; f_equal;
    change (Pos.compare_cont Eq) with Pos.compare in *; cmp_cases.
Qed.

Lemma SFcompare_refl (a : float) :
  Float64.is_nan a = false -> SFcompare a a = Some Eq.
Proof.
  float_cases a; simpl; intros H; try discriminate; try reflexivity; f_equal;
    rewrite Z.compare_refl; change (Pos.compare_cont Eq) with Pos.compare;
    rewrite Pos.compare_refl; reflexivity.
Qed.

Lemma SFcompare_total (a b : float) :
  Float64.is_nan a = false -> Float64.is_nan b = false ->
  exists c, SFcompare a b = Some c.
Proof.
  float_cases a; float_cases b; simpl; intros Ha Hb; try discriminate;
    eexists; reflexivity.
Qed.

Lemma ltb_Lt (a b : float) :
  Float64.ltb a b = true <-> SFcompare a b = Some Lt.
Proof.
  unfold Float64.ltb, SFltb.
  destruct (SFcompare a b) as [[]|]; split; congruence.
Qed.

Lemma leb_Lt_Eq (a b : float) :
  Float64.leb a b = true <->
  SFcompare a b = Some Lt \/ SFcompare a b = Some Eq.
Proof.
  unfold Float64.leb, SFleb.
  destruct (SFcompare a b) as [[]|]; split; intros; try tauto;
    try congruence; destruct H; congruence.
Qed.

Lemma eqb_Eq (a b : float) :
  Float64.eqb a b = true <-> SFcompare a b = Some Eq.
Proof.
  unfold Float64.eqb, SFeqb.
  destruct (SFcompare a b) as [[]|]; split; congruence.
Qed.

Lemma ltb_not_nan_l (a b : float) :
  Float64.ltb a b = true -> Float64.is_nan a = false.
Proof.
  rewrite ltb_Lt. float_cases a; simpl; congruence.
Qed.

Lemma ltb_trans (a b c : float) :
  Float64.ltb a b = true -> Float64.ltb b c = true ->
  Float64.ltb a c = true.
Proof.
  rewrite !ltb_Lt. intros H1 H2.
  apply (SFcompare_trans a b c Lt Lt H1 H2); discriminate.
Qed.

Lemma ltb_leb_trans (a b c : float) :
  Float64.ltb a b = true -> Float64.leb b c = true ->
  Float64.ltb a c = true.
Proof.
  rewrite !ltb_Lt, leb_Lt_Eq. intros H1 [H2|H2].
  - apply (SFcompare_trans a b c Lt Lt H1 H2); discriminate.
  - apply (SFcompare_trans a b c Lt Eq H1 H2); discriminate.
Qed.

Lemma ltb_leb (a b : float) :
  Float64.ltb a b = true -> Float64.leb a b = true.
Proof.
  rewrite ltb_Lt, leb_Lt_Eq. tauto.
Qed.

Lemma leb_refl (a : float) :
  Float64.is_nan a = false -> Float64.leb a a = true.
Proof.
  intros H. apply leb_Lt_Eq. right. apply SFcompare_refl, H.
Qed.

Lemma not_ltb_leb (a b : float) :
  Float64.is_nan a = false -> Float64.is_nan b = false ->
  Float64.ltb a b = false -> Float64.leb b a = true.
Proof.
  intros Ha Hb H.
  destruct (SFcompare_total a b Ha Hb) as [c Hc].
  apply leb_Lt_Eq.
  destruct c.
  - right. apply (SFcompare_antisym _ _ _ Hc).
  - apply ltb_Lt in Hc. congruence.
  - left. apply (SFcompare_antisym _ _ _ Hc).
Qed.

Lemma ltb_not_eqb (a b : float) :
  Float64.ltb a b = true -> Float64.eqb b a = false.
Proof.
  rewrite ltb_Lt. intros H. apply SFcompare_antisym in H.
  unfold Float64.eqb, SFeqb. rewrite H. reflexivity.
Qed.

Lemma leb_inf_not_below (a : float) :
  Float64.ltb a Float64.inf = true -> Float64.leb Float64.inf a = false.
Proof.
  float_cases a; cbv; congruence.
Qed.

(** ** Nearest station *)

Section GeoResolverFacts.

Variable distance : float * float -> float * float -> result float.
Variable q : float * float.

Local Abbreviation finite_distances := (finite_distances distance q).

(** The scan from index [i] either keeps the running minimum, which is
    then below every remaining distance, or ends on the first remaining
    station whose distance is below the running minimum and below or
    equal to all the others. *)
Lemma closest_loop_spec (rest : list (float * float)) :
  forall (i idx : Z) (m : float),
    finite_distances rest ->
    Float64.is_nan m = false ->
    (closest_loop distance q i rest idx m = Ok (idx, m)
     /\ forall e d, In e rest -> distance q e = Ok d ->
          Float64.leb m d = true)
    \/ exists (j : nat) (e : float * float) (d : float),
         closest_loop distance q i rest idx m = Ok (i + Z.of_nat j, d)
         /\ rest !! j = Some e
         /\ distance q e = Ok d
         /\ Float64.ltb d m = true
         /\ (forall j' e' d', (j' < j)%nat -> rest !! j' = Some e' ->
               distance q e' = Ok d' -> Float64.ltb d d' = true)
         /\ (forall j' e' d', rest !! j' = Some e' ->
               distance q e' = Ok d' -> Float64.leb d d' = true).
Proof.
  induction rest as [|e rest IH]; intros i idx m Hfin Hm.
  - left. split; [reflexivity | intros e d []].
  - inversion Hfin as [|? ? (d0 & He & Hd0) Hrest]; subst.
    pose proof (ltb_not_nan_l _ _ Hd0) as Hd.
    simpl. rewrite He. simpl.
    destruct (Float64.ltb d0 m) eqn:Hlt.
    + right.
      destruct (IH (i + 1) i d0 Hrest Hd)
        as [[Heq Hall]
           | (j & e1 & d1 & Heq & Hj & Hd1 & Hlt1 & Hbefore & Hall)].
      * exists 0%nat, e, d0. rewrite Heq, Z.add_0_r.
        split; [reflexivity|]. split; [reflexivity|].
        split; [exact He|]. split; [exact Hlt|]. split.
        -- intros j' e' d' Hj'. lia.
        -- intros [|j'] e' d' Hl Hd'; simpl in Hl.
           ++ inversion Hl; subst. rewrite He in Hd'.
              inversion Hd'; subst. apply leb_refl, Hd.
           ++ apply (Hall e'); [|exact Hd'].
              apply list_elem_of_In. eapply list_elem_of_lookup_2, Hl.
      * exists (S j), e1, d1. rewrite Heq.
        split; [do 2 f_equal; lia|]. split; [exact Hj|].
        split; [exact Hd1|].
        split; [eapply ltb_trans; eassumption|]. split.
        -- intros [|j'] e' d' Hj' Hl Hd'; simpl in Hl.
           ++ inversion Hl; subst. rewrite He in Hd'.
              inversion Hd'; subst. exact Hlt1.
           ++ apply (Hbefore j' e'); [lia | exact Hl | exact Hd'].
        -- intros [|j'] e' d' Hl Hd'; simpl in Hl.
           ++ inversion Hl; subst. rewrite He in Hd'.
              inversion Hd'; subst. apply ltb_leb, Hlt1.
           ++ apply (Hall j' e'); [exact Hl | exact Hd'].
    + pose proof (not_ltb_leb _ _ Hd Hm Hlt) as Hle.
      destruct (IH (i + 1) idx m Hrest Hm)
        as [[Heq Hall]
           | (j & e1 & d1 & Heq & Hj & Hd1 & Hlt1 & Hbefore & Hall)].
      * left. split; [exact Heq|].
        intros e' d' [<-|Hin] Hd'.
        -- rewrite He in Hd'. inversion Hd'; subst. exact Hle.
        -- apply (Hall e'); assumption.
      * right. exists (S j), e1, d1. rewrite Heq.
        split; [do 2 f_equal; lia|]. split; [exact Hj|].
        split; [exact Hd1|]. split; [exact Hlt1|]. split.
        -- intros [|j'] e' d' Hj' Hl Hd'; simpl in Hl.
           ++ inversion Hl; subst. rewrite He in Hd'.
              inversion Hd'; subst. eapply ltb_leb_trans; eassumption.
           ++ apply (Hbefore j' e'); [lia | exact Hl | exact Hd'].
        -- intros [|j'] e' d' Hl Hd'; simpl in Hl.
           ++ inversion Hl; subst. rewrite He in Hd'.
              inversion Hd'; subst.
              apply ltb_leb. eapply ltb_leb_trans; eassumption.
           ++ apply (Hall j' e'); [exact Hl | exact Hd'].
Qed.

(** On a frame with a row the scan returns a row of the frame. *)
Lemma identify_closest_coordinates_spec (df : list (float * float)) :
  df <> [] ->
  finite_distances df ->
  exists (j : nat) (e : float * float) (d : float),
    identify_closest_coordinates distance q df = Ok (Z.of_nat j, d)
    /\ df !! j = Some e
    /\ distance q e = Ok d
    /\ Float64.ltb d Float64.inf = true
    /\ (forall j' e' d', (j' < j)%nat -> df !! j' = Some e' ->
          distance q e' = Ok d' -> Float64.ltb d d' = true)
    /\ (forall j' e' d', df !! j' = Some e' ->
          distance q e' = Ok d' -> Float64.leb d d' = true).
Proof.
  intros Hne Hfin.
  unfold identify_closest_coordinates.
  destruct df as [|e0 df]; [congruence|].
  simpl length. simpl Nat.eqb. cbv iota.
  destruct (closest_loop_spec (e0 :: df) 0 (-1) Float64.inf Hfin eq_refl)
    as [[_ Hall] | (j & e & d & Heq & Hj & Hd & Hlt & Hbefore & Hall)].
  - exfalso.
    inversion Hfin as [|? ? (d0 & He & Hd0) _]; subst.
    apply leb_inf_not_below in Hd0.
    rewrite (Hall e0 d0 (or_introl eq_refl) He) in Hd0. discriminate.
  - exists j, e, d. rewrite Heq. simpl.
    split; [reflexivity|]. repeat split; assumption.
Qed.

(** The scan stops at the first row on which the distance raises. *)
Lemma closest_loop_raises (rest : list (float * float)) :
  forall (j : nat) (e : float * float) (x : exn) (i idx : Z) (m : float),
    rest !! j = Some e ->
    distance q e = Raise x ->
    (forall j' e', (j' < j)%nat -> rest !! j' = Some e' ->
       exists d, distance q e' = Ok d) ->
    closest_loop distance q i rest idx m = Raise x.
Proof.
  induction rest as [|e0 rest IH]; intros j e x i idx m Hj He Hbefore.
  - discriminate.
  - destruct j as [|j]; simpl in Hj.
    + inversion Hj; subst. simpl. rewrite He. reflexivity.
    + destruct (Hbefore 0%nat e0) as [d0 Hd0]; [lia | reflexivity |].
      simpl. rewrite Hd0. simpl.
      assert (Hrest : forall j' e', (j' < j)%nat -> rest !! j' = Some e' ->
                exists d, distance q e' = Ok d).
      { intros j' e' Hlt Hl. apply (Hbefore (S j') e'); [lia | exact Hl]. }
      destruct (Float64.ltb d0 m); apply (IH j e x); assumption.
Qed.

End GeoResolverFacts.

(** Whatever the length of geodesics, geopy's distance raises on a point
    that geopy does not accept. *)
Lemma gd_distance_rejects
    (geodesic : float * float -> float * float -> float)
    (a b : float * float) :
  geopy_accepts a = false \/ geopy_accepts b = false ->
  gd_distance geodesic a b = Raise ValueError.
Proof.
  unfold gd_distance. intros [-> | ->]; [reflexivity|].
  rewrite andb_false_r. reflexivity.
Qed.

(** C3: on a frame with a row, on every row of which geopy returns a
    distance, the call returns the index of a row of the frame and the
    distance to that row; this distance is below or equal to the distance
    to every row, and every row at that same distance comes at or after
    the returned index: among the rows at the minimum the first one is
    returned. *)
Theorem identify_closest_coordinates_minimal
    (distance : float * float -> float * float -> result float)
    (q : float * float) (df : list (float * float)) :
  df <> [] ->
  finite_distances distance q df ->
  exists (i : nat) (d : float) (e : float * float),
    identify_closest_coordinates distance q df = Ok (Z.of_nat i, d)
    /\ df !! i = Some e
    /\ distance q e = Ok d
    /\ (forall (j : nat) e' d', df !! j = Some e' ->
          distance q e' = Ok d' -> Float64.leb d d' = true)
    /\ (forall (j : nat) e' d', df !! j = Some e' ->
          distance q e' = Ok d' -> Float64.eqb d' d = true ->
          (i <= j)%nat).
Proof.
  intros Hne Hfin.
  destruct (identify_closest_coordinates_spec distance q df Hne Hfin)
    as (j & e & d & Heq & Hj & Hd & _ & Hbefore & Hall).
  exists j, d, e.
  split; [exact Heq|]. split; [exact Hj|]. split; [exact Hd|].
  split; [exact Hall|].
  intros j' e' d' Hl Hd' Htie.
  destruct (Nat.le_gt_cases j j') as [|Hlt]; [assumption|].
  assert (Hs : Float64.ltb d d' = true).
  { apply (Hbefore j' e'); [lia | exact Hl | exact Hd']. }
  apply ltb_not_eqb in Hs. congruence.
Qed.

Lemma identify_closest_coordinates_minimal_witness :
  Mock.tied_stations <> []
  /\ finite_distances Mock.distance (Mock.point 70 (-160)) Mock.tied_stations
  /\ exists (i : nat) (d : float) (e : float * float),
       identify_closest_coordinates Mock.distance (Mock.point 70 (-160))
         Mock.tied_stations = Ok (Z.of_nat i, d)
       /\ Mock.tied_stations !! i = Some e
       /\ Mock.distance (Mock.point 70 (-160)) e = Ok d
       /\ (forall (j : nat) e' d', Mock.tied_stations !! j = Some e' ->
             Mock.distance (Mock.point 70 (-160)) e' = Ok d' ->
             Float64.leb d d' = true)
       /\ (forall (j : nat) e' d', Mock.tied_stations !! j = Some e' ->
             Mock.distance (Mock.point 70 (-160)) e' = Ok d' ->
             Float64.eqb d' d = true -> (i <= j)%nat).
Proof.
  assert (Hne : Mock.tied_stations <> []) by discriminate.
  assert (Hfin : finite_distances Mock.distance (Mock.point 70 (-160))
                   Mock.tied_stations).
  { repeat (constructor;
            [eexists; split; [vm_compute; reflexivity | reflexivity]|]).
    constructor. }
  split; [exact Hne|]. split; [exact Hfin|].
  exact (identify_closest_coordinates_minimal Mock.distance
           (Mock.point 70 (-160)) Mock.tied_stations Hne Hfin).
Defined.

(** Three of the stations of [Mock.tied_stations] are at the least
    distance 1 from the query; the first of them, at index 1, is
    returned. *)
Example identify_closest_coordinates_tie :
  map (Mock.distance (Mock.point 70 (-160))) Mock.tied_stations
  = [Ok (Float64.round_Z 80); Ok (Float64.round_Z 1);
     Ok (Float64.round_Z 1); Ok (Float64.round_Z 1)]
  /\ identify_closest_coordinates Mock.distance (Mock.point 70 (-160))
       Mock.tied_stations
     = Ok (1, Float64.round_Z 1).
Proof.
  split; vm_compute; reflexivity.
Qed.

(** A frame with a row and numeric coordinates on which no index and no
    distance is returned: geopy raises [ValueError] on the latitude 91 of
    the second row, before any length is measured. *)
Lemma identify_closest_coordinates_rejected_row :
  geopy_accepts (Mock.point 91 0) = false
  /\ identify_closest_coordinates Mock.distance (Mock.point 70 (-160))
       [Mock.point 34 (-116); Mock.point 91 0]
     = Raise ValueError.
Proof.
  split; vm_compute; reflexivity.
Qed.

(** C9: on a frame of [n] rows with a row, on every row of which geopy
    returns a distance, the returned index [i] is within [0 <= i < n], the
    returned distance is the distance to row [i], and neither of the
    initial values -1 and infinity is returned. *)
Theorem identify_closest_coordinates_in_range
    (distance : float * float -> float * float -> result float)
    (q : float * float) (df : list (float * float)) :
  df <> [] ->
  finite_distances distance q df ->
  exists (i : Z) (d : float) (e : float * float),
    identify_closest_coordinates distance q df = Ok (i, d)
    /\ 0 <= i < Z.of_nat (length df)
    /\ df !! Z.to_nat i = Some e
    /\ distance q e = Ok d
    /\ i <> -1
    /\ d <> Float64.inf.
Proof.
  intros Hne Hfin.
  destruct (identify_closest_coordinates_spec distance q df Hne Hfin)
    as (j & e & d & Heq & Hj & Hd & Hlt & _ & _).
  exists (Z.of_nat j), d, e.
  pose proof (lookup_lt_Some _ _ _ Hj) as Hlen.
  split; [exact Heq|]. split; [lia|].
  split; [rewrite Nat2Z.id; exact Hj|]. split; [exact Hd|].
  split; [lia|].
  intros Hinf. rewrite Hinf in Hlt. discriminate.
Qed.

Lemma identify_closest_coordinates_in_range_witness :
  Mock.stations <> []
  /\ finite_distances Mock.distance (Mock.point 70 (-160)) Mock.stations
  /\ exists (i : Z) (d : float) (e : float * float),
       identify_closest_coordinates Mock.distance (Mock.point 70 (-160))
         Mock.stations = Ok (i, d)
       /\ 0 <= i < Z.of_nat (length Mock.stations)
       /\ Mock.stations !! Z.to_nat i = Some e
       /\ Mock.distance (Mock.point 70 (-160)) e = Ok d
       /\ i <> -1
       /\ d <> Float64.inf.
Proof.
  assert (Hne : Mock.stations <> []) by discriminate.
  assert (Hfin : finite_distances Mock.distance (Mock.point 70 (-160))
                   Mock.stations).
  { repeat (constructor;
            [eexists; split; [vm_compute; reflexivity | reflexivity]|]).
    constructor. }
  split; [exact Hne|]. split; [exact Hfin|].
  exact (identify_closest_coordinates_in_range Mock.distance
           (Mock.point 70 (-160)) Mock.stations Hne Hfin).
Defined.

(** A catalog of one station with numeric coordinates on which no index
    is returned: geopy raises [ValueError] on its latitude of -100, before
    any length is measured. *)
Lemma identify_closest_coordinates_no_index :
  geopy_accepts (Mock.point (-100) 20) = false
  /\ identify_closest_coordinates Mock.distance (Mock.point 70 (-160))
       [Mock.point (-100) 20]
     = Raise ValueError.
Proof.
  split; vm_compute; reflexivity.
Qed.

(** ** Bounded retry *)

Section RetryFacts.

Context {W : Type}.
Variable pause : Z -> W -> W.

(** The loop over the indices [i, i+1, ..., i+k-1], the last of which is
    [retry_counter - 1]: after [n] failed attempts, a response that is ok,
    or the response of the last index, is returned with its index. *)
Lemma retry_loop_after_failures (retry_counter sleep_duration : Z)
    (request_func : M W Response) (r : Response) (s1 s2 : state W) :
  request_func s1 = (Ok r, s2) ->
  forall (n i k : nat) (s : state W),
    (n < k)%nat ->
    Z.of_nat (i + k) = retry_counter ->
    after_failures pause n sleep_duration request_func s = Some s1 ->
    ok r = true \/ S n = k ->
    retry_loop pause (map Z.of_nat (seq i k)) retry_counter sleep_duration
      request_func s
    = (Ok (Some (r, Z.of_nat (i + n))), s2).
Proof.
  intros Hcall n.
  induction n as [|n IH]; intros i k s Hk Hrc Hfail Hlast.
  - simpl in Hfail. inversion Hfail; subst s1.
    destruct k as [|k]; [lia|].
    simpl. unfold mbind, M_bind. rewrite Hcall.
    replace (i + 0)%nat with i by lia.
    destruct (ok r) eqn:Hok; [reflexivity|].
    destruct Hlast as [Hlast|Hlast]; [discriminate|].
    assert (Hi : (Z.of_nat i <? retry_counter - 1) = false)
      by (apply Z.ltb_ge; lia).
    rewrite Hi. reflexivity.
  - simpl in Hfail.
    destruct (request_func s) as [[r0|e0] s0] eqn:Hcall0; [|discriminate].
    destruct (ok r0) eqn:Hok0; [discriminate|].
    destruct (sleep pause sleep_duration s0) as [[u|e1] s0'] eqn:Hsleep;
      [|discriminate].
    destruct k as [|k]; [lia|].
    simpl. unfold mbind, M_bind. rewrite Hcall0, Hok0.
    assert (Hi : (Z.of_nat i <? retry_counter - 1) = true)
      by (apply Z.ltb_lt; lia).
    rewrite Hi, Hsleep.
    replace (i + S n)%nat with (S i + n)%nat by lia.
    apply IH; try assumption; try lia.
    destruct Hlast as [Hlast|Hlast]; [left; exact Hlast | right; lia].
Qed.

(** With at least one attempt allowed the loop runs over
    [0, ..., retry_counter - 1]. *)
Lemma retry_request_loop (retry_counter sleep_duration : Z)
    (request_func : M W Response) :
  1 <= retry_counter ->
  retry_request pause retry_counter sleep_duration request_func
  = retry_loop pause (map Z.of_nat (seq 0 (Z.to_nat retry_counter)))
      retry_counter sleep_duration request_func.
Proof.
  intros Hmax. unfold retry_request, range.
  assert (Hc : (retry_counter <? 1) = false) by (apply Z.ltb_ge; lia).
  rewrite Hc. reflexivity.
Qed.

End RetryFacts.

Section RetryCounts.

Context {W : Type}.
Variable network : json -> W -> result Response * W.
Variable pause : Z -> W -> W.

Lemma count_gets_snoc (l : list event) (e : event) :
  count_gets (l ++ [e]) = (count_gets l + (if is_get e then 1 else 0))%nat.
Proof.
  unfold count_gets. rewrite List.filter_app, length_app. simpl.
  destruct (is_get e); reflexivity.
Qed.

Lemma requests_get_count (url : json) (s s' : state W)
    (r : result Response) :
  requests_get network url s = (r, s') ->
  count_gets (log s') = S (count_gets (log s)).
Proof.
  unfold requests_get. destruct (network url (world s)) as [r' w'].
  intros H. inversion H; subst. simpl.
  rewrite count_gets_snoc. simpl. lia.
Qed.

Lemma sleep_count (d : Z) (s s' : state W) (r : result unit) :
  sleep pause d s = (r, s') -> count_gets (log s') = count_gets (log s).
Proof.
  unfold sleep. destruct (d <? 0); intros H; inversion H; subst.
  - reflexivity.
  - simpl. rewrite count_gets_snoc. simpl. lia.
Qed.

(** [n] failed attempts at a URL are [n] requests. *)
Lemma after_failures_count (url : json) (d : Z) (n : nat) :
  forall s s1 : state W,
    after_failures pause n d (requests_get network url) s = Some s1 ->
    count_gets (log s1) = (count_gets (log s) + n)%nat.
Proof.
  induction n as [|n IH]; intros s s1 H; simpl in H.
  - inversion H; subst. lia.
  - destruct (requests_get network url s) as [[r|e] s0] eqn:Hget;
      [|discriminate].
    destruct (ok r); [discriminate|].
    destruct (sleep pause d s0) as [[u|e] s0'] eqn:Hsleep; [|discriminate].
    rewrite (IH _ _ H), (sleep_count _ _ _ _ Hsleep),
      (requests_get_count _ _ _ _ Hget).
    lia.
Qed.

End RetryCounts.

(** C4, as amended: with [max_attempts >= 1], when the first [n] attempts
    fail and attempt [n + 1] is ok, or is attempt number [max_attempts],
    [retry_request] returns the response of attempt [n + 1] and the state
    that this attempt left, so no further call is made; the integer
    returned with it is the index [n] of that attempt, counted from 0,
    which is [max_attempts - 1] when every attempt failed. *)
Theorem retry_request_returns_last_index {W : Type} (pause : Z -> W -> W)
    (max_attempts sleep_duration : Z) (request_func : M W Response)
    (n : nat) (r : Response) (s s1 s2 : state W) :
  1 <= max_attempts ->
  Z.of_nat n < max_attempts ->
  after_failures pause n sleep_duration request_func s = Some s1 ->
  request_func s1 = (Ok r, s2) ->
  ok r = true \/ Z.of_nat n = max_attempts - 1 ->
  retry_request pause max_attempts sleep_duration request_func s
  = (Ok (Some (r, Z.of_nat n)), s2).
Proof.
  intros Hmax Hn Hfail Hcall Hlast.
  rewrite retry_request_loop by exact Hmax.
  change (Z.of_nat n) with (Z.of_nat (0 + n)).
  eapply retry_loop_after_failures; try eassumption; try lia.
  destruct Hlast as [Hlast|Hlast]; [left; exact Hlast | right; lia].
Qed.

(** For requests to a URL, the attempts leave one request each in the
    log: [n + 1] requests when the response of attempt [n + 1] is
    returned, which is [max_attempts] requests when every attempt failed. *)
Lemma retry_request_get_count {W : Type}
    (network : json -> W -> result Response * W) (pause : Z -> W -> W)
    (max_attempts sleep_duration : Z) (url : json)
    (n : nat) (r : Response) (s s1 s2 : state W) :
  1 <= max_attempts ->
  Z.of_nat n < max_attempts ->
  after_failures pause n sleep_duration (requests_get network url) s
  = Some s1 ->
  requests_get network url s1 = (Ok r, s2) ->
  ok r = true \/ Z.of_nat n = max_attempts - 1 ->
  exists s' : state W,
    retry_request pause max_attempts sleep_duration
      (requests_get network url) s
    = (Ok (Some (r, Z.of_nat n)), s')
    /\ count_gets (log s') = (count_gets (log s) + n + 1)%nat.
Proof.
  intros Hmax Hn Hfail Hget Hlast.
  exists s2. split.
  - rewrite retry_request_loop by exact Hmax.
    change (Z.of_nat n) with (Z.of_nat (0 + n)).
    eapply retry_loop_after_failures; try eassumption; try lia.
    destruct Hlast as [Hlast|Hlast]; [left; exact Hlast | right; lia].
  - rewrite (requests_get_count _ _ _ _ _ Hget),
      (after_failures_count _ _ _ _ _ _ _ Hfail).
    lia.
Qed.

Lemma retry_request_returns_last_index_witness :
  exists s2 : state Mock.World,
    retry_request Mock.pause 3 4
      (requests_get Mock.network Mock.station_url)
      (Mock.start (repeat (Mock.not_ok JNull) 3) [])
    = (Ok (Some (Mock.not_ok JNull, Z.of_nat 2)), s2).
Proof.
  eexists.
  eapply (retry_request_returns_last_index Mock.pause 3 4
            (requests_get Mock.network Mock.station_url) 2).
  - lia.
  - lia.
  - vm_compute. reflexivity.
  - vm_compute. reflexivity.
  - right. reflexivity.
Defined.

(** C4, the claim as stated fails: on three attempts that all fail the
    operation is called three times and the integer returned with the last
    response is 2. *)
Lemma retry_request_index_is_not_count :
  exists (r : Response) (n : Z) (s' : state Mock.World),
    retry_request Mock.pause 3 4
      (requests_get Mock.network Mock.station_url)
      (Mock.start (repeat (Mock.not_ok JNull) 3) [])
    = (Ok (Some (r, n)), s')
    /\ ok r = false
    /\ count_gets (log s') = 3%nat
    /\ n <> Z.of_nat (count_gets (log s')).
Proof.
  do 3 eexists. split; [vm_compute; reflexivity|].
  split; [reflexivity|]. split; [reflexivity|].
  vm_compute. discriminate.
Qed.

(** C8: with [max_attempts] below 1 (written [- n] for a natural [n]) the
    operation is not called and nothing is raised, but what is returned is
    [None] and not a (response, attempts) pair: unpacking it as both call
    sites do raises [TypeError]. *)
Theorem retry_request_no_attempts_returns_None {W : Type}
    (pause : Z -> W -> W) (n : nat) (sleep_duration : Z)
    (request_func : M W Response) (s : state W) :
  retry_request pause (- Z.of_nat n) sleep_duration request_func s
  = (Ok None, s)
  /\ (x ← retry_request pause (- Z.of_nat n) sleep_duration request_func;
      unpack x) s
     = (Raise TypeError, s).
Proof.
  assert (H : retry_request pause (- Z.of_nat n) sleep_duration request_func s
              = (Ok None, s)).
  { unfold retry_request.
    assert (Hc : (- Z.of_nat n <? 1) = true) by (apply Z.ltb_lt; lia).
    rewrite Hc. reflexivity. }
  split; [exact H|].
  unfold mbind, M_bind. rewrite H. reflexivity.
Qed.

(** ** Current weather *)

Lemma bind_Ok {W A B : Type} (m : M W A) (f : A -> M W B) (a : A)
    (s s' : state W) :
  m s = (Ok a, s') -> (m ≫= f) s = f a s'.
Proof.
  intros H. unfold mbind, M_bind. rewrite H. reflexivity.
Qed.

Lemma bind_Raise {W A B : Type} (m : M W A) (f : A -> M W B) (e : exn)
    (s s' : state W) :
  m s = (Raise e, s') -> (m ≫= f) s = (Raise e, s').
Proof.
  intros H. unfold mbind, M_bind. rewrite H. reflexivity.
Qed.

Section CurrentWeatherFacts.

Context {W : Type}.
Variable network : json -> W -> result Response * W.
Variable pause : Z -> W -> W.
Variable str_float : float -> string.

Local Abbreviation station_lookup c :=
  (retry_request pause 3 4
     (request_station_information network str_float
        (latitude c, longitude c))).

Local Abbreviation forecast_lookup url :=
  (retry_request pause 3 4 (requests_get network url)).

(** X4: a station lookup whose final response is not ok and carries a
    string [type] field ends the request there, with
    [invalid_input_coordinates_message] when the lowered field contains
    "invalidpoint" and [invalid_weather_api_response_message] otherwise,
    and in the state that the lookup left: the forecast is not
    requested. *)
Lemma request_current_weather_station_not_ok (coordinates : Coordinates)
    (s s1 : state W) (station_response : Response) (i : Z) (t : string) :
  station_lookup coordinates s = (Ok (Some (station_response, i)), s1) ->
  ok station_response = false ->
  error_type_of station_response = Ok (JStr t) ->
  request_current_weather network pause str_float coordinates s
  = (Ok (CurrentWeather_init false
           (if str_contains "invalidpoint" (lower t)
            then invalid_input_coordinates_message
            else invalid_weather_api_response_message)),
     s1).
Proof.
  intros Hlookup Hok Htype.
  unfold request_current_weather. cbv zeta.
  rewrite (bind_Ok _ _ _ _ _ Hlookup).
  cbn [unpack]. rewrite (bind_Ok _ _ (station_response, i) s1 s1 eq_refl).
  rewrite Hok, Htype.
  unfold mbind, M_bind, lift, mret, M_ret. cbn [py_lower].
  destruct (str_contains "invalidpoint" (lower t)); reflexivity.
Qed.

(** C6: when the station lookup succeeds, the forecast URL is found and
    the final response of the forecast lookup is not ok, the result is a
    [CurrentWeather] with [valid_response] false and an empty
    [error_message] (every other field at its default). *)
Theorem request_current_weather_forecast_not_ok (coordinates : Coordinates)
    (s s1 s2 : state W) (station_response forecast_response : Response)
    (i k : Z) (forecast_url : json) :
  station_lookup coordinates s = (Ok (Some (station_response, i)), s1) ->
  ok station_response = true ->
  forecast_url_of station_response = Ok forecast_url ->
  forecast_lookup forecast_url s1 = (Ok (Some (forecast_response, k)), s2) ->
  ok forecast_response = false ->
  exists c : CurrentWeather,
    request_current_weather network pause str_float coordinates s
    = (Ok c, s2)
    /\ valid_response c = false
    /\ error_message c = ""
    /\ c = CurrentWeather_init false "".
Proof.
  intros Hstation Hok Hurl Hforecast Hnot.
  exists (CurrentWeather_init false "").
  repeat split.
  unfold request_current_weather. cbv zeta.
  rewrite (bind_Ok _ _ _ _ _ Hstation).
  cbn [unpack]. rewrite (bind_Ok _ _ (station_response, i) s1 s1 eq_refl).
  rewrite Hok, Hurl. cbn [try_except].
  rewrite (bind_Ok _ _ _ _ _ Hforecast).
  cbn [unpack]. rewrite (bind_Ok _ _ (forecast_response, k) s2 s2 eq_refl).
  rewrite Hnot. reflexivity.
Qed.

End CurrentWeatherFacts.

Lemma request_current_weather_forecast_not_ok_witness :
  exists (s2 : state Mock.World) (c : CurrentWeather),
    request_current_weather Mock.network Mock.pause Mock.str_float
      Mock.coordinates
      (Mock.start [Mock.is_ok Mock.station_json]
         (repeat (Mock.not_ok JNull) 3))
    = (Ok c, s2)
    /\ valid_response c = false
    /\ error_message c = ""
    /\ c = CurrentWeather_init false "".
Proof.
  eexists.
  eapply (request_current_weather_forecast_not_ok Mock.network Mock.pause
            Mock.str_float Mock.coordinates
            (Mock.start [Mock.is_ok Mock.station_json]
               (repeat (Mock.not_ok JNull) 3))
            _ _ (Mock.is_ok Mock.station_json) (Mock.not_ok JNull) 0 2
            (JStr Mock.forecast_url)).
  - vm_compute. reflexivity.
  - reflexivity.
  - vm_compute. reflexivity.
  - vm_compute. reflexivity.
  - reflexivity.
Defined.

(** C1: a station lookup whose final response is not ok makes
    [request_current_weather] raise when the body of that response has no
    [type] field ([KeyError]), is not JSON ([JSONDecodeError]), or has a
    [type] that is not a string ([AttributeError]); in each case only the
    station endpoint was called, three times. *)
Theorem request_current_weather_station_not_ok_raises :
  let run (r : Response) :=
    request_current_weather Mock.network Mock.pause Mock.str_float
      Mock.coordinates
      (Mock.start (repeat r 3) [Mock.is_ok (Mock.forecast_json (JInt 23))])
  in
  let station_calls_only (r : Response) :=
    log (snd (run r))
    = [Get Mock.station_url; Sleep 4; Get Mock.station_url; Sleep 4;
       Get Mock.station_url]
  in
  fst (run (Mock.not_ok (JDict []))) = Raise KeyError
  /\ station_calls_only (Mock.not_ok (JDict []))
  /\ fst (run (mkResponse false None)) = Raise JSONDecodeError
  /\ station_calls_only (mkResponse false None)
  /\ fst (run (Mock.not_ok (JDict [("type", JNull)]))) = Raise AttributeError
  /\ station_calls_only (Mock.not_ok (JDict [("type", JNull)])).
Proof.
  repeat split; vm_compute; reflexivity.
Qed.

(** C10: a station lookup and a forecast lookup that both succeed, with a
    forecast temperature of 8000 degrees Fahrenheit, give a valid
    [CurrentWeather] without error message whose [temperature_celsius] is
    the conversion of 8000, above 150 and so outside the bound declared
    on the field. *)
Theorem request_current_weather_temperature_unchecked :
  exists (s' : state Mock.World) (c : CurrentWeather),
    request_current_weather Mock.network Mock.pause Mock.str_float
      Mock.coordinates
      (Mock.start [Mock.is_ok Mock.station_json]
         [Mock.is_ok (Mock.forecast_json (JInt 8000))])
    = (Ok c, s')
    /\ valid_response c = true
    /\ error_message c = ""
    /\ convert_fahrenheit_to_celsius (JInt 8000)
       = Ok (temperature_celsius c)
    /\ Float64.ltb (Float64.round_Z 150) (temperature_celsius c) = true
    /\ temperature_celsius_in_bound (temperature_celsius c) = false.
Proof.
  do 2 eexists. split; [vm_compute; reflexivity|].
  repeat split.
Qed.

(** ** Same-day window *)

Section WindowExtractorFacts.

Variable Row : Type.
Variable col_id : Row -> Z.
Variable col_date : Row -> datetime.

Local Abbreviation gather := (gather Row).
Local Abbreviation with_row_index := (with_row_index Row).
Local Abbreviation target_date_idx := (target_date_idx Row col_id col_date).
Local Abbreviation on_target := (on_target Row col_id col_date).

(** Gathering a list of indices one of which is outside the frame
    raises. *)
Lemma gather_out_of_bounds (l : list Row) (idx : list Z) (i : Z) :
  In i idx -> ~ (0 <= i < Z.of_nat (length l)) ->
  gather l idx = Raise OutOfBoundsError.
Proof.
  intros Hin Hout.
  induction idx as [|a idx IH]; [destruct Hin|].
  simpl.
  destruct ((0 <=? a) && (a <? Z.of_nat (length l))) eqn:Hrange;
    [|reflexivity].
  destruct (l !! Z.to_nat a) as [r|]; [|reflexivity].
  destruct Hin as [->|Hin]; [lia|].
  rewrite (IH Hin). reflexivity.
Qed.

Lemma with_row_index_app (l1 l2 : list Row) :
  forall i : Z,
    with_row_index i (l1 ++ l2)
    = with_row_index i l1 ++ with_row_index (i + Z.of_nat (length l1)) l2.
Proof.
  induction l1 as [|r l1 IH]; intros i; simpl.
  - rewrite Z.add_0_r. reflexivity.
  - rewrite IH. do 3 f_equal. lia.
Qed.

Lemma is_sorted_cons (a : Z) (l : list Z) :
  Forall (fun j => a <= j) l -> is_sorted l = true ->
  is_sorted (a :: l) = true.
Proof.
  intros Hall Hs. destruct l as [|b l]; [reflexivity|].
  inversion Hall; subst.
  change (is_sorted (a :: b :: l)) with ((a <=? b) && is_sorted (b :: l)).
  rewrite Hs, andb_true_r. apply Z.leb_le. assumption.
Qed.

(** The indices of the filtered rows come in increasing order, so the
    assertion on them never fails. *)
Lemma target_date_idx_sorted (id : Z) (target : datetime) (l : list Row) :
  forall i : Z,
    Forall (fun j => i <= j) (map snd (target_date_idx i l id target))
    /\ is_sorted (map snd (target_date_idx i l id target)) = true.
Proof.
  unfold target_date_idx.
  induction l as [|r l IH]; intros i; simpl.
  - split; [constructor | reflexivity].
  - destruct (IH (i + 1)) as [Hall Hs].
    assert (Hall' : Forall (fun j => i <= j)
              (map snd
                 (map (fun p => (date_of (col_date p.2), p.1))
                    (List.filter (fun p => on_target id target p.2)
                       (with_row_index (i + 1) l))))).
    { eapply Forall_impl; [exact Hall|]. simpl. intros. lia. }
    destruct (on_target id target r); simpl.
    + split.
      * constructor; [lia | exact Hall'].
      * apply is_sorted_cons; assumption.
    + split; assumption.
Qed.

Lemma group_by_snoc (t : list (Z * Z * Z * Z)) (d : Z * Z * Z) (i : Z) :
  group_by (t ++ [(d, i)]) = add_to_group d i (group_by t).
Proof.
  unfold group_by. rewrite fold_left_app. reflexivity.
Qed.

Lemma add_to_group_last (d : Z * Z * Z) (i : Z)
    (groups : list (Z * Z * Z * list Z)) :
  In i (concat (map group_last (add_to_group d i groups))).
Proof.
  induction groups as [|[d' ixs] groups IH]; simpl.
  - left. reflexivity.
  - destruct (date_eqb d d'); simpl.
    + apply in_or_app. left.
      unfold group_last. simpl. rewrite last_snoc. left. reflexivity.
    + apply in_or_app. right. exact IH.
Qed.

Lemma add_to_group_first (d : Z * Z * Z) (i i0 : Z)
    (groups : list (Z * Z * Z * list Z)) :
  (exists d0 ixs rest, groups = (d0, i0 :: ixs) :: rest) ->
  exists d0 ixs rest, add_to_group d i groups = (d0, i0 :: ixs) :: rest.
Proof.
  intros (d0 & ixs & rest & ->). simpl.
  destruct (date_eqb d d0); repeat eexists.
Qed.

Lemma group_by_first (t : list (Z * Z * Z * Z)) (d : Z * Z * Z) (i0 : Z) :
  In i0 (concat (map group_first (group_by ((d, i0) :: t)))).
Proof.
  assert (H : exists d0 ixs rest,
              group_by ((d, i0) :: t) = (d0, i0 :: ixs) :: rest).
  { unfold group_by. simpl.
    assert (Hgen : forall groups,
               (exists d0 ixs rest, groups = (d0, i0 :: ixs) :: rest) ->
               exists d0 ixs rest,
                 fold_left (fun groups '(d, i) => add_to_group d i groups)
                   t groups
                 = (d0, i0 :: ixs) :: rest).
    { induction t as [|[d1 i1] t IH]; intros groups Hg; simpl.
      - exact Hg.
      - apply IH. apply add_to_group_first. exact Hg. }
    apply Hgen. repeat eexists. }
  destruct H as (d0 & ixs & rest & ->). simpl. left. reflexivity.
Qed.

Section Boundaries.

Variable df : DataFrame Row.
Variable output_colnames : list string.
Variable id : Z.
Variable id_colname date_colname : string.
Variable target_datetime : datetime.

(** The pre-checks on the column names pass, the frame has no column
    [index] of its own, and it is of a size that a 32-bit row index can
    count. *)
Hypothesis output_colnames_not_empty : output_colnames <> [].
Hypothesis no_index_column : in_columns "index" (columns Row df) = false.
Hypothesis id_colname_in_columns : in_columns id_colname (columns Row df) = true.
Hypothesis date_colname_in_columns :
  in_columns date_colname (columns Row df) = true.
Hypothesis output_colnames_in_columns :
  forallb (fun e => in_columns e (columns Row df)) output_colnames = true.
Hypothesis small_frame : Z.of_nat (length (rows Row df)) < 2 ^ 32.

Local Abbreviation run :=
  (filter_df_by_id_and_date Row col_id col_date df output_colnames id
     id_colname date_colname target_datetime).

Lemma on_target_id (r : Row) :
  on_target id target_datetime r = true -> (col_id r =? id) = true.
Proof.
  unfold on_target. intros H.
  apply andb_prop in H as [H _]. apply andb_prop in H as [H _]. exact H.
Qed.

Lemma run_gathers (r : Row) :
  In r (rows Row df) ->
  on_target id target_datetime r = true ->
  run
  = (let tdi := target_date_idx 0 (rows Row df) id target_datetime in
     df1 ← gather (rows Row df)
            (map snd tdi
             ++ pre_target_date_start_idx tdi
             ++ post_target_date_end_idx tdi);
     if has_duplicates output_colnames then Raise DuplicateError
     else if in_columns date_colname output_colnames
     then Ok (sort_by_date Row col_date df1)
     else Raise ColumnNotFoundError).
Proof.
  intros Hin Hr.
  unfold filter_df_by_id_and_date.
  assert (H1 : (0 <? length (rows Row df))%nat = true).
  { destruct (rows Row df); [destruct Hin | reflexivity]. }
  assert (H2 : (0 <? length output_colnames)%nat = true).
  { destruct output_colnames; [congruence | reflexivity]. }
  assert (H3 : existsb (fun r => col_id r =? id) (rows Row df) = true).
  { apply existsb_exists. exists r. split; [exact Hin|].
    apply on_target_id, Hr. }
  rewrite H1, H2, id_colname_in_columns, date_colname_in_columns,
    output_colnames_in_columns, H3, no_index_column.
  cbn [negb]. cbv zeta.
  rewrite (proj2 (target_date_idx_sorted id target_datetime
                    (rows Row df) 0)).
  reflexivity.
Qed.

(** X27: on a frame of fewer than 2^32 rows that passes the pre-checks on
    the column names, has no column [index] of its own and whose first
    row has the id and is on the target day, the function raises an
    out-of-bounds error: the index before row 0 wraps around in the
    unsigned index column. *)
Lemma first_row_on_target_raises (r : Row) (l : list Row) :
  rows Row df = r :: l ->
  on_target id target_datetime r = true ->
  run = Raise OutOfBoundsError.
Proof.
  intros Hrows Hr.
  rewrite (run_gathers r); [|rewrite Hrows; left; reflexivity | exact Hr].
  cbv zeta.
  rewrite (gather_out_of_bounds _ _ (u32 (0 - 1))); [reflexivity | |].
  - apply in_or_app. right. apply in_or_app. left.
    unfold pre_target_date_start_idx.
    apply (List.in_map (fun i => u32 (i - 1)) _ 0). rewrite Hrows.
    unfold target_date_idx. simpl. rewrite Hr. simpl.
    apply group_by_first.
  - change (u32 (0 - 1)) with 4294967295. lia.
Qed.

(** X28: on a frame of fewer than 2^32 rows that passes the pre-checks on
    the column names, has no column [index] of its own and whose last row
    has the id and is on the target day, the function raises an
    out-of-bounds error: the index after the last row is the length of
    the frame. *)
Lemma last_row_on_target_raises (r : Row) (l : list Row) :
  rows Row df = l ++ [r] ->
  on_target id target_datetime r = true ->
  run = Raise OutOfBoundsError.
Proof.
  intros Hrows Hr.
  rewrite (run_gathers r);
    [|rewrite Hrows; apply in_or_app; right; left; reflexivity | exact Hr].
  cbv zeta.
  rewrite (gather_out_of_bounds _ _ (u32 (Z.of_nat (length l) + 1)));
    [reflexivity | |].
  - apply in_or_app. right. apply in_or_app. right.
    unfold post_target_date_end_idx.
    apply (List.in_map (fun i => u32 (i + 1)) _ (Z.of_nat (length l))).
    rewrite Hrows.
    unfold target_date_idx.
    rewrite with_row_index_app, List.filter_app, map_app. simpl.
    rewrite Hr. simpl.
    rewrite group_by_snoc. apply add_to_group_last.
  - rewrite Hrows, length_app in *. simpl in *.
    unfold u32. rewrite Z.mod_small; lia.
Qed.

End Boundaries.

End WindowExtractorFacts.

(** The example of the docstring: the rows of January 2 for id 5, with the
    row before and the row after. *)
Example filter_df_by_id_and_date_docstring :
  Mock.extract Mock.docstring_df 5 (Mock.at_ 2000 1 2 0)
  = Ok [Mock.row 5 (Mock.at_ 2020 1 1 12); Mock.row 5 (Mock.at_ 2020 1 2 0);
        Mock.row 5 (Mock.at_ 2020 1 2 12); Mock.row 5 (Mock.at_ 2020 1 3 0)].
Proof.
  vm_compute. reflexivity.
Qed.

(** C2: on a series whose first record is on the target day, and on a
    series whose last record is on the target day, the function raises
    instead of returning the matched records without the missing bracket:
    the index before row 0 wraps around to [2^32 - 1], the index after the
    last row is the length of the frame, and gathering either of them is
    out of bounds. *)
Theorem filter_df_by_id_and_date_boundary_raises :
  Mock.extract Mock.starts_on_target_df 5 (Mock.at_ 2000 1 2 0)
  = Raise OutOfBoundsError
  /\ Mock.extract Mock.ends_on_target_df 5 (Mock.at_ 2000 1 2 0)
     = Raise OutOfBoundsError
  /\ u32 (0 - 1) = 4294967295.
Proof.
  repeat split; vm_compute; reflexivity.
Qed.

(** ** The annual aggregate *)

Lemma check_nil (field : string) (b : bool) : check field b = [] -> b = true.
Proof.
  destruct b; [reflexivity | discriminate].
Qed.

(** C5, as amended: a construction of [AnnualWeather] in which one of the
    six bounded numeric fields (distance, the two station ids, latitude,
    longitude, elevation) is outside its bound fails with
    [ValidationError]. *)
Theorem AnnualWeather_init_checks_bounds
    (current_temperature_celsius : float)
    (current_station current_city current_state : json)
    (current_error_message : string)
    (distance_to_station_kilometers : float)
    (annual_timestamp : list datetime)
    (annual_temperature_celsius : list float)
    (annual_usaf_station_id annual_wban_station_id : Z)
    (annual_station_name annual_station_state annual_station_call : string)
    (annual_station_latitude annual_station_longitude
     annual_station_elevation_meters : float) :
  Float64.in_range 0 21000 distance_to_station_kilometers = false
  \/ ~ (0 <= annual_usaf_station_id < 1000000)
  \/ ~ (0 <= annual_wban_station_id < 100000)
  \/ Float64.in_range (-90) 90 annual_station_latitude = false
  \/ Float64.in_range (-180) 180 annual_station_longitude = false
  \/ Float64.in_range (-440) 8850 annual_station_elevation_meters = false ->
  AnnualWeather_init current_temperature_celsius
    current_station current_city current_state current_error_message
    distance_to_station_kilometers annual_timestamp
    annual_temperature_celsius annual_usaf_station_id annual_wban_station_id
    annual_station_name annual_station_state annual_station_call
    annual_station_latitude annual_station_longitude
    annual_station_elevation_meters
  = Raise ValidationError.
Proof.
  intros Hout.
  unfold AnnualWeather_init.
  destruct (validate_str "current_station" current_station) as [e1 station].
  destruct (validate_str "current_city" current_city) as [e2 city].
  destruct (validate_str "current_state" current_state) as [e3 state].
  match goal with
  | |- match ?errors with [] => _ | _ :: _ => _ end = _ =>
      destruct errors eqn:E; [exfalso | reflexivity]
  end.
  repeat match type of E with
         | (_ ++ _)%list = [] => apply app_eq_nil in E; destruct E as [? E]
         end.
  repeat match goal with
         | H : check _ _ = [] |- _ => apply check_nil in H
         end.
  destruct Hout as [H'|[H'|[H'|[H'|[H'|H']]]]]; try congruence; lia.
Qed.

Lemma AnnualWeather_init_checks_bounds_witness :
  AnnualWeather_init (Float64.round_Z 20)
    (JStr "KILX") (JStr "Homer") (JStr "IL") ""
    (Float64.round_Z 33) [] [] 999999 54808 "CHAMPAIGN 9 SW" "IL" "XXX"
    (Float64.round_Z 91) (Float64.round_Z (-88)) (Float64.round_Z 213)
  = Raise ValidationError.
Proof.
  apply AnnualWeather_init_checks_bounds.
  right. right. right. left. vm_compute. reflexivity.
Defined.

(** C5, the claim as stated fails: the [CurrentWeather] of a request that
    found no forecast URL holds the default temperature -9999, outside the
    bound from -150 to 150 declared on [CurrentWeather], and the
    [AnnualWeather] built from it is constructed with that value. *)
Lemma AnnualWeather_accepts_default_temperature :
  exists a : AnnualWeather,
    compile_annual_weather
      (CurrentWeather_init false forecast_url_missing_message)
      (Float64.round_Z 33)
      [Mock.at_ 2019 1 1 8; Mock.at_ 2019 1 1 16]
      [Float64.round_Z (-2); Float64.round_Z 0]
      Mock.station_data
    = Ok a
    /\ current_temperature_celsius a = Float64.round_Z (-9999)
    /\ temperature_celsius_in_bound (current_temperature_celsius a) = false.
Proof.
  eexists. split; [vm_compute; reflexivity|].
  split; vm_compute; reflexivity.
Qed.

(** ** The unit tests of [request_current_weather], run on the model *)

Section UnitTests.

Import Mock.

(** [test_request_current_weather_02]: both lookups succeed. *)
Example test_request_current_weather_02 :
  run [Mock.is_ok Mock.station_json] [forecast_23]
  = (Ok {| valid_response := true;
           temperature_celsius := celsius_23;
           radar_station := JStr "KILX";
           coordinates_city := JStr "Homer";
           coordinates_state := JStr "IL";
           error_message := "" |},
     [Get Mock.station_url; forecast_get]).
Proof. vm_compute. reflexivity. Qed.

(** [test_request_current_weather_03]: no forecast URL in the station
    answer; the forecast is not requested. *)
Example test_request_current_weather_03 :
  run [Mock.is_ok (JDict [])] [forecast_23]
  = (Ok (CurrentWeather_init false forecast_url_missing_message),
     [Get Mock.station_url]).
Proof. vm_compute. reflexivity. Qed.

(** [test_request_current_weather_04]: the station answer is not ok and
    names an invalid point. *)
Example test_request_current_weather_04 :
  run (repeat (Mock.not_ok (JDict [("type", JStr "invalidPoint")])) 3)
    [forecast_23]
  = (Ok (CurrentWeather_init false invalid_input_coordinates_message),
     [Get Mock.station_url; Sleep 4; Get Mock.station_url; Sleep 4;
      Get Mock.station_url]).
Proof. vm_compute. reflexivity. Qed.

(** [test_request_current_weather_05]: the station answer is not ok, with
    an empty type. *)
Example test_request_current_weather_05 :
  run (repeat (Mock.not_ok (JDict [("type", JStr "")])) 3) [forecast_23]
  = (Ok (CurrentWeather_init false invalid_weather_api_response_message),
     [Get Mock.station_url; Sleep 4; Get Mock.station_url; Sleep 4;
      Get Mock.station_url]).
Proof. vm_compute. reflexivity. Qed.

(** [test_request_current_weather_06]: no temperature in the forecast. *)
Example test_request_current_weather_06 :
  run [Mock.is_ok Mock.station_json]
    [Mock.is_ok
       (JDict [("properties", JDict [("periods", JList [JDict []])])])]
  = (Ok (CurrentWeather_init true temperature_missing_message),
     [Get Mock.station_url; forecast_get]).
Proof. vm_compute. reflexivity. Qed.

(** [test_request_current_weather_07]: no city in the station answer. *)
Example test_request_current_weather_07 :
  run [Mock.is_ok
         (JDict [("properties",
                  JDict [("forecast", JStr Mock.forecast_url);
                         ("relativeLocation",
                          JDict [("properties",
                                  JDict [("state", JStr "IL")])]);
                         ("radarStation", JStr "XXX")])])]
    [forecast_23]
  = (Ok (set_temperature_celsius
           (CurrentWeather_init true location_missing_message) celsius_23),
     [Get Mock.station_url; forecast_get]).
Proof. vm_compute. reflexivity. Qed.

(** [test_request_current_weather_08]: the forecast answer is not ok. *)
Example test_request_current_weather_08 :
  run [Mock.is_ok Mock.station_json]
    (repeat (Mock.not_ok (Mock.forecast_json (JInt 23))) 3)
  = (Ok (CurrentWeather_init false ""),
     [Get Mock.station_url; forecast_get; Sleep 4; forecast_get; Sleep 4;
      forecast_get]).
Proof. vm_compute. reflexivity. Qed.

(** [test_identify_closest_coordinates_05], with the stand-in distance:
    the third station is at the query point. *)
Example test_identify_closest_coordinates_05 :
  identify_closest_coordinates Mock.distance (Mock.point 70 (-160))
    Mock.stations
  = Ok (2, Float64.round_Z 0).
Proof. vm_compute. reflexivity. Qed.

(** [test_identify_closest_coordinates_01]: an empty frame fails the
    assertion. *)
Example test_identify_closest_coordinates_01 :
  identify_closest_coordinates Mock.distance (Mock.point 70 (-160)) []
  = Raise AssertionError.
Proof. reflexivity. Qed.

End UnitTests.

(* ================================================================== *)
(** * Further properties of the code *)
(* ================================================================== *)

(** ** Bounded retry: what a call can return *)

Section RetryOutcomes.

Context {W : Type}.
Variable pause : Z -> W -> W.

(** The loop over [i, ..., i+k-1] with [i + k = retry_counter]: a result
    that is not an exception is [None] only when there is no index at
    all; otherwise it is a response with its index, and the response is ok
    unless the index is the last one. *)
Lemma retry_loop_outcome (retry_counter sleep_duration : Z)
    (request_func : M W Response) :
  forall (k i : nat) (s s' : state W) (x : option (Response * Z)),
    Z.of_nat (i + k) = retry_counter ->
    retry_loop pause (map Z.of_nat (seq i k)) retry_counter sleep_duration
      request_func s = (Ok x, s') ->
    (k = 0%nat /\ x = None)
    \/ exists (r : Response) (j : Z),
         x = Some (r, j)
         /\ Z.of_nat i <= j < retry_counter
         /\ (ok r = true \/ j = retry_counter - 1).
Proof.
  induction k as [|k IH]; intros i s s' x Hrc Hrun; simpl in Hrun.
  - left. inversion Hrun. split; reflexivity.
  - right. unfold mbind, M_bind in Hrun.
    destruct (request_func s) as [[r|e] s0]; [|discriminate].
    destruct (ok r) eqn:Hok.
    + inversion Hrun; subst. exists r, (Z.of_nat i).
      repeat split; try lia. left. exact Hok.
    + destruct (Z.of_nat i <? retry_counter - 1) eqn:Hi.
      * apply Z.ltb_lt in Hi.
        destruct (sleep pause sleep_duration s0) as [[u|e] s1];
          [|discriminate].
        destruct (IH (S i) s1 s' x ltac:(lia) Hrun)
          as [[Hk _] | (r' & j & Hx & Hj & Hlast)]; [lia|].
        exists r', j. repeat split; try lia; assumption.
      * apply Z.ltb_ge in Hi. inversion Hrun; subst.
        exists r, (Z.of_nat i). repeat split; lia.
Qed.

(** After [n] failed attempts, an exception raised by the next attempt
    leaves the loop at once. *)
Lemma retry_loop_raise (retry_counter sleep_duration : Z)
    (request_func : M W Response) (e : exn) (s1 s2 : state W) :
  request_func s1 = (Raise e, s2) ->
  forall (n i k : nat) (s : state W),
    (n < k)%nat ->
    Z.of_nat (i + k) = retry_counter ->
    after_failures pause n sleep_duration request_func s = Some s1 ->
    retry_loop pause (map Z.of_nat (seq i k)) retry_counter sleep_duration
      request_func s
    = (Raise e, s2).
Proof.
  intros Hcall n.
  induction n as [|n IH]; intros i k s Hk Hrc Hfail.
  - simpl in Hfail. inversion Hfail; subst s1.
    destruct k as [|k]; [lia|].
    simpl. unfold mbind, M_bind. rewrite Hcall. reflexivity.
  - simpl in Hfail.
    destruct (request_func s) as [[r0|e0] s0] eqn:Hcall0; [|discriminate].
    destruct (ok r0) eqn:Hok0; [discriminate|].
    destruct (sleep pause sleep_duration s0) as [[u|e1] s0'] eqn:Hsleep;
      [|discriminate].
    destruct k as [|k]; [lia|].
    simpl. unfold mbind, M_bind. rewrite Hcall0, Hok0.
    assert (Hi : (Z.of_nat i <? retry_counter - 1) = true)
      by (apply Z.ltb_lt; lia).
    rewrite Hi, Hsleep.
    apply IH; try assumption; lia.
Qed.

End RetryOutcomes.

(** X1: with [max_attempts >= 1], a call of [retry_request] that does not
    raise returns a response with an index (never [None]), the index is
    within [0 <= i < max_attempts], and a response that is not ok is only
    returned with the last index [max_attempts - 1]. *)
Theorem retry_request_outcome {W : Type} (pause : Z -> W -> W)
    (max_attempts sleep_duration : Z) (request_func : M W Response)
    (s s' : state W) (x : option (Response * Z)) :
  1 <= max_attempts ->
  retry_request pause max_attempts sleep_duration request_func s
  = (Ok x, s') ->
  exists (r : Response) (i : Z),
    x = Some (r, i)
    /\ 0 <= i < max_attempts
    /\ (ok r = false -> i = max_attempts - 1).
Proof.
  intros Hmax Hrun.
  rewrite retry_request_loop in Hrun by exact Hmax.
  destruct (retry_loop_outcome pause max_attempts sleep_duration
              request_func (Z.to_nat max_attempts) 0 s s' x
              ltac:(lia) Hrun)
    as [[Hk _] | (r & j & Hx & Hj & Hlast)]; [lia|].
  exists r, j. repeat split; try lia; try assumption.
  intros Hok. destruct Hlast as [Hlast|Hlast]; [congruence | exact Hlast].
Qed.

Lemma retry_request_outcome_witness :
  exists (r : Response) (i : Z),
    Some (Mock.is_ok JNull, 1) = Some (r, i)
    /\ 0 <= i < 3
    /\ (ok r = false -> i = 3 - 1).
Proof.
  eapply (retry_request_outcome Mock.pause 3 4
            (requests_get Mock.network Mock.station_url)
            (Mock.start [Mock.not_ok JNull; Mock.is_ok JNull] [])).
  - lia.
  - vm_compute. reflexivity.
Defined.

(** X2: an exception raised by the operation is not retried: when the
    first [n < max_attempts] attempts fail with a response and the next
    one raises, [retry_request] raises that exception in the state the
    raising attempt left. *)
Theorem retry_request_raise_not_retried {W : Type} (pause : Z -> W -> W)
    (max_attempts sleep_duration : Z) (request_func : M W Response)
    (n : nat) (e : exn) (s s1 s2 : state W) :
  Z.of_nat n < max_attempts ->
  after_failures pause n sleep_duration request_func s = Some s1 ->
  request_func s1 = (Raise e, s2) ->
  retry_request pause max_attempts sleep_duration request_func s
  = (Raise e, s2).
Proof.
  intros Hn Hfail Hcall.
  rewrite retry_request_loop by lia.
  eapply (retry_loop_raise pause max_attempts sleep_duration request_func
            e s1 s2 Hcall n 0 (Z.to_nat max_attempts));
    try assumption; lia.
Qed.

Lemma retry_request_raise_not_retried_witness :
  exists s2 : state Mock.World,
    retry_request Mock.pause 3 4
      (requests_get Mock.network Mock.station_url)
      (Mock.start [Mock.not_ok JNull] [])
    = (Raise ConnectionError, s2)
    /\ count_gets (log s2) = 2%nat.
Proof.
  eexists. split.
  - eapply (retry_request_raise_not_retried Mock.pause 3 4
              (requests_get Mock.network Mock.station_url) 1).
    + lia.
    + vm_compute. reflexivity.
    + vm_compute. reflexivity.
  - reflexivity.
Defined.

(** ** Bounded retry: the requests and pauses of a call *)

Section RetryLog.

Context {W : Type}.
Variable network : json -> W -> result Response * W.
Variable pause : Z -> W -> W.

Lemma requests_get_log (url : json) (s s' : state W) (r : result Response) :
  requests_get network url s = (r, s') -> log s' = log s ++ [Get url].
Proof.
  unfold requests_get. destruct (network url (world s)) as [r' w'].
  intros H. inversion H; subst. reflexivity.
Qed.

Lemma sleep_log (d : Z) (s s' : state W) (u : unit) :
  sleep pause d s = (Ok u, s') -> log s' = log s ++ [Sleep d].
Proof.
  unfold sleep. destruct (d <? 0); intros H; inversion H; subst.
  reflexivity.
Qed.

(** [n] failed attempts at a URL leave [n] requests in the log, each
    followed by a pause. *)
Lemma after_failures_log (url : json) (d : Z) (n : nat) :
  forall s s1 : state W,
    after_failures pause n d (requests_get network url) s = Some s1 ->
    log s1 = log s ++ concat (repeat [Get url; Sleep d] n).
Proof.
  induction n as [|n IH]; intros s s1 H; simpl in H.
  - inversion H; subst. simpl. rewrite app_nil_r. reflexivity.
  - destruct (requests_get network url s) as [[r|e] s0] eqn:Hget;
      [|discriminate].
    destruct (ok r); [discriminate|].
    destruct (sleep pause d s0) as [[u|e] s0'] eqn:Hsleep; [|discriminate].
    rewrite (IH _ _ H), (sleep_log _ _ _ _ Hsleep),
      (requests_get_log _ _ _ _ Hget).
    simpl. rewrite <- !app_assoc. reflexivity.
Qed.

(** Whatever the answers, the loop over a list of indices makes at most
    one request for each index. *)
Lemma retry_loop_get_bound (url : json) (retry_counter d : Z) :
  forall (indices : list Z) (s s' : state W)
         (out : result (option (Response * Z))),
    retry_loop pause indices retry_counter d (requests_get network url) s
    = (out, s') ->
    (count_gets (log s) <= count_gets (log s')
     <= count_gets (log s) + length indices)%nat.
Proof.
  induction indices as [|i indices IH]; intros s s' out Hrun; simpl in Hrun.
  - inversion Hrun; subst. simpl. lia.
  - unfold mbind, M_bind in Hrun.
    destruct (requests_get network url s) as [[r|e] s0] eqn:Hget.
    + pose proof (requests_get_count _ _ _ _ _ Hget) as Hc.
      destruct (ok r).
      * inversion Hrun; subst. simpl. lia.
      * destruct (i <? retry_counter - 1).
        -- destruct (sleep pause d s0) as [[u|e] s1] eqn:Hsleep.
           ++ pose proof (sleep_count _ _ _ _ _ Hsleep) as Hs.
              specialize (IH _ _ _ Hrun). simpl. lia.
           ++ pose proof (sleep_count _ _ _ _ _ Hsleep) as Hs.
              inversion Hrun; subst. simpl. lia.
        -- inversion Hrun; subst. simpl. lia.
    + pose proof (requests_get_count _ _ _ _ _ Hget) as Hc.
      inversion Hrun; subst. simpl. lia.
Qed.

(** A lookup with three attempts makes at least zero and at most three
    requests, whatever its outcome. *)
Lemma lookup_get_bound (url : json) (s s' : state W)
    (out : result (option (Response * Z))) :
  retry_request pause 3 4 (requests_get network url) s = (out, s') ->
  (count_gets (log s) <= count_gets (log s') <= count_gets (log s) + 3)%nat.
Proof.
  intros Hrun. unfold retry_request in Hrun.
  apply retry_loop_get_bound in Hrun. exact Hrun.
Qed.

End RetryLog.

(** X3: for requests to a URL with [max_attempts >= 1], when the first
    [n] attempts fail and attempt [n + 1] is ok or is the last one, the
    call adds to the log exactly [n] times a request followed by a pause
    of [sleep_duration], and then one request: it pauses between attempts
    and never after the attempt whose response it returns. *)
Theorem retry_request_log {W : Type}
    (network : json -> W -> result Response * W) (pause : Z -> W -> W)
    (max_attempts sleep_duration : Z) (url : json)
    (n : nat) (r : Response) (s s1 s2 : state W) :
  1 <= max_attempts ->
  Z.of_nat n < max_attempts ->
  after_failures pause n sleep_duration (requests_get network url) s
  = Some s1 ->
  requests_get network url s1 = (Ok r, s2) ->
  ok r = true \/ Z.of_nat n = max_attempts - 1 ->
  exists s' : state W,
    retry_request pause max_attempts sleep_duration
      (requests_get network url) s
    = (Ok (Some (r, Z.of_nat n)), s')
    /\ log s'
       = log s ++ concat (repeat [Get url; Sleep sleep_duration] n)
         ++ [Get url].
Proof.
  intros Hmax Hn Hfail Hget Hlast.
  exists s2. split.
  - rewrite retry_request_loop by exact Hmax.
    change (Z.of_nat n) with (Z.of_nat (0 + n)).
    eapply retry_loop_after_failures; try eassumption; try lia.
    destruct Hlast as [Hlast|Hlast]; [left; exact Hlast | right; lia].
  - rewrite (requests_get_log _ _ _ _ _ Hget),
      (after_failures_log _ _ _ _ _ _ _ Hfail).
    rewrite <- app_assoc. reflexivity.
Qed.

Lemma retry_request_log_witness :
  exists s' : state Mock.World,
    retry_request Mock.pause 3 4
      (requests_get Mock.network Mock.station_url)
      (Mock.start [Mock.not_ok JNull; Mock.not_ok JNull; Mock.is_ok JNull] [])
    = (Ok (Some (Mock.is_ok JNull, Z.of_nat 2)), s')
    /\ log s'
       = [] ++ concat (repeat [Get Mock.station_url; Sleep 4] 2)
         ++ [Get Mock.station_url].
Proof.
  eapply (retry_request_log Mock.network Mock.pause 3 4 Mock.station_url 2
            (Mock.is_ok JNull)
            (Mock.start
               [Mock.not_ok JNull; Mock.not_ok JNull; Mock.is_ok JNull] [])).
  - lia.
  - lia.
  - vm_compute. reflexivity.
  - vm_compute. reflexivity.
  - left. reflexivity.
Defined.

(** ** Current weather: the outcomes of a request *)

Lemma request_current_weather_station_not_ok_witness :
  exists s1 : state Mock.World,
    request_current_weather Mock.network Mock.pause Mock.str_float
      Mock.coordinates
      (Mock.start
         (repeat (Mock.not_ok
                    (JDict [("type",
                             JStr "https://api.weather.gov/problems/InvalidPoint")]))
                 3)
         [Mock.forecast_23])
    = (Ok (CurrentWeather_init false
             (if str_contains "invalidpoint"
                   (lower "https://api.weather.gov/problems/InvalidPoint")
              then invalid_input_coordinates_message
              else invalid_weather_api_response_message)),
       s1)
    /\ count_gets (log s1) = 3%nat.
Proof.
  eexists. split.
  - eapply (request_current_weather_station_not_ok Mock.network Mock.pause
              Mock.str_float Mock.coordinates _ _ _ 2).
    + vm_compute. reflexivity.
    + reflexivity.
    + vm_compute. reflexivity.
  - reflexivity.
Defined.

Section CurrentWeatherOutcomes.

Context {W : Type}.
Variable network : json -> W -> result Response * W.
Variable pause : Z -> W -> W.
Variable str_float : float -> string.

Local Abbreviation station_lookup c :=
  (retry_request pause 3 4
     (request_station_information network str_float
        (latitude c, longitude c))).

Local Abbreviation forecast_lookup url :=
  (retry_request pause 3 4 (requests_get network url)).

Local Abbreviation request := (request_current_weather network pause str_float).

(** The request up to the point where both lookups have answered with a
    response that is ok. *)
Lemma request_both_ok (coordinates : Coordinates) (s s1 s2 : state W)
    (station_response forecast_response : Response) (i k : Z)
    (forecast_url : json) :
  station_lookup coordinates s = (Ok (Some (station_response, i)), s1) ->
  ok station_response = true ->
  forecast_url_of station_response = Ok forecast_url ->
  forecast_lookup forecast_url s1 = (Ok (Some (forecast_response, k)), s2) ->
  ok forecast_response = true ->
  request coordinates s
  = try_except (current_temperature_of forecast_response)
      (mret (CurrentWeather_init true temperature_missing_message))
      (fun current_temperature =>
         try_except (location_of station_response)
           (t ← lift (convert_fahrenheit_to_celsius current_temperature);
            mret (set_temperature_celsius
                    (CurrentWeather_init true location_missing_message) t))
           (fun '(city, state, radar_station) =>
              t ← lift (convert_fahrenheit_to_celsius current_temperature);
              mret {| valid_response := true;
                      temperature_celsius := t;
                      radar_station := radar_station;
                      coordinates_city := city;
                      coordinates_state := state;
                      error_message := "" |}))
      s2.
Proof.
  intros Hstation Hok Hurl Hforecast Hok2.
  unfold request_current_weather. cbv zeta.
  rewrite (bind_Ok _ _ _ _ _ Hstation).
  cbn [unpack]. rewrite (bind_Ok _ _ (station_response, i) s1 s1 eq_refl).
  rewrite Hok, Hurl. cbn [try_except].
  rewrite (bind_Ok _ _ _ _ _ Hforecast).
  cbn [unpack]. rewrite (bind_Ok _ _ (forecast_response, k) s2 s2 eq_refl).
  rewrite Hok2.
  destruct (current_temperature_of forecast_response) as [t|e];
    [|reflexivity].
  cbn [try_except].
  destruct (location_of station_response) as [[[city state] radar]|e];
    reflexivity.
Qed.

(** X5: a station response that is ok but from which the forecast URL
    cannot be read ends the request with [forecast_url_missing_message]
    and [valid_response] false, in the state the station lookup left: the
    forecast is not requested. *)
Theorem request_current_weather_forecast_url_missing
    (coordinates : Coordinates) (s s1 : state W)
    (station_response : Response) (i : Z) (e : exn) :
  station_lookup coordinates s = (Ok (Some (station_response, i)), s1) ->
  ok station_response = true ->
  forecast_url_of station_response = Raise e ->
  request coordinates s
  = (Ok (CurrentWeather_init false forecast_url_missing_message), s1).
Proof.
  intros Hstation Hok Hurl.
  unfold request_current_weather. cbv zeta.
  rewrite (bind_Ok _ _ _ _ _ Hstation).
  cbn [unpack]. rewrite (bind_Ok _ _ (station_response, i) s1 s1 eq_refl).
  rewrite Hok, Hurl. reflexivity.
Qed.

(** X6: when both lookups succeed and the temperature of the first
    forecast period cannot be read, the result has [valid_response] true,
    [temperature_missing_message], and every other field at its default. *)
Theorem request_current_weather_temperature_missing
    (coordinates : Coordinates) (s s1 s2 : state W)
    (station_response forecast_response : Response) (i k : Z)
    (forecast_url : json) (e : exn) :
  station_lookup coordinates s = (Ok (Some (station_response, i)), s1) ->
  ok station_response = true ->
  forecast_url_of station_response = Ok forecast_url ->
  forecast_lookup forecast_url s1 = (Ok (Some (forecast_response, k)), s2) ->
  ok forecast_response = true ->
  current_temperature_of forecast_response = Raise e ->
  request coordinates s
  = (Ok (CurrentWeather_init true temperature_missing_message), s2).
Proof.
  intros Hstation Hok Hurl Hforecast Hok2 Htemp.
  rewrite (request_both_ok _ _ _ _ _ _ _ _ _ Hstation Hok Hurl Hforecast Hok2).
  rewrite Htemp. reflexivity.
Qed.

(** X7: when both lookups succeed and the temperature is read but the
    city, the state or the radar station cannot be, the result has
    [valid_response] true, the converted temperature,
    [location_missing_message], and the three location fields at their
    default. *)
Theorem request_current_weather_location_missing
    (coordinates : Coordinates) (s s1 s2 : state W)
    (station_response forecast_response : Response) (i k : Z)
    (forecast_url current_temperature : json) (e : exn) (t : float) :
  station_lookup coordinates s = (Ok (Some (station_response, i)), s1) ->
  ok station_response = true ->
  forecast_url_of station_response = Ok forecast_url ->
  forecast_lookup forecast_url s1 = (Ok (Some (forecast_response, k)), s2) ->
  ok forecast_response = true ->
  current_temperature_of forecast_response = Ok current_temperature ->
  location_of station_response = Raise e ->
  convert_fahrenheit_to_celsius current_temperature = Ok t ->
  request coordinates s
  = (Ok {| valid_response := true;
           temperature_celsius := t;
           radar_station := JStr "";
           coordinates_city := JStr "";
           coordinates_state := JStr "";
           error_message := location_missing_message |},
     s2).
Proof.
  intros Hstation Hok Hurl Hforecast Hok2 Htemp Hloc Hconv.
  rewrite (request_both_ok _ _ _ _ _ _ _ _ _ Hstation Hok Hurl Hforecast Hok2).
  rewrite Htemp, Hloc. cbn [try_except].
  unfold mbind, M_bind, lift. rewrite Hconv. reflexivity.
Qed.

(** X8: when both lookups succeed and the temperature and the location
    are read, the result has [valid_response] true, the converted
    temperature, the radar station, city and state as they were read, and
    an empty [error_message]. *)
Theorem request_current_weather_success
    (coordinates : Coordinates) (s s1 s2 : state W)
    (station_response forecast_response : Response) (i k : Z)
    (forecast_url current_temperature city state radar : json) (t : float) :
  station_lookup coordinates s = (Ok (Some (station_response, i)), s1) ->
  ok station_response = true ->
  forecast_url_of station_response = Ok forecast_url ->
  forecast_lookup forecast_url s1 = (Ok (Some (forecast_response, k)), s2) ->
  ok forecast_response = true ->
  current_temperature_of forecast_response = Ok current_temperature ->
  location_of station_response = Ok (city, state, radar) ->
  convert_fahrenheit_to_celsius current_temperature = Ok t ->
  request coordinates s
  = (Ok {| valid_response := true;
           temperature_celsius := t;
           radar_station := radar;
           coordinates_city := city;
           coordinates_state := state;
           error_message := "" |},
     s2).
Proof.
  intros Hstation Hok Hurl Hforecast Hok2 Htemp Hloc Hconv.
  rewrite (request_both_ok _ _ _ _ _ _ _ _ _ Hstation Hok Hurl Hforecast Hok2).
  rewrite Htemp, Hloc. cbn [try_except].
  unfold mbind, M_bind, lift. rewrite Hconv. reflexivity.
Qed.

(** X9: when both lookups succeed and the temperature that is read cannot
    be converted (it is not a number, or is an integer too large for a
    float), the request raises the exception of the conversion, whether
    or not the location can be read. *)
Theorem request_current_weather_conversion_raises
    (coordinates : Coordinates) (s s1 s2 : state W)
    (station_response forecast_response : Response) (i k : Z)
    (forecast_url current_temperature : json) (e : exn) :
  station_lookup coordinates s = (Ok (Some (station_response, i)), s1) ->
  ok station_response = true ->
  forecast_url_of station_response = Ok forecast_url ->
  forecast_lookup forecast_url s1 = (Ok (Some (forecast_response, k)), s2) ->
  ok forecast_response = true ->
  current_temperature_of forecast_response = Ok current_temperature ->
  convert_fahrenheit_to_celsius current_temperature = Raise e ->
  request coordinates s = (Raise e, s2).
Proof.
  intros Hstation Hok Hurl Hforecast Hok2 Htemp Hconv.
  rewrite (request_both_ok _ _ _ _ _ _ _ _ _ Hstation Hok Hurl Hforecast Hok2).
  rewrite Htemp. cbn [try_except].
  destruct (location_of station_response) as [[[city state] radar]|e'];
    cbn [try_except]; unfold mbind, M_bind, lift; rewrite Hconv; reflexivity.
Qed.

End CurrentWeatherOutcomes.

Lemma request_current_weather_forecast_url_missing_witness :
  exists s1 : state Mock.World,
    request_current_weather Mock.network Mock.pause Mock.str_float
      Mock.coordinates
      (Mock.start [Mock.is_ok (JDict [("properties", JNull)])]
         [Mock.forecast_23])
    = (Ok (CurrentWeather_init false forecast_url_missing_message), s1)
    /\ log s1 = [Get Mock.station_url].
Proof.
  eexists. split.
  - eapply (request_current_weather_forecast_url_missing Mock.network
              Mock.pause Mock.str_float Mock.coordinates _ _ _ 0 TypeError).
    + vm_compute. reflexivity.
    + reflexivity.
    + vm_compute. reflexivity.
  - reflexivity.
Defined.

Lemma request_current_weather_temperature_missing_witness :
  exists s2 : state Mock.World,
    request_current_weather Mock.network Mock.pause Mock.str_float
      Mock.coordinates
      (Mock.start [Mock.is_ok Mock.station_json]
         [Mock.is_ok (JDict [("properties", JDict [("periods", JList [])])])])
    = (Ok (CurrentWeather_init true temperature_missing_message), s2).
Proof.
  eexists.
  eapply (request_current_weather_temperature_missing Mock.network
            Mock.pause Mock.str_float Mock.coordinates _ _ _ _ _ 0 0
            (JStr Mock.forecast_url) IndexError).
  - vm_compute. reflexivity.
  - reflexivity.
  - vm_compute. reflexivity.
  - vm_compute. reflexivity.
  - reflexivity.
  - vm_compute. reflexivity.
Defined.

Lemma request_current_weather_location_missing_witness :
  exists s2 : state Mock.World,
    request_current_weather Mock.network Mock.pause Mock.str_float
      Mock.coordinates
      (Mock.start
         [Mock.is_ok
            (JDict [("properties",
                     JDict [("forecast", JStr Mock.forecast_url);
                            ("radarStation", JStr "KILX")])])]
         [Mock.forecast_23])
    = (Ok {| valid_response := true;
             temperature_celsius := Mock.celsius_23;
             radar_station := JStr "";
             coordinates_city := JStr "";
             coordinates_state := JStr "";
             error_message := location_missing_message |},
       s2).
Proof.
  eexists.
  eapply (request_current_weather_location_missing Mock.network
            Mock.pause Mock.str_float Mock.coordinates _ _ _ _ _ 0 0
            (JStr Mock.forecast_url) (JInt 23) KeyError).
  - vm_compute. reflexivity.
  - reflexivity.
  - vm_compute. reflexivity.
  - vm_compute. reflexivity.
  - reflexivity.
  - vm_compute. reflexivity.
  - vm_compute. reflexivity.
  - vm_compute. reflexivity.
Defined.

Lemma request_current_weather_success_witness :
  exists s2 : state Mock.World,
    request_current_weather Mock.network Mock.pause Mock.str_float
      Mock.coordinates
      (Mock.start [Mock.is_ok Mock.station_json] [Mock.forecast_23])
    = (Ok {| valid_response := true;
             temperature_celsius := Mock.celsius_23;
             radar_station := JStr "KILX";
             coordinates_city := JStr "Homer";
             coordinates_state := JStr "IL";
             error_message := "" |},
       s2).
Proof.
  eexists.
  eapply (request_current_weather_success Mock.network
            Mock.pause Mock.str_float Mock.coordinates _ _ _ _ _ 0 0
            (JStr Mock.forecast_url) (JInt 23)).
  - vm_compute. reflexivity.
  - reflexivity.
  - vm_compute. reflexivity.
  - vm_compute. reflexivity.
  - reflexivity.
  - vm_compute. reflexivity.
  - vm_compute. reflexivity.
  - vm_compute. reflexivity.
Defined.

Lemma request_current_weather_conversion_raises_witness :
  exists s2 : state Mock.World,
    request_current_weather Mock.network Mock.pause Mock.str_float
      Mock.coordinates
      (Mock.start [Mock.is_ok Mock.station_json]
         [Mock.is_ok (Mock.forecast_json JNull)])
    = (Raise TypeError, s2).
Proof.
  eexists.
  eapply (request_current_weather_conversion_raises Mock.network
            Mock.pause Mock.str_float Mock.coordinates _ _ _ _ _ 0 0
            (JStr Mock.forecast_url) JNull).
  - vm_compute. reflexivity.
  - reflexivity.
  - vm_compute. reflexivity.
  - vm_compute. reflexivity.
  - reflexivity.
  - vm_compute. reflexivity.
  - vm_compute. reflexivity.
Defined.

(** ** Current weather: what holds of every request *)

Section CurrentWeatherInvariants.

Context {W : Type}.
Variable network : json -> W -> result Response * W.
Variable pause : Z -> W -> W.
Variable str_float : float -> string.

Local Abbreviation request := (request_current_weather network pause str_float).

(** Every run of a request is the station lookup, which may be all of it,
    followed at most by the forecast lookup, and ends in the state that
    the last of the lookups left; [P] is what is to be shown of the
    outcome. *)
Lemma request_cases (coordinates : Coordinates) (s s' : state W)
    (out : result CurrentWeather)
    (P : result CurrentWeather -> state W -> Prop) :
  request coordinates s = (out, s') ->
  (* the station lookup raises, or the unpacking of its result does *)
  (forall e s1 x,
     retry_request pause 3 4
       (request_station_information network str_float
          (latitude coordinates, longitude coordinates)) s = (x, s1) ->
     P (Raise e) s1) ->
  (* the request ends after the station lookup *)
  (forall r i s1 m,
     retry_request pause 3 4
       (request_station_information network str_float
          (latitude coordinates, longitude coordinates)) s
     = (Ok (Some (r, i)), s1) ->
     In m [forecast_url_missing_message; invalid_input_coordinates_message;
           invalid_weather_api_response_message] ->
     P (Ok (CurrentWeather_init false m)) s1) ->
  (* the forecast lookup is made *)
  (forall r i s1 url x s2,
     retry_request pause 3 4
       (request_station_information network str_float
          (latitude coordinates, longitude coordinates)) s
     = (Ok (Some (r, i)), s1) ->
     ok r = true ->
     forecast_url_of r = Ok url ->
     retry_request pause 3 4 (requests_get network url) s1 = (x, s2) ->
     (forall e, P (Raise e) s2)
     /\ P (Ok (CurrentWeather_init false "")) s2
     /\ P (Ok (CurrentWeather_init true temperature_missing_message)) s2
     /\ (forall t,
           P (Ok (set_temperature_celsius
                    (CurrentWeather_init true location_missing_message) t))
             s2)
     /\ (forall t radar city state,
           P (Ok {| valid_response := true;
                    temperature_celsius := t;
                    radar_station := radar;
                    coordinates_city := city;
                    coordinates_state := state;
                    error_message := "" |}) s2)) ->
  P out s'.
Proof.
  intros Hrun Hraise Hstation Hforecast.
  unfold request_current_weather in Hrun. cbv zeta in Hrun.
  destruct (retry_request pause 3 4
              (request_station_information network str_float
                 (latitude coordinates, longitude coordinates)) s)
    as [[[[r i]|]|e] s1] eqn:Hst.
  - rewrite (bind_Ok _ _ _ _ _ Hst) in Hrun.
    cbn [unpack] in Hrun.
    rewrite (bind_Ok _ _ (r, i) s1 s1 eq_refl) in Hrun.
    destruct (ok r) eqn:Hok.
    + destruct (forecast_url_of r) as [url|e] eqn:Hurl.
      * cbn [try_except] in Hrun.
        destruct (retry_request pause 3 4 (requests_get network url) s1)
          as [[[[fr k]|]|e] s2] eqn:Hfc;
          destruct (Hforecast r i s1 url _ s2 eq_refl Hok Hurl Hfc)
            as (Pr & P0 & P1 & P2 & P3).
        -- rewrite (bind_Ok _ _ _ _ _ Hfc) in Hrun.
           cbn [unpack] in Hrun.
           rewrite (bind_Ok _ _ (fr, k) s2 s2 eq_refl) in Hrun.
           destruct (ok fr).
           ++ destruct (current_temperature_of fr) as [t|e];
                cbn [try_except] in Hrun.
              ** destruct (location_of r) as [[[city state] radar]|e];
                   cbn [try_except] in Hrun;
                   unfold mbind, M_bind, lift in Hrun;
                   destruct (convert_fahrenheit_to_celsius t) as [c|e'];
                   inversion Hrun; subst;
                   first [exact (Pr _) | exact (P2 _) | exact (P3 _ _ _ _)].
              ** inversion Hrun; subst. exact P1.
           ++ inversion Hrun; subst. exact P0.
        -- rewrite (bind_Ok _ _ _ _ _ Hfc) in Hrun.
           cbn [unpack] in Hrun. unfold mbind, M_bind, lift in Hrun.
           inversion Hrun; subst. apply Pr.
        -- rewrite (bind_Raise _ _ _ _ _ Hfc) in Hrun.
           inversion Hrun; subst. apply Pr.
      * cbn [try_except] in Hrun. inversion Hrun; subst.
        apply (Hstation r i); [reflexivity | simpl; tauto].
    + unfold mbind, M_bind, lift in Hrun.
      destruct (error_type_of r) as [ty|e];
        [|inversion Hrun; subst; eapply Hraise; reflexivity].
      destruct (py_lower ty) as [lo|e];
        [|inversion Hrun; subst; eapply Hraise; reflexivity].
      destruct (str_contains "invalidpoint" lo);
        inversion Hrun; subst;
        apply (Hstation r i); try reflexivity; simpl; tauto.
  - rewrite (bind_Ok _ _ _ _ _ Hst) in Hrun.
    cbn [unpack] in Hrun. unfold mbind, M_bind, lift in Hrun.
    inversion Hrun; subst. eapply Hraise. reflexivity.
  - rewrite (bind_Raise _ _ _ _ _ Hst) in Hrun.
    inversion Hrun; subst. eapply Hraise. reflexivity.
Qed.

End CurrentWeatherInvariants.

(** A request makes at most six HTTP requests. *)
Lemma request_get_bound {W : Type}
    (network : json -> W -> result Response * W) (pause : Z -> W -> W)
    (str_float : float -> string) (coordinates : Coordinates)
    (s s' : state W) (out : result CurrentWeather) :
  request_current_weather network pause str_float coordinates s
  = (out, s') ->
  (count_gets (log s) <= count_gets (log s') <= count_gets (log s) + 6)%nat.
Proof.
  intros Hrun.
  apply (request_cases network pause str_float coordinates s s' out
           (fun _ st =>
              (count_gets (log s) <= count_gets (log st)
               <= count_gets (log s) + 6)%nat) Hrun).
  - intros e s1 x Hst. unfold request_station_information in Hst.
    apply lookup_get_bound in Hst. lia.
  - intros r i s1 m Hst _. unfold request_station_information in Hst.
    apply lookup_get_bound in Hst. lia.
  - intros r i s1 url x s2 Hst _ _ Hfc.
    unfold request_station_information in Hst.
    apply lookup_get_bound in Hst. apply lookup_get_bound in Hfc.
    repeat split; intros; lia.
Qed.

Lemma count_gets_app (l1 l2 : list event) :
  count_gets (l1 ++ l2) = (count_gets l1 + count_gets l2)%nat.
Proof.
  unfold count_gets. rewrite List.filter_app, length_app. reflexivity.
Qed.

Section RequestLog.

Context {W : Type}.
Variable network : json -> W -> result Response * W.
Variable pause : Z -> W -> W.
Variable str_float : float -> string.

(** Whatever the answers, the loop over a list of indices appends to the
    log, and what it appends holds at most one request for each index. *)
Lemma retry_loop_appends (url : json) (retry_counter d : Z) :
  forall (indices : list Z) (s s' : state W)
         (out : result (option (Response * Z))),
    retry_loop pause indices retry_counter d (requests_get network url) s
    = (out, s') ->
    exists t,
      log s' = log s ++ t
      /\ (count_gets t <= length indices)%nat
      /\ Forall lookup_entry t.
Proof.
  assert (Hone : forall s0 s : state W,
            log s0 = log s ++ [Get url] ->
            forall n : nat,
              exists t,
                log s0 = log s ++ t
                /\ (count_gets t <= S n)%nat
                /\ Forall lookup_entry t).
  { intros s0 s Hlog n. exists [Get url].
    split; [exact Hlog|]. split; [cbv [count_gets]; simpl; lia|].
    constructor; [left; reflexivity | constructor]. }
  induction indices as [|i indices IH]; intros s s' out Hrun; simpl in Hrun.
  - inversion Hrun; subst. exists []. rewrite app_nil_r.
    split; [reflexivity|]. split; [cbv [count_gets]; simpl; lia|].
    constructor.
  - unfold mbind, M_bind in Hrun.
    destruct (requests_get network url s) as [[r|e] s0] eqn:Hget;
      pose proof (requests_get_log _ _ _ _ _ Hget) as Hlog.
    + destruct (ok r).
      * inversion Hrun; subst. apply Hone, Hlog.
      * destruct (i <? retry_counter - 1).
        -- destruct (sleep pause d s0) as [[u|e] s1] eqn:Hsleep.
           ++ pose proof (sleep_log _ _ _ _ _ Hsleep) as Hs.
              destruct (IH _ _ _ Hrun) as (t & Ht & Hc & Hall).
              exists ([Get url; Sleep d] ++ t).
              split; [|split].
              ** rewrite Ht, Hs, Hlog, <- !app_assoc. reflexivity.
              ** rewrite count_gets_app. simpl length.
                 change (count_gets [Get url; Sleep d]) with 1%nat. lia.
              ** constructor; [left; reflexivity|].
                 constructor; [right; eexists; reflexivity | exact Hall].
           ++ unfold sleep in Hsleep.
              destruct (d <? 0); inversion Hsleep; subst.
              inversion Hrun; subst. apply Hone, Hlog.
        -- inversion Hrun; subst. apply Hone, Hlog.
    + inversion Hrun; subst. apply Hone, Hlog.
Qed.

Lemma lookup_appends (url : json) (s s' : state W)
    (out : result (option (Response * Z))) :
  retry_request pause 3 4 (requests_get network url) s = (out, s') ->
  exists t,
    log s' = log s ++ t /\ (count_gets t <= 3)%nat /\ Forall lookup_entry t.
Proof.
  intros Hrun. unfold retry_request in Hrun.
  apply retry_loop_appends in Hrun. exact Hrun.
Qed.

Lemma request_appends (coordinates : Coordinates) (s s' : state W)
    (out : result CurrentWeather) :
  request_current_weather network pause str_float coordinates s
  = (out, s') ->
  exists t,
    log s' = log s ++ t /\ (count_gets t <= 6)%nat /\ Forall lookup_entry t.
Proof.
  intros Hrun.
  assert (Hweaken : forall (s1 : state W) t,
            log s1 = log s ++ t /\ (count_gets t <= 3)%nat
            /\ Forall lookup_entry t ->
            exists t,
              log s1 = log s ++ t /\ (count_gets t <= 6)%nat
              /\ Forall lookup_entry t).
  { intros s1 t (Ht & Hc & Hall). exists t.
    split; [exact Ht|]. split; [lia | exact Hall]. }
  apply (request_cases network pause str_float coordinates s s' out
           (fun _ st =>
              exists t,
                log st = log s ++ t /\ (count_gets t <= 6)%nat
                /\ Forall lookup_entry t) Hrun).
  - intros e s1 x Hst. unfold request_station_information in Hst.
    apply lookup_appends in Hst as (t & Ht). apply (Hweaken s1 t Ht).
  - intros r i s1 m Hst _. unfold request_station_information in Hst.
    apply lookup_appends in Hst as (t & Ht). apply (Hweaken s1 t Ht).
  - intros r i s1 url x s2 Hst _ _ Hfc.
    unfold request_station_information in Hst.
    apply lookup_appends in Hst as (t1 & Ht1 & Hc1 & Hall1).
    apply lookup_appends in Hfc as (t2 & Ht2 & Hc2 & Hall2).
    assert (Hboth : exists t,
              log s2 = log s ++ t /\ (count_gets t <= 6)%nat
              /\ Forall lookup_entry t).
    { exists (t1 ++ t2). split; [|split].
      - rewrite Ht2, Ht1, <- app_assoc. reflexivity.
      - rewrite count_gets_app. lia.
      - apply Forall_app. split; assumption. }
    repeat split; intros; exact Hboth.
Qed.

End RequestLog.

(** X10: whatever the network answers, a request for the current weather
    only appends to the log: the log it leaves is the log it found
    followed by the entries of this request, which are HTTP requests and
    pauses and hold at most six HTTP requests (three attempts for each of
    the two lookups). *)
Theorem request_current_weather_at_most_six_gets {W : Type}
    (network : json -> W -> result Response * W) (pause : Z -> W -> W)
    (str_float : float -> string) (coordinates : Coordinates)
    (s : state W) :
  let s' := snd (request_current_weather network pause str_float
                   coordinates s) in
  exists t : list event,
    log s' = log s ++ t
    /\ (count_gets t <= 6)%nat
    /\ Forall (fun ev => is_get ev = true \/ exists d, ev = Sleep d) t.
Proof.
  cbv zeta.
  destruct (request_current_weather network pause str_float coordinates s)
    as [out s'] eqn:Hrun.
  cbn [snd]. exact (request_appends _ _ _ _ _ _ _ Hrun).
Qed.

(** X11: a request that returns does so with one of four shapes of result:
    [valid_response] false, every other field at its default and one of
    the three station-stage messages or the empty message; [valid_response]
    true with [temperature_missing_message] and every other field at its
    default; [valid_response] true with a temperature,
    [location_missing_message] and the location at its default; or
    [valid_response] true with an empty message.  So a result with
    [valid_response] false never carries a temperature, and a result
    with a message never carries a location. *)
Theorem request_current_weather_result_shape {W : Type}
    (network : json -> W -> result Response * W) (pause : Z -> W -> W)
    (str_float : float -> string) (coordinates : Coordinates)
    (s : state W) :
  match fst (request_current_weather network pause str_float coordinates s)
  with
  | Raise _ => True
  | Ok c =>
      (exists m,
         c = CurrentWeather_init false m
         /\ In m [forecast_url_missing_message;
                  invalid_input_coordinates_message;
                  invalid_weather_api_response_message; ""])
      \/ c = CurrentWeather_init true temperature_missing_message
      \/ (exists t,
            c = {| valid_response := true;
                   temperature_celsius := t;
                   radar_station := JStr "";
                   coordinates_city := JStr "";
                   coordinates_state := JStr "";
                   error_message := location_missing_message |})
      \/ (exists t radar city state,
            c = {| valid_response := true;
                   temperature_celsius := t;
                   radar_station := radar;
                   coordinates_city := city;
                   coordinates_state := state;
                   error_message := "" |})
  end.
Proof.
  destruct (request_current_weather network pause str_float coordinates s)
    as [out s'] eqn:Hrun.
  cbn [fst].
  apply (request_cases network pause str_float coordinates s s' out
           (fun o _ =>
              match o with
              | Raise _ => True
              | Ok c =>
                  (exists m,
                     c = CurrentWeather_init false m
                     /\ In m [forecast_url_missing_message;
                              invalid_input_coordinates_message;
                              invalid_weather_api_response_message; ""])
                  \/ c = CurrentWeather_init true temperature_missing_message
                  \/ (exists t,
                        c = {| valid_response := true;
                               temperature_celsius := t;
                               radar_station := JStr "";
                               coordinates_city := JStr "";
                               coordinates_state := JStr "";
                               error_message := location_missing_message |})
                  \/ (exists t radar city state,
                        c = {| valid_response := true;
                               temperature_celsius := t;
                               radar_station := radar;
                               coordinates_city := city;
                               coordinates_state := state;
                               error_message := "" |})
              end) Hrun).
  - intros. exact I.
  - intros r i s1 m _ Hm. left. exists m. split; [reflexivity|].
    simpl in *. tauto.
  - intros. repeat split.
    + left. exists "". split; [reflexivity | simpl; tauto].
    + right. left. reflexivity.
    + intros t. right. right. left. exists t. reflexivity.
    + intros t radar city state. right. right. right.
      exists t, radar, city, state. reflexivity.
Qed.

(** ** Nearest station: what geopy raises *)

(** X12: [identify_closest_coordinates] does not catch what geopy raises.
    When the distance to a row of the frame raises and the distance to
    every row before it returns, the call raises that exception, whatever
    the rows that come after and whatever was the nearest row so far. *)
Theorem identify_closest_coordinates_raises
    (distance : float * float -> float * float -> result float)
    (q : float * float) (df : list (float * float))
    (j : nat) (e : float * float) (x : exn) :
  df !! j = Some e ->
  distance q e = Raise x ->
  (forall j' e', (j' < j)%nat -> df !! j' = Some e' ->
     exists d, distance q e' = Ok d) ->
  identify_closest_coordinates distance q df = Raise x.
Proof.
  intros Hj He Hbefore. unfold identify_closest_coordinates.
  destruct df as [|e0 df]; [discriminate|].
  simpl length. simpl Nat.eqb. cbv iota.
  apply (closest_loop_raises distance q (e0 :: df) j e x); assumption.
Qed.

Lemma identify_closest_coordinates_raises_witness :
  identify_closest_coordinates Mock.distance (Mock.point 70 (-160))
    [Mock.point 70 (-160); Mock.point 70 (-161);
     (Float64.nan, Float64.round_Z 0); Mock.point 34 (-116)]
  = Raise ValueError.
Proof.
  apply (identify_closest_coordinates_raises Mock.distance
           (Mock.point 70 (-160)) _ 2 (Float64.nan, Float64.round_Z 0)).
  - reflexivity.
  - reflexivity.
  - intros [|[|j']] e' Hlt Hl; [| |lia]; simpl in Hl;
      inversion Hl; subst; eexists; reflexivity.
Defined.

(** ** Same-day window: what a call returns *)

Lemma datetime_leb_total (a b : datetime) :
  datetime_leb a b = false -> datetime_leb b a = true.
Proof.
  destruct a as [y1 m1 d1 h1 mi1 s1], b as [y2 m2 d2 h2 mi2 s2].
  unfold datetime_leb. simpl.
  repeat match goal with
         | |- context [?x =? ?y] => destruct (Z.eqb_spec x y); subst
         end;
    rewrite ?Z.ltb_lt, ?Z.ltb_ge, ?Z.leb_le, ?Z.leb_gt; try lia; congruence.
Qed.

Section WindowResults.

Variable Row : Type.
Variable col_id : Row -> Z.
Variable col_date : Row -> datetime.

Local Abbreviation gather := (gather Row).
Local Abbreviation target_date_idx := (target_date_idx Row col_id col_date).
Local Abbreviation on_target := (on_target Row col_id col_date).
Local Abbreviation insert_sorted := (insert_sorted Row col_date).
Local Abbreviation sort_by_date := (sort_by_date Row col_date).

(** The filtered indices are those of the rows on the target day. *)
Lemma target_date_idx_In (id : Z) (target : datetime) (l : list Row) :
  forall i j : Z,
    In j (map snd (target_date_idx i l id target))
    <-> exists (k : nat) (r : Row),
          j = i + Z.of_nat k /\ l !! k = Some r
          /\ on_target id target r = true.
Proof.
  unfold target_date_idx.
  induction l as [|r l IH]; intros i j; simpl.
  - split; [intros [] | intros (k & r & _ & Hl & _); discriminate].
  - destruct (on_target id target r) eqn:Hr; simpl; rewrite IH; split.
    + intros [<-|(k & r' & -> & Hl & Hr')].
      * exists 0%nat, r. repeat split; [lia | assumption].
      * exists (S k), r'. repeat split; [lia | assumption | assumption].
    + intros ([|k] & r' & -> & Hl & Hr'); simpl in Hl.
      * left. lia.
      * right. exists k, r'. repeat split; [lia | assumption | assumption].
    + intros (k & r' & -> & Hl & Hr').
      exists (S k), r'. repeat split; [lia | assumption | assumption].
    + intros ([|k] & r' & -> & Hl & Hr'); simpl in Hl.
      * inversion Hl; subst. congruence.
      * exists k, r'. repeat split; [lia | assumption | assumption].
Qed.

(** Every index of a group is one of the grouped indices. *)
Lemma add_to_group_In (d : Z * Z * Z) (i : Z) :
  forall (groups : list (Z * Z * Z * list Z)) (g : Z * Z * Z * list Z)
         (j : Z),
    In g (add_to_group d i groups) -> In j (snd g) ->
    j = i \/ exists g', In g' groups /\ In j (snd g').
Proof.
  induction groups as [|[d' ixs] groups IH]; intros g j Hg Hj; simpl in Hg.
  - destruct Hg as [<-|[]]. simpl in Hj. destruct Hj as [<-|[]].
    left. reflexivity.
  - destruct (date_eqb d d').
    + destruct Hg as [<-|Hg].
      * simpl in Hj. apply in_app_or in Hj as [Hj|[<-|[]]].
        -- right. exists (d', ixs). split; [left; reflexivity | exact Hj].
        -- left. reflexivity.
      * right. exists g. split; [right; exact Hg | exact Hj].
    + destruct Hg as [<-|Hg].
      * right. exists (d', ixs). split; [left; reflexivity | exact Hj].
      * destruct (IH g j Hg Hj) as [->|(g' & Hg' & Hj')].
        -- left. reflexivity.
        -- right. exists g'. split; [right; exact Hg' | exact Hj'].
Qed.

Lemma group_by_In (tdi : list (Z * Z * Z * Z)) :
  forall (g : Z * Z * Z * list Z) (j : Z),
    In g (group_by tdi) -> In j (snd g) -> In j (map snd tdi).
Proof.
  unfold group_by.
  assert (Hgen : forall groups g j,
             In g (fold_left (fun groups '(d, i) => add_to_group d i groups)
                     tdi groups) ->
             In j (snd g) ->
             In j (map snd tdi)
             \/ exists g', In g' groups /\ In j (snd g')).
  { induction tdi as [|[d i] tdi IH]; intros groups g j Hg Hj; simpl in *.
    - right. exists g. split; assumption.
    - destruct (IH _ g j Hg Hj) as [Hin|(g' & Hg' & Hj')].
      + left. right. exact Hin.
      + destruct (add_to_group_In d i groups g' j Hg' Hj')
          as [->|Hold].
        * left. left. reflexivity.
        * right. exact Hold. }
  intros g j Hg Hj.
  destruct (Hgen [] g j Hg Hj) as [Hin|(g' & [] & _)]. exact Hin.
Qed.

Lemma group_first_In (tdi : list (Z * Z * Z * Z)) (j : Z) :
  In j (concat (map group_first (group_by tdi))) -> In j (map snd tdi).
Proof.
  intros Hj. apply in_concat in Hj as (l & Hl & Hj).
  apply in_map_iff in Hl as (g & <- & Hg).
  apply (group_by_In tdi g j Hg).
  unfold group_first in Hj. destruct (snd g) as [|i ixs]; [destruct Hj|].
  destruct Hj as [<-|[]]. left. reflexivity.
Qed.

Lemma group_last_In (tdi : list (Z * Z * Z * Z)) (j : Z) :
  In j (concat (map group_last (group_by tdi))) -> In j (map snd tdi).
Proof.
  intros Hj. apply in_concat in Hj as (l & Hl & Hj).
  apply in_map_iff in Hl as (g & <- & Hg).
  apply (group_by_In tdi g j Hg).
  unfold group_last in Hj. destruct (last (snd g)) as [i|] eqn:Hlast;
    [|destruct Hj].
  destruct Hj as [<-|[]].
  apply last_Some in Hlast as (l' & ->).
  apply in_or_app. right. left. reflexivity.
Qed.

(** What a successful gathering returns: the rows at the indices. *)
Lemma gather_In (l : list Row) :
  forall (idx : list Z) (out : list Row),
    gather l idx = Ok out ->
    forall r, In r out
              <-> exists i, In i idx /\ 0 <= i /\ l !! Z.to_nat i = Some r.
Proof.
  induction idx as [|a idx IH]; intros out H r; simpl in H.
  - inversion H; subst. split; [intros [] | intros (i & [] & _)].
  - destruct ((0 <=? a) && (a <? Z.of_nat (length l))) eqn:Hrange;
      [|discriminate].
    destruct (l !! Z.to_nat a) as [ra|] eqn:Hla; [|discriminate].
    destruct (gather l idx) as [rs|e] eqn:Hrs; [|discriminate].
    inversion H; subst. specialize (IH rs eq_refl r). simpl.
    rewrite IH. split.
    + intros [<-|(i & Hi & H0 & Hl)].
      * exists a. repeat split; [left; reflexivity | lia | exact Hla].
      * exists i. repeat split; [right; exact Hi | exact H0 | exact Hl].
    + intros (i & [<-|Hi] & H0 & Hl).
      * left. congruence.
      * right. exists i. repeat split; assumption.
Qed.

(** Gathering indices that are all within the frame succeeds. *)
Lemma gather_in_bounds (l : list Row) (idx : list Z) :
  Forall (fun i => 0 <= i < Z.of_nat (length l)) idx ->
  exists out, gather l idx = Ok out.
Proof.
  induction idx as [|a idx IH]; intros Hall; simpl.
  - eexists. reflexivity.
  - inversion Hall as [|? ? Ha Hrest]; subst.
    assert (Hr : (0 <=? a) && (a <? Z.of_nat (length l)) = true) by lia.
    rewrite Hr.
    destruct (lookup_lt_is_Some_2 l (Z.to_nat a) ltac:(lia)) as [r Hl].
    rewrite Hl. destruct (IH Hrest) as [rs ->].
    eexists. reflexivity.
Qed.

Lemma insert_sorted_In (r x : Row) (l : list Row) :
  In x (insert_sorted r l) <-> x = r \/ In x l.
Proof.
  induction l as [|y l IH]; simpl.
  - split; [intros [<-|[]]; left; reflexivity | intros [->|[]]; left;
            reflexivity].
  - destruct (datetime_leb (col_date r) (col_date y)); simpl.
    + split; [intros [<-|H]; [left; reflexivity | right; exact H]
             | intros [->|H]; [left; reflexivity | right; exact H]].
    + rewrite IH. split.
      * intros [<-|[->|H]]; [right; left | left | right; right];
          try reflexivity; exact H.
      * intros [->|[<-|H]]; [right; left | left | right; right];
          try reflexivity; exact H.
Qed.

Lemma sort_by_date_In (x : Row) (l : list Row) :
  In x (sort_by_date l) <-> In x l.
Proof.
  unfold sort_by_date. induction l as [|y l IH]; simpl.
  - split; intros H; exact H.
  - rewrite insert_sorted_In, IH.
    split; (intros [H|H]; [left; symmetry; exact H | right; exact H]).
Qed.

Lemma insert_sorted_ascending (r : Row) (l : list Row) :
  dates_ascending (map col_date l) = true ->
  dates_ascending (map col_date (insert_sorted r l)) = true.
Proof.
  induction l as [|x l IH]; intros Hl; [reflexivity|].
  simpl insert_sorted.
  destruct (datetime_leb (col_date r) (col_date x)) eqn:Hrx.
  - change (datetime_leb (col_date r) (col_date x)
            && dates_ascending (map col_date (x :: l)) = true).
    rewrite Hrx, Hl. reflexivity.
  - apply datetime_leb_total in Hrx.
    destruct l as [|y l].
    + simpl. rewrite Hrx. reflexivity.
    + change (datetime_leb (col_date x) (col_date y)
              && dates_ascending (map col_date (y :: l)) = true) in Hl.
      apply andb_prop in Hl as [Hxy Hl].
      specialize (IH Hl). simpl insert_sorted in *.
      destruct (datetime_leb (col_date r) (col_date y)).
      * change (datetime_leb (col_date x) (col_date r)
                && dates_ascending (map col_date (r :: y :: l)) = true).
        rewrite Hrx, IH. reflexivity.
      * change (datetime_leb (col_date x) (col_date y)
                && dates_ascending
                     (map col_date (y :: insert_sorted r l)) = true).
        rewrite Hxy, IH. reflexivity.
Qed.

Lemma sort_by_date_ascending (l : list Row) :
  dates_ascending (map col_date (sort_by_date l)) = true.
Proof.
  unfold sort_by_date. induction l as [|x l IH]; [reflexivity|].
  simpl. apply insert_sorted_ascending, IH.
Qed.

End WindowResults.

Section WindowTheorems.

Variable Row : Type.
Variable col_id : Row -> Z.
Variable col_date : Row -> datetime.

Local Abbreviation gather := (gather Row).
Local Abbreviation target_date_idx := (target_date_idx Row col_id col_date).
Local Abbreviation on_target := (on_target Row col_id col_date).
Local Abbreviation sort_by_date := (sort_by_date Row col_date).
Local Abbreviation window_idx := (window_idx Row col_id col_date).
Local Abbreviation prechecks := (prechecks_pass Row col_id).
Local Abbreviation run_filter :=
  (filter_df_by_id_and_date Row col_id col_date).

(** With the pre-checks passed, the function is the gathering of the
    indices followed by the sort. *)
Lemma filter_df_after_prechecks (df : DataFrame Row)
    (output_colnames : list string) (id : Z)
    (id_colname date_colname : string) (target : datetime) :
  prechecks df output_colnames id id_colname date_colname ->
  run_filter df output_colnames id id_colname date_colname target
  = (if in_columns "index" (columns Row df) then Raise DuplicateError
     else
       df1 ← gather (rows Row df) (window_idx df id target);
       if has_duplicates output_colnames then Raise DuplicateError
       else if in_columns date_colname output_colnames
       then Ok (sort_by_date df1)
       else Raise ColumnNotFoundError).
Proof.
  intros (H1 & H2 & H3 & H4 & H5 & H6).
  unfold filter_df_by_id_and_date.
  assert (H1' : (0 <? length (rows Row df))%nat = true).
  { destruct (rows Row df); [congruence | reflexivity]. }
  assert (H2' : (0 <? length output_colnames)%nat = true).
  { destruct output_colnames; [congruence | reflexivity]. }
  rewrite H1', H2', H3, H4, H5, H6.
  cbn [negb].
  destruct (in_columns "index" (columns Row df)); [reflexivity|].
  cbv zeta.
  rewrite (proj2 (target_date_idx_sorted Row col_id col_date id target
                    (rows Row df) 0)).
  reflexivity.
Qed.

Lemma filter_df_prechecks_fail (df : DataFrame Row)
    (output_colnames : list string) (id : Z)
    (id_colname date_colname : string) (target : datetime) :
  ~ prechecks df output_colnames id id_colname date_colname ->
  run_filter df output_colnames id id_colname date_colname target
  = Raise AssertionError.
Proof.
  intros Hnot.
  unfold filter_df_by_id_and_date.
  destruct (rows Row df) as [|r0 l] eqn:Hrows; [reflexivity|].
  destruct output_colnames as [|c0 cs] eqn:Hout; [reflexivity|].
  simpl length. simpl Nat.ltb. cbn [negb].
  destruct (in_columns id_colname (columns Row df)) eqn:H3; [|reflexivity].
  destruct (in_columns date_colname (columns Row df)) eqn:H4; [|reflexivity].
  destruct (forallb (fun e => in_columns e (columns Row df)) (c0 :: cs))
    eqn:H5; [|reflexivity].
  destruct (existsb (fun r => col_id r =? id) (r0 :: l)) eqn:H6;
    [|reflexivity].
  exfalso. apply Hnot. unfold prechecks_pass.
  rewrite Hrows. repeat split; try assumption; discriminate.
Qed.

Lemma gather_raises_out_of_bounds (l : list Row) (idx : list Z) (e : exn) :
  gather l idx = Raise e -> e = OutOfBoundsError.
Proof.
  induction idx as [|a idx IH]; simpl; [discriminate|].
  destruct ((0 <=? a) && (a <? Z.of_nat (length l)));
    [|intros H; inversion H; reflexivity].
  destruct (l !! Z.to_nat a); [|intros H; inversion H; reflexivity].
  destruct (gather l idx) as [rs|e'] eqn:Hrs; [discriminate|].
  intros H. inversion H; subst. apply IH. reflexivity.
Qed.

(** X13: the function raises [AssertionError] exactly when one of its six
    input pre-checks fails (no row, no output column, the id column or
    the date column or an output column missing from the frame, the id
    absent from the id column); the assertion that the filtered indices
    are sorted never fails. *)
Theorem filter_df_by_id_and_date_assertion (df : DataFrame Row)
    (output_colnames : list string) (id : Z)
    (id_colname date_colname : string) (target : datetime) :
  run_filter df output_colnames id id_colname date_colname target
  = Raise AssertionError
  <-> ~ prechecks df output_colnames id id_colname date_colname.
Proof.
  split.
  - intros Hrun Hpass.
    rewrite (filter_df_after_prechecks _ _ _ _ _ _ Hpass) in Hrun.
    destruct (in_columns "index" (columns Row df)); [discriminate|].
    destruct (gather (rows Row df) (window_idx df id target)) as [df1|e]
      eqn:Hg.
    + simpl in Hrun.
      destruct (has_duplicates output_colnames); [discriminate|].
      destruct (in_columns date_colname output_colnames); discriminate.
    + apply gather_raises_out_of_bounds in Hg. subst.
      simpl in Hrun. discriminate.
  - apply filter_df_prechecks_fail.
Qed.

(** The pre-checks are decidable. *)
Lemma classic_prechecks (df : DataFrame Row) (output_colnames : list string)
    (id : Z) (id_colname date_colname : string) :
  prechecks df output_colnames id id_colname date_colname
  \/ ~ prechecks df output_colnames id id_colname date_colname.
Proof.
  unfold prechecks_pass.
  destruct (rows Row df) as [|r0 l];
    [right; intros (H & _); congruence|].
  destruct output_colnames as [|c0 cs];
    [right; intros (_ & H & _); congruence|].
  destruct (in_columns id_colname (columns Row df));
    [|right; intros (_ & _ & H & _); discriminate].
  destruct (in_columns date_colname (columns Row df));
    [|right; intros (_ & _ & _ & H & _); discriminate].
  destruct (forallb (fun e => in_columns e (columns Row df)) (c0 :: cs));
    [|right; intros (_ & _ & _ & _ & H & _); discriminate].
  destruct (existsb (fun r => col_id r =? id) (r0 :: l));
    [|right; intros (_ & _ & _ & _ & _ & H); discriminate].
  left. repeat split; discriminate.
Qed.

End WindowTheorems.

Section WindowOutcomes.

Variable Row : Type.
Variable col_id : Row -> Z.
Variable col_date : Row -> datetime.

Local Abbreviation gather := (gather Row).
Local Abbreviation target_date_idx := (target_date_idx Row col_id col_date).
Local Abbreviation on_target := (on_target Row col_id col_date).
Local Abbreviation sort_by_date := (sort_by_date Row col_date).
Local Abbreviation widx := (window_idx Row col_id col_date).
Local Abbreviation prechecks := (prechecks_pass Row col_id).
Local Abbreviation run_filter :=
  (filter_df_by_id_and_date Row col_id col_date).

(** A call that returns has gathered the window indices and sorted the
    rows. *)
Lemma filter_df_Ok_inv (df : DataFrame Row) (output_colnames : list string)
    (id : Z) (id_colname date_colname : string) (target : datetime)
    (out : list Row) :
  run_filter df output_colnames id id_colname date_colname target = Ok out ->
  exists df1,
    gather (rows Row df) (widx df id target) = Ok df1
    /\ out = sort_by_date df1.
Proof.
  intros Hrun.
  destruct (classic_prechecks Row col_id df output_colnames id id_colname
              date_colname) as [Hpass|Hfail].
  - rewrite (filter_df_after_prechecks Row col_id col_date _ _ _ _ _ target
               Hpass) in Hrun.
    destruct (in_columns "index" (columns Row df)); [discriminate|].
    destruct (gather (rows Row df) (widx df id target)) as [df1|e];
      [|discriminate].
    simpl in Hrun.
    destruct (has_duplicates output_colnames); [discriminate|].
    destruct (in_columns date_colname output_colnames); [|discriminate].
    inversion Hrun. exists df1. split; reflexivity.
  - rewrite (filter_df_prechecks_fail Row col_id col_date _ _ _ _ _ target
               Hfail) in Hrun.
    discriminate.
Qed.

(** X14: a call that returns gives a list in which every timestamp is at
    or before the next one. *)
Theorem filter_df_by_id_and_date_ascending (df : DataFrame Row)
    (output_colnames : list string) (id : Z)
    (id_colname date_colname : string) (target : datetime)
    (out : list Row) :
  run_filter df output_colnames id id_colname date_colname target = Ok out ->
  dates_ascending (map col_date out) = true.
Proof.
  intros Hrun.
  destruct (filter_df_Ok_inv _ _ _ _ _ _ _ Hrun) as (df1 & _ & ->).
  apply sort_by_date_ascending.
Qed.

(** X15: a call that returns gives rows of the frame only, and among them
    every row of the frame that has the id and the month and day of the
    target. *)
Theorem filter_df_by_id_and_date_members (df : DataFrame Row)
    (output_colnames : list string) (id : Z)
    (id_colname date_colname : string) (target : datetime)
    (out : list Row) :
  run_filter df output_colnames id id_colname date_colname target = Ok out ->
  (forall r, In r out -> In r (rows Row df))
  /\ (forall (k : nat) r,
        rows Row df !! k = Some r -> on_target id target r = true ->
        In r out).
Proof.
  intros Hrun.
  destruct (filter_df_Ok_inv _ _ _ _ _ _ _ Hrun) as (df1 & Hg & ->).
  pose proof (gather_In Row _ _ _ Hg) as Hin.
  split.
  - intros r Hr. apply (proj1 (sort_by_date_In Row col_date r df1)) in Hr.
    apply (proj1 (Hin r)) in Hr as (i & _ & _ & Hl).
    apply list_elem_of_In. eapply list_elem_of_lookup_2, Hl.
  - intros k r Hl Hr.
    apply (proj2 (sort_by_date_In Row col_date r df1)), (proj2 (Hin r)).
    exists (Z.of_nat k). repeat split.
    + unfold window_idx. apply in_or_app. left.
      apply (target_date_idx_In Row col_id col_date).
      exists k, r. split; [lia | split; [exact Hl | exact Hr]].
    + lia.
    + rewrite Nat2Z.id. exact Hl.
Qed.

(** The window indices are within the frame when neither the first nor
    the last row is on the target day. *)
Lemma window_idx_in_bounds (df : DataFrame Row) (id : Z)
    (target : datetime) :
  Z.of_nat (length (rows Row df)) < 2 ^ 32 ->
  (forall r, head (rows Row df) = Some r -> on_target id target r = false) ->
  (forall r, last (rows Row df) = Some r -> on_target id target r = false) ->
  Forall (fun i => 0 <= i < Z.of_nat (length (rows Row df)))
    (widx df id target).
Proof.
  intros Hsmall Hfirst Hlast.
  assert (Hmatched : forall j,
             In j (map snd (target_date_idx 0 (rows Row df) id target)) ->
             1 <= j /\ j + 1 < Z.of_nat (length (rows Row df))).
  { intros j Hj.
    apply (target_date_idx_In Row col_id col_date) in Hj
      as (k & r & -> & Hl & Hr).
    pose proof (lookup_lt_Some _ _ _ Hl) as Hk.
    split.
    - destruct k as [|k]; [|lia].
      rewrite <- head_lookup in Hl. rewrite (Hfirst r Hl) in Hr.
      discriminate.
    - destruct (decide (S k = length (rows Row df))) as [Heq|Hne]; [|lia].
      assert (Hl' : last (rows Row df) = Some r).
      { rewrite last_lookup, <- Heq. exact Hl. }
      rewrite (Hlast r Hl') in Hr. discriminate. }
  apply List.Forall_forall. intros j Hj.
  unfold window_idx in Hj.
  apply in_app_or in Hj as [Hj|Hj]; [apply Hmatched in Hj; lia|].
  apply in_app_or in Hj as [Hj|Hj].
  - unfold pre_target_date_start_idx in Hj.
    apply in_map_iff in Hj as (i & <- & Hi).
    apply group_first_In, Hmatched in Hi.
    unfold u32. rewrite Z.mod_small; lia.
  - unfold post_target_date_end_idx in Hj.
    apply in_map_iff in Hj as (i & <- & Hi).
    apply group_last_In, Hmatched in Hi.
    unfold u32. rewrite Z.mod_small; lia.
Qed.

(** X16: when the pre-checks pass, the frame has no column [index] of its
    own, no output column is named twice, the date column is among the
    output columns, and neither the first nor the last row of the frame
    is on the target day (with the id), the function returns. *)
Theorem filter_df_by_id_and_date_interior_returns (df : DataFrame Row)
    (output_colnames : list string) (id : Z)
    (id_colname date_colname : string) (target : datetime) :
  prechecks df output_colnames id id_colname date_colname ->
  in_columns "index" (columns Row df) = false ->
  has_duplicates output_colnames = false ->
  in_columns date_colname output_colnames = true ->
  Z.of_nat (length (rows Row df)) < 2 ^ 32 ->
  (forall r, head (rows Row df) = Some r -> on_target id target r = false) ->
  (forall r, last (rows Row df) = Some r -> on_target id target r = false) ->
  exists out,
    run_filter df output_colnames id id_colname date_colname target = Ok out.
Proof.
  intros Hpass Hindex Hdup Hdate Hsmall Hfirst Hlast.
  rewrite (filter_df_after_prechecks Row col_id col_date _ _ _ _ _ target
             Hpass), Hindex.
  destruct (gather_in_bounds Row _ _
              (window_idx_in_bounds df id target Hsmall Hfirst Hlast))
    as [df1 ->].
  simpl. rewrite Hdup, Hdate. eexists. reflexivity.
Qed.

(** X17: when the pre-checks pass, the frame has no column [index] of its
    own, no output column is named twice, the date column is among the
    output columns and no row with the id is on the target day, the
    function returns the empty list. *)
Theorem filter_df_by_id_and_date_no_match (df : DataFrame Row)
    (output_colnames : list string) (id : Z)
    (id_colname date_colname : string) (target : datetime) :
  prechecks df output_colnames id id_colname date_colname ->
  in_columns "index" (columns Row df) = false ->
  has_duplicates output_colnames = false ->
  in_columns date_colname output_colnames = true ->
  Forall (fun r => on_target id target r = false) (rows Row df) ->
  run_filter df output_colnames id id_colname date_colname target = Ok [].
Proof.
  intros Hpass Hindex Hdup Hdate Hnone.
  rewrite (filter_df_after_prechecks Row col_id col_date _ _ _ _ _ target
             Hpass), Hindex.
  assert (Hempty : target_date_idx 0 (rows Row df) id target = []).
  { destruct (target_date_idx 0 (rows Row df) id target) as [|[d j] t]
      eqn:Ht; [reflexivity|].
    exfalso.
    assert (Hj : In j (map snd (target_date_idx 0 (rows Row df) id target))).
    { rewrite Ht. left. reflexivity. }
    apply (target_date_idx_In Row col_id col_date) in Hj
      as (k & r & _ & Hl & Hr).
    rewrite List.Forall_forall in Hnone.
    assert (Hin : In r (rows Row df)).
    { apply list_elem_of_In. eapply list_elem_of_lookup_2, Hl. }
    rewrite (Hnone r Hin) in Hr. discriminate. }
  unfold window_idx. cbv zeta. rewrite Hempty. simpl.
  rewrite Hdup, Hdate. reflexivity.
Qed.

End WindowOutcomes.

Lemma first_row_on_target_raises_witness :
  Mock.extract Mock.starts_on_target_df 5 (Mock.at_ 2000 1 2 0)
  = Raise OutOfBoundsError.
Proof.
  eapply (first_row_on_target_raises Mock.Row Mock.station Mock.timestamp
            Mock.starts_on_target_df ["timestamp"; "station"] 5
            "station" "timestamp" (Mock.at_ 2000 1 2 0)).
  - discriminate.
  - reflexivity.
  - reflexivity.
  - reflexivity.
  - reflexivity.
  - vm_compute. reflexivity.
  - reflexivity.
  - reflexivity.
Defined.

Lemma last_row_on_target_raises_witness :
  Mock.extract Mock.ends_on_target_df 5 (Mock.at_ 2000 1 2 0)
  = Raise OutOfBoundsError.
Proof.
  eapply (last_row_on_target_raises Mock.Row Mock.station Mock.timestamp
            Mock.ends_on_target_df ["timestamp"; "station"] 5
            "station" "timestamp" (Mock.at_ 2000 1 2 0) _ _ _ _ _ _
            (Mock.row 5 (Mock.at_ 2020 1 2 12))
            [Mock.row 5 (Mock.at_ 2020 1 1 0);
             Mock.row 5 (Mock.at_ 2020 1 1 12);
             Mock.row 5 (Mock.at_ 2020 1 2 0)]).
  - reflexivity.
  - reflexivity.
  Unshelve.
  + discriminate.
  + reflexivity.
  + reflexivity.
  + reflexivity.
  + reflexivity.
  + vm_compute. reflexivity.
Defined.

Lemma filter_df_by_id_and_date_ascending_witness :
  dates_ascending
    (map Mock.timestamp
       [Mock.row 5 (Mock.at_ 2020 1 1 12); Mock.row 5 (Mock.at_ 2020 1 2 0);
        Mock.row 5 (Mock.at_ 2020 1 2 12); Mock.row 5 (Mock.at_ 2020 1 3 0)])
  = true.
Proof.
  apply (filter_df_by_id_and_date_ascending Mock.Row Mock.station
           Mock.timestamp Mock.docstring_df ["timestamp"; "station"] 5
           "station" "timestamp" (Mock.at_ 2000 1 2 0)).
  vm_compute. reflexivity.
Defined.

Lemma filter_df_by_id_and_date_members_witness :
  let out :=
    [Mock.row 5 (Mock.at_ 2020 1 1 12); Mock.row 5 (Mock.at_ 2020 1 2 0);
     Mock.row 5 (Mock.at_ 2020 1 2 12); Mock.row 5 (Mock.at_ 2020 1 3 0)] in
  (forall r, In r out -> In r (rows Mock.Row Mock.docstring_df))
  /\ (forall (k : nat) r,
        rows Mock.Row Mock.docstring_df !! k = Some r ->
        on_target Mock.Row Mock.station Mock.timestamp 5
          (Mock.at_ 2000 1 2 0) r = true ->
        In r out).
Proof.
  apply (filter_df_by_id_and_date_members Mock.Row Mock.station
           Mock.timestamp Mock.docstring_df ["timestamp"; "station"] 5
           "station" "timestamp" (Mock.at_ 2000 1 2 0)).
  vm_compute. reflexivity.
Defined.

Lemma filter_df_by_id_and_date_interior_returns_witness :
  exists out,
    Mock.extract Mock.docstring_df 5 (Mock.at_ 2000 1 2 0) = Ok out.
Proof.
  apply (filter_df_by_id_and_date_interior_returns Mock.Row Mock.station
           Mock.timestamp Mock.docstring_df ["timestamp"; "station"] 5
           "station" "timestamp" (Mock.at_ 2000 1 2 0)).
  - repeat split; try discriminate; reflexivity.
  - reflexivity.
  - reflexivity.
  - reflexivity.
  - vm_compute. reflexivity.
  - intros r H. inversion H. reflexivity.
  - intros r H. inversion H. reflexivity.
Defined.

Lemma filter_df_by_id_and_date_no_match_witness :
  Mock.extract Mock.docstring_df 5 (Mock.at_ 2000 2 1 0) = Ok [].
Proof.
  apply (filter_df_by_id_and_date_no_match Mock.Row Mock.station
           Mock.timestamp Mock.docstring_df ["timestamp"; "station"] 5
           "station" "timestamp" (Mock.at_ 2000 2 1 0)).
  - repeat split; try discriminate; reflexivity.
  - reflexivity.
  - reflexivity.
  - reflexivity.
  - repeat constructor.
Defined.

(** ** The annual aggregate: what a construction accepts *)

Lemma validate_str_nil (field : string) (v : json) (s : string) :
  validate_str field v = ([], s) -> v = JStr s.
Proof.
  destruct v; simpl; intros H; inversion H; reflexivity.
Qed.

Lemma validate_str_not_str (field : string) (v : json) :
  (forall s, v <> JStr s) -> fst (validate_str field v) = [field].
Proof.
  destruct v; simpl; intros H; try reflexivity.
  exfalso. apply (H s). reflexivity.
Qed.

Section AnnualWeatherFacts.

Variable arg_current_temperature_celsius : float.
Variables arg_current_station arg_current_city arg_current_state : json.
Variable arg_current_error_message : string.
Variable arg_distance_to_station_kilometers : float.
Variable arg_annual_timestamp : list datetime.
Variable arg_annual_temperature_celsius : list float.
Variables arg_annual_usaf_station_id arg_annual_wban_station_id : Z.
Variables arg_annual_station_name arg_annual_station_state
  arg_annual_station_call : string.
Variables arg_annual_station_latitude arg_annual_station_longitude
  arg_annual_station_elevation_meters : float.

Local Abbreviation construct :=
  (AnnualWeather_init arg_current_temperature_celsius
     arg_current_station arg_current_city arg_current_state
     arg_current_error_message
     arg_distance_to_station_kilometers arg_annual_timestamp
     arg_annual_temperature_celsius
     arg_annual_usaf_station_id arg_annual_wban_station_id
     arg_annual_station_name arg_annual_station_state arg_annual_station_call
     arg_annual_station_latitude arg_annual_station_longitude
     arg_annual_station_elevation_meters).

(** What a successful construction says of its arguments and result. *)
Lemma AnnualWeather_init_inv (a : AnnualWeather) :
  construct = Ok a ->
  (Float64.in_range 0 21000 arg_distance_to_station_kilometers = true
   /\ 0 <= arg_annual_usaf_station_id < 1000000
   /\ 0 <= arg_annual_wban_station_id < 100000
   /\ str_len arg_annual_station_name <= 100
   /\ str_len arg_annual_station_state = 2
   /\ str_len arg_annual_station_call <= 4
   /\ Float64.in_range (-90) 90 arg_annual_station_latitude = true
   /\ Float64.in_range (-180) 180 arg_annual_station_longitude = true
   /\ Float64.in_range (-440) 8850 arg_annual_station_elevation_meters
      = true)
  /\ (arg_current_station = JStr (current_station a)
      /\ arg_current_city = JStr (current_city a)
      /\ arg_current_state = JStr (current_state a))
  /\ a = {| current_temperature_celsius := arg_current_temperature_celsius;
            current_station := current_station a;
            current_city := current_city a;
            current_state := current_state a;
            current_error_message := arg_current_error_message;
            distance_to_station_kilometers :=
              arg_distance_to_station_kilometers;
            annual_timestamp := arg_annual_timestamp;
            annual_temperature_celsius := arg_annual_temperature_celsius;
            annual_usaf_station_id := arg_annual_usaf_station_id;
            annual_wban_station_id := arg_annual_wban_station_id;
            annual_station_name := arg_annual_station_name;
            annual_station_state := arg_annual_station_state;
            annual_station_call := arg_annual_station_call;
            annual_station_latitude := arg_annual_station_latitude;
            annual_station_longitude := arg_annual_station_longitude;
            annual_station_elevation_meters :=
              arg_annual_station_elevation_meters |}.
Proof.
  unfold AnnualWeather_init.
  destruct (validate_str "current_station" arg_current_station)
    as [e1 station] eqn:H1.
  destruct (validate_str "current_city" arg_current_city) as [e2 city] eqn:H2.
  destruct (validate_str "current_state" arg_current_state) as [e3 state] eqn:H3.
  match goal with
  | |- match ?errors with [] => _ | _ :: _ => _ end = _ -> _ =>
      destruct errors eqn:E; [|discriminate]
  end.
  intros Ha. inversion Ha; subst a; clear Ha. cbn.
  repeat match type of E with
         | (_ ++ _)%list = [] => apply app_eq_nil in E; destruct E as [? E]
         end.
  repeat match goal with
         | H : check _ _ = [] |- _ => apply check_nil in H
         end.
  subst e1 e2 e3.
  apply validate_str_nil in H1, H2, H3.
  repeat split; try assumption; try lia.
Qed.

(** X18: an [AnnualWeather] that is constructed satisfies every declared
    constraint (the six numeric bounds and the three string lengths),
    its three current-weather strings were given as strings, and every
    field holds the argument that was given for it. *)
Theorem AnnualWeather_init_Ok (a : AnnualWeather) :
  construct = Ok a ->
  (Float64.in_range 0 21000 arg_distance_to_station_kilometers = true
   /\ 0 <= arg_annual_usaf_station_id < 1000000
   /\ 0 <= arg_annual_wban_station_id < 100000
   /\ str_len arg_annual_station_name <= 100
   /\ str_len arg_annual_station_state = 2
   /\ str_len arg_annual_station_call <= 4
   /\ Float64.in_range (-90) 90 arg_annual_station_latitude = true
   /\ Float64.in_range (-180) 180 arg_annual_station_longitude = true
   /\ Float64.in_range (-440) 8850 arg_annual_station_elevation_meters
      = true)
  /\ (arg_current_station = JStr (current_station a)
      /\ arg_current_city = JStr (current_city a)
      /\ arg_current_state = JStr (current_state a))
  /\ (current_temperature_celsius a = arg_current_temperature_celsius
      /\ current_error_message a = arg_current_error_message
      /\ distance_to_station_kilometers a
         = arg_distance_to_station_kilometers
      /\ annual_timestamp a = arg_annual_timestamp
      /\ annual_temperature_celsius a = arg_annual_temperature_celsius
      /\ annual_usaf_station_id a = arg_annual_usaf_station_id
      /\ annual_wban_station_id a = arg_annual_wban_station_id
      /\ annual_station_name a = arg_annual_station_name
      /\ annual_station_state a = arg_annual_station_state
      /\ annual_station_call a = arg_annual_station_call
      /\ annual_station_latitude a = arg_annual_station_latitude
      /\ annual_station_longitude a = arg_annual_station_longitude
      /\ annual_station_elevation_meters a
         = arg_annual_station_elevation_meters).
Proof.
  intros Ha.
  destruct (AnnualWeather_init_inv a Ha) as (Hbounds & Hstr & Heq).
  split; [exact Hbounds|]. split; [exact Hstr|].
  rewrite Heq. cbn. repeat split.
Qed.

(** Arguments that satisfy every declared constraint are accepted. *)
Lemma AnnualWeather_init_complete (station city state : string) :
  arg_current_station = JStr station ->
  arg_current_city = JStr city ->
  arg_current_state = JStr state ->
  Float64.in_range 0 21000 arg_distance_to_station_kilometers = true ->
  0 <= arg_annual_usaf_station_id < 1000000 ->
  0 <= arg_annual_wban_station_id < 100000 ->
  str_len arg_annual_station_name <= 100 ->
  str_len arg_annual_station_state = 2 ->
  str_len arg_annual_station_call <= 4 ->
  Float64.in_range (-90) 90 arg_annual_station_latitude = true ->
  Float64.in_range (-180) 180 arg_annual_station_longitude = true ->
  Float64.in_range (-440) 8850 arg_annual_station_elevation_meters = true ->
  exists a, construct = Ok a.
Proof.
  intros -> -> -> Hd Hu Hw Hn Hs Hc Hlat Hlon Hel.
  unfold AnnualWeather_init. cbn [validate_str].
  rewrite Hd, Hlat, Hlon, Hel.
  assert (H1 : (0 <=? arg_annual_usaf_station_id)
               && (arg_annual_usaf_station_id <? 1000000) = true) by lia.
  assert (H2 : (0 <=? arg_annual_wban_station_id)
               && (arg_annual_wban_station_id <? 100000) = true) by lia.
  assert (H3 : (str_len arg_annual_station_name <=? 100) = true) by lia.
  assert (H4 : (2 <=? str_len arg_annual_station_state)
               && (str_len arg_annual_station_state <=? 2) = true) by lia.
  assert (H5 : (str_len arg_annual_station_call <=? 4) = true) by lia.
  rewrite H1, H2, H3, H4, H5. cbn [check app].
  eexists. reflexivity.
Qed.

(** X19: arguments that satisfy every declared constraint, with the three
    current-weather strings given as strings, are accepted. *)
Theorem AnnualWeather_init_accepts (station city state : string) :
  arg_current_station = JStr station ->
  arg_current_city = JStr city ->
  arg_current_state = JStr state ->
  Float64.in_range 0 21000 arg_distance_to_station_kilometers = true ->
  0 <= arg_annual_usaf_station_id < 1000000 ->
  0 <= arg_annual_wban_station_id < 100000 ->
  str_len arg_annual_station_name <= 100 ->
  str_len arg_annual_station_state = 2 ->
  str_len arg_annual_station_call <= 4 ->
  Float64.in_range (-90) 90 arg_annual_station_latitude = true ->
  Float64.in_range (-180) 180 arg_annual_station_longitude = true ->
  Float64.in_range (-440) 8850 arg_annual_station_elevation_meters = true ->
  exists a, construct = Ok a.
Proof.
  apply AnnualWeather_init_complete.
Qed.

(** X20: a construction in which a string is longer than declared (the
    station name over 100 characters, the state not of 2 characters, the
    call sign over 4) fails with [ValidationError]. *)
Theorem AnnualWeather_init_checks_lengths :
  100 < str_len arg_annual_station_name
  \/ str_len arg_annual_station_state <> 2
  \/ 4 < str_len arg_annual_station_call ->
  construct = Raise ValidationError.
Proof.
  intros Hout.
  unfold AnnualWeather_init.
  destruct (validate_str "current_station" arg_current_station) as [e1 station].
  destruct (validate_str "current_city" arg_current_city) as [e2 city].
  destruct (validate_str "current_state" arg_current_state) as [e3 state].
  match goal with
  | |- match ?errors with [] => _ | _ :: _ => _ end = _ =>
      destruct errors eqn:E; [exfalso | reflexivity]
  end.
  repeat match type of E with
         | (_ ++ _)%list = [] => apply app_eq_nil in E; destruct E as [? E]
         end.
  repeat match goal with
         | H : check _ _ = [] |- _ => apply check_nil in H
         end.
  lia.
Qed.

End AnnualWeatherFacts.

Lemma AnnualWeather_init_Ok_witness :
  exists a : AnnualWeather,
    AnnualWeather_init (Float64.round_Z 20)
      (JStr "KILX") (JStr "Homer") (JStr "IL") ""
      (Float64.round_Z 33) [] [] 999999 54808 "CHAMPAIGN 9 SW" "IL" "XXX"
      (Float64.round_Z 40) (Float64.round_Z (-88)) (Float64.round_Z 213)
    = Ok a
    /\ annual_station_state a = "IL"
    /\ Float64.in_range (-90) 90 (annual_station_latitude a) = true.
Proof.
  eexists. split; [vm_compute; reflexivity|].
  match goal with
  | |- annual_station_state ?a = _ /\ _ =>
      destruct (AnnualWeather_init_Ok (Float64.round_Z 20)
                  (JStr "KILX") (JStr "Homer") (JStr "IL") ""
                  (Float64.round_Z 33) [] [] 999999 54808
                  "CHAMPAIGN 9 SW" "IL" "XXX"
                  (Float64.round_Z 40) (Float64.round_Z (-88))
                  (Float64.round_Z 213) a eq_refl)
        as (Hb & _ & Hf)
  end.
  split; [reflexivity|]. reflexivity.
Defined.

Lemma AnnualWeather_init_accepts_witness :
  exists a : AnnualWeather,
    AnnualWeather_init (Float64.round_Z (-9999))
      (JStr "") (JStr "") (JStr "") invalid_weather_api_response_message
      (Float64.round_Z 33) [] [] 999999 54808 "CHAMPAIGN 9 SW" "IL" ""
      (Float64.round_Z 40) (Float64.round_Z (-88)) (Float64.round_Z 213)
    = Ok a.
Proof.
  apply (AnnualWeather_init_accepts (Float64.round_Z (-9999))
           (JStr "") (JStr "") (JStr "") invalid_weather_api_response_message
           (Float64.round_Z 33) [] [] 999999 54808 "CHAMPAIGN 9 SW" "IL" ""
           (Float64.round_Z 40) (Float64.round_Z (-88)) (Float64.round_Z 213)
           "" "" "").
  - reflexivity.
  - reflexivity.
  - reflexivity.
  - vm_compute. reflexivity.
  - lia.
  - lia.
  - vm_compute. discriminate.
  - reflexivity.
  - vm_compute. discriminate.
  - vm_compute. reflexivity.
  - vm_compute. reflexivity.
  - vm_compute. reflexivity.
Defined.

Lemma AnnualWeather_init_checks_lengths_witness :
  AnnualWeather_init (Float64.round_Z 20)
    (JStr "KILX") (JStr "Homer") (JStr "IL") ""
    (Float64.round_Z 33) [] [] 999999 54808 "CHAMPAIGN 9 SW" "ILL" "XXX"
    (Float64.round_Z 40) (Float64.round_Z (-88)) (Float64.round_Z 213)
  = Raise ValidationError.
Proof.
  apply AnnualWeather_init_checks_lengths.
  right. left. vm_compute. discriminate.
Defined.

(** ** The annual aggregate: built from a current weather *)

(** X21: a current weather whose radar station, city or state is not a
    string (the request stores them as they were read from the station
    answer) makes the construction of the aggregate fail with
    [ValidationError]. *)
Theorem compile_annual_weather_non_string (current_weather : CurrentWeather)
    (min_distance_kilometers : float) (timestamps : list datetime)
    (temperatures : list float) (station_data : StationData) :
  (forall s, radar_station current_weather <> JStr s)
  \/ (forall s, coordinates_city current_weather <> JStr s)
  \/ (forall s, coordinates_state current_weather <> JStr s) ->
  compile_annual_weather current_weather min_distance_kilometers timestamps
    temperatures station_data
  = Raise ValidationError.
Proof.
  intros Hnot.
  unfold compile_annual_weather, AnnualWeather_init.
  destruct (validate_str "current_station" (radar_station current_weather))
    as [e1 station] eqn:H1.
  destruct (validate_str "current_city" (coordinates_city current_weather))
    as [e2 city] eqn:H2.
  destruct (validate_str "current_state" (coordinates_state current_weather))
    as [e3 state] eqn:H3.
  match goal with
  | |- match ?errors with [] => _ | _ :: _ => _ end = _ =>
      destruct errors eqn:E; [exfalso | reflexivity]
  end.
  apply app_eq_nil in E as [E1 E]. apply app_eq_nil in E as [E2 E].
  apply app_eq_nil in E as [E3 _]. subst e1 e2 e3.
  destruct Hnot as [Hn|[Hn|Hn]].
  - apply (validate_str_not_str "current_station") in Hn.
    rewrite H1 in Hn. discriminate.
  - apply (validate_str_not_str "current_city") in Hn.
    rewrite H2 in Hn. discriminate.
  - apply (validate_str_not_str "current_state") in Hn.
    rewrite H3 in Hn. discriminate.
Qed.

Lemma compile_annual_weather_non_string_witness :
  compile_annual_weather
    {| valid_response := true;
       temperature_celsius := Mock.celsius_23;
       radar_station := JStr "KILX";
       coordinates_city := JNull;
       coordinates_state := JStr "IL";
       error_message := "" |}
    (Float64.round_Z 33) [] [] Mock.station_data
  = Raise ValidationError.
Proof.
  apply compile_annual_weather_non_string.
  right. left. intros s. discriminate.
Defined.

(** X22: a current weather with nothing but its flag and its message (as
    every request returns when it has no temperature) never makes the
    construction fail: with a distance within its bound and a station row
    that satisfies the declared constraints, the aggregate is built, with
    the message as it is and the default temperature -9999. *)
Theorem compile_annual_weather_defaults (v : bool) (m : string)
    (min_distance_kilometers : float) (timestamps : list datetime)
    (temperatures : list float) (station_data : StationData) :
  Float64.in_range 0 21000 min_distance_kilometers = true ->
  station_data_valid station_data = true ->
  exists a : AnnualWeather,
    compile_annual_weather (CurrentWeather_init v m) min_distance_kilometers
      timestamps temperatures station_data
    = Ok a
    /\ current_error_message a = m
    /\ current_temperature_celsius a = Float64.round_Z (-9999)
    /\ annual_station_call a = default "" (call station_data).
Proof.
  intros Hd Hsd.
  unfold station_data_valid in Hsd.
  repeat match type of Hsd with
         | _ && _ = true => apply andb_prop in Hsd as [Hsd ?]
         end.
  unfold compile_annual_weather.
  replace (match call station_data with Some c => c | None => "" end)
    with (default "" (call station_data))
    by (destruct (call station_data); reflexivity).
  destruct (AnnualWeather_init_complete
              (temperature_celsius (CurrentWeather_init v m))
              (radar_station (CurrentWeather_init v m))
              (coordinates_city (CurrentWeather_init v m))
              (coordinates_state (CurrentWeather_init v m))
              (error_message (CurrentWeather_init v m))
              min_distance_kilometers timestamps temperatures
              (usaf station_data) (wban station_data)
              (station_name station_data) (st station_data)
              (default "" (call station_data))
              (lat station_data) (lon station_data) (elev station_data)
              "" "" "")
    as [a Ha]; try reflexivity; try assumption; try lia.
  exists a. split; [exact Ha|].
  destruct (AnnualWeather_init_inv _ _ _ _ _ _ _ _ _ _ _ _ _ _ _ _ a Ha)
    as (_ & _ & ->).
  repeat split.
Qed.

Lemma compile_annual_weather_defaults_witness :
  exists a : AnnualWeather,
    compile_annual_weather
      (CurrentWeather_init false invalid_input_coordinates_message)
      (Float64.round_Z 33) [] [] Mock.station_data
    = Ok a
    /\ current_error_message a = invalid_input_coordinates_message
    /\ current_temperature_celsius a = Float64.round_Z (-9999)
    /\ annual_station_call a = default "" (call Mock.station_data).
Proof.
  apply compile_annual_weather_defaults; vm_compute; reflexivity.
Defined.

(** ** Temperature conversion: what it raises *)

(** X23: the conversion raises [TypeError] exactly on the JSON values
    that are not numbers (null, strings, lists, objects); the only other
    exception it can raise is [OverflowError], and only on an [int]; on a
    [bool] and on a [float] it always returns. *)
Theorem convert_fahrenheit_to_celsius_raises (v : json) :
  (convert_fahrenheit_to_celsius v = Raise TypeError <-> is_number v = false)
  /\ (forall e, convert_fahrenheit_to_celsius v = Raise e ->
        e = TypeError \/ (e = OverflowError /\ exists z, v = JInt z)).
Proof.
  destruct v as [|b|z|f|s|l|kvs]; cbn [is_number].
  - split; [split; reflexivity|]. intros e H. inversion H. left. reflexivity.
  - destruct b; vm_compute; split;
      try (split; discriminate); intros e H; discriminate.
  - unfold convert_fahrenheit_to_celsius, minus_32, float_times.
    cbn [mbind result_bind]. unfold Float64.of_int.
    destruct (Float64.round_Z (z - 32)) as [sg|sg| |sg m ex];
      cbn [mbind result_bind];
      (split; [split; discriminate|]); intros e H; inversion H.
    right. split; [reflexivity | exists z; reflexivity].
  - split; [split; discriminate|]. intros e H. discriminate.
  - split; [split; reflexivity|]. intros e H. inversion H. left. reflexivity.
  - split; [split; reflexivity|]. intros e H. inversion H. left. reflexivity.
  - split; [split; reflexivity|]. intros e H. inversion H. left. reflexivity.
Qed.

(** ** The annual request: how the steps compose *)

Section AssemblerFacts.

Context {W : Type}.
Variable network : json -> W -> result Response * W.
Variable pause : Z -> W -> W.
Variable str_float : float -> string.
Variable distance : float * float -> float * float -> result float.
Variable get_station_df : W -> result (list StationData).
Variable read_parquet : string -> W -> result (DataFrame TemperatureRow).
Variable now : W -> datetime.
Variable round1 : float -> float.

Local Abbreviation annual :=
  (get_historical_and_current_temperatures network pause str_float distance
     get_station_df read_parquet now round1).

Local Abbreviation historical :=
  (get_historical_temperatures read_parquet now).

Local Abbreviation current := (request_current_weather network pause str_float).

(** Loading the window of a station reads files and the clock only. *)
Lemma get_historical_temperatures_state (filename : string) (station_id : Z)
    (s s' : state W) (out : result (list TemperatureRow)) :
  historical filename station_id s = (out, s') -> s' = s.
Proof.
  unfold get_historical_temperatures, mbind, M_bind, read, lift.
  destruct (read_parquet filename (world s)); intros H; inversion H;
    reflexivity.
Qed.

(** The annual request, step by step: [P] holds of its outcome when it
    holds of every way in which the request can end. *)
Lemma annual_cases (coordinates : Coordinates) (s : state W)
    (P : result AnnualWeather * state W -> Prop) :
  (* a step before the current weather raises *)
  (forall e, P (Raise e, s)) ->
  (* the current weather is requested, for the coordinates of the row *)
  (forall station_df i d sd id rows sc r s',
     get_station_df (world s) = Ok station_df ->
     identify_closest_coordinates distance
       (latitude coordinates, longitude coordinates)
       (map (fun r => (lat r, lon r)) station_df) = Ok (i, d) ->
     station_row station_df i = Ok sd ->
     station_id_of (usaf sd) (wban sd) = Ok id ->
     historical
       (str_int (usaf sd) ++ "-" ++ str_int (wban sd) ++ ".parquet")%string
       id s = (Ok rows, s) ->
     Coordinates_init (lat sd) (lon sd) = Ok sc ->
     current sc s = (r, s') ->
     P (match r with
        | Ok cw =>
            compile_annual_weather cw d (map timestamp rows)
              (map (fun r => round1
                               (Float64.div (Float64.round_Z (temperature r))
                                  (Float64.round_Z 10))) rows) sd
        | Raise e => Raise e
        end, s')) ->
  P (annual coordinates s).
Proof.
  intros Hraise Hrequest.
  unfold get_historical_and_current_temperatures.
  unfold mbind at 1. unfold M_bind at 1. unfold read at 1.
  destruct (get_station_df (world s)) as [station_df|e] eqn:Hdf;
    [|apply Hraise].
  unfold mbind at 1. unfold M_bind at 1. unfold lift at 1.
  destruct (identify_closest_coordinates distance
              (latitude coordinates, longitude coordinates)
              (map (fun r => (lat r, lon r)) station_df))
    as [[i d]|e] eqn:Hid; [|apply Hraise].
  unfold mbind at 1. unfold M_bind at 1. unfold lift at 1.
  destruct (station_row station_df i) as [sd|e] eqn:Hrow; [|apply Hraise].
  unfold mbind at 1. unfold M_bind at 1. unfold lift at 1.
  destruct (station_id_of (usaf sd) (wban sd)) as [id|e] eqn:Hsid;
    [|apply Hraise].
  unfold mbind at 1. unfold M_bind at 1.
  destruct (historical
              (str_int (usaf sd) ++ "-" ++ str_int (wban sd)
               ++ ".parquet")%string id s) as [out s1] eqn:Hhist.
  pose proof (get_historical_temperatures_state _ _ _ _ _ Hhist) as ->.
  destruct out as [rows|e]; [|apply Hraise].
  unfold mbind at 1. unfold M_bind at 1. unfold lift at 1.
  destruct (Coordinates_init (lat sd) (lon sd)) as [sc|e] eqn:Hsc;
    [|apply Hraise].
  unfold mbind at 1. unfold M_bind at 1.
  destruct (current sc s) as [r s'] eqn:Hcur.
  specialize (Hrequest station_df i d sd id rows sc r s'
                eq_refl Hid Hrow Hsid Hhist Hsc Hcur).
  destruct r as [cw|e]; exact Hrequest.
Qed.

(** X24: the annual request touches the network only through one
    request for the current weather, made for the coordinates of the
    station row that the nearest-station search picked (not for the
    coordinates of the query), and after every other step has succeeded:
    it ends either in the state it started from or in the state that this
    request left, and so adds at most six HTTP requests to the log. *)
Theorem annual_request_effects (coordinates : Coordinates) (s : state W) :
  let s' := snd (annual coordinates s) in
  (s' = s
   \/ exists station_df i d sd sc,
        get_station_df (world s) = Ok station_df
        /\ identify_closest_coordinates distance
             (latitude coordinates, longitude coordinates)
             (map (fun r => (lat r, lon r)) station_df) = Ok (i, d)
        /\ station_row station_df i = Ok sd
        /\ Coordinates_init (lat sd) (lon sd) = Ok sc
        /\ s' = snd (current sc s))
  /\ (count_gets (log s) <= count_gets (log s')
      <= count_gets (log s) + 6)%nat.
Proof.
  cbv zeta.
  apply (annual_cases coordinates s
           (fun o =>
              (snd o = s
               \/ exists station_df i d sd sc,
                    get_station_df (world s) = Ok station_df
                    /\ identify_closest_coordinates distance
                         (latitude coordinates, longitude coordinates)
                         (map (fun r => (lat r, lon r)) station_df)
                       = Ok (i, d)
                    /\ station_row station_df i = Ok sd
                    /\ Coordinates_init (lat sd) (lon sd) = Ok sc
                    /\ snd o = snd (current sc s))
              /\ (count_gets (log s) <= count_gets (log (snd o))
                  <= count_gets (log s) + 6)%nat)).
  - intros e. cbn [snd]. split; [left; reflexivity | lia].
  - intros station_df i d sd id rows sc r s' Hdf Hid Hrow Hsid Hhist Hsc
      Hcur.
    cbn [snd]. split.
    + right. exists station_df, i, d, sd, sc.
      rewrite Hcur. repeat split; assumption.
    + exact (request_get_bound _ _ _ _ _ _ _ Hcur).
Qed.

(** X25: when every step before it succeeds, the annual request is the
    construction of the aggregate from the current weather of the station
    coordinates, the distance of the search, the timestamps of the window
    and its temperatures divided by ten and rounded, and the station row;
    an exception of the request for the current weather is raised as it
    is. *)
Theorem annual_request_composition (coordinates : Coordinates)
    (s s' : state W) (station_df : list StationData) (i : Z) (d : float)
    (sd : StationData) (id : Z) (rows : list TemperatureRow)
    (sc : Coordinates) (r : result CurrentWeather) :
  get_station_df (world s) = Ok station_df ->
  identify_closest_coordinates distance
    (latitude coordinates, longitude coordinates)
    (map (fun r => (lat r, lon r)) station_df) = Ok (i, d) ->
  station_row station_df i = Ok sd ->
  station_id_of (usaf sd) (wban sd) = Ok id ->
  historical
    (str_int (usaf sd) ++ "-" ++ str_int (wban sd) ++ ".parquet")%string
    id s = (Ok rows, s) ->
  Coordinates_init (lat sd) (lon sd) = Ok sc ->
  current sc s = (r, s') ->
  annual coordinates s
  = (match r with
     | Ok cw =>
         compile_annual_weather cw d (map timestamp rows)
           (map (fun r => tenths_to_degrees round1 (temperature r)) rows) sd
     | Raise e => Raise e
     end, s').
Proof.
  intros Hdf Hid Hrow Hsid Hhist Hsc Hcur.
  unfold get_historical_and_current_temperatures.
  unfold mbind at 1. unfold M_bind at 1. unfold read at 1. rewrite Hdf.
  unfold mbind at 1. unfold M_bind at 1. unfold lift at 1. rewrite Hid.
  unfold mbind at 1. unfold M_bind at 1. unfold lift at 1. rewrite Hrow.
  unfold mbind at 1. unfold M_bind at 1. unfold lift at 1. rewrite Hsid.
  unfold mbind at 1. unfold M_bind at 1. rewrite Hhist.
  unfold mbind at 1. unfold M_bind at 1. unfold lift at 1. rewrite Hsc.
  unfold mbind at 1. unfold M_bind at 1. rewrite Hcur.
  destruct r as [cw|e]; reflexivity.
Qed.

(** X26: when the temperature window of the station cannot be loaded (the
    file cannot be read, or [filter_df_by_id_and_date] raises, as it does
    when the table starts or ends on today's month and day), the annual
    request raises that exception and no HTTP request is made. *)
Theorem annual_request_window_raises (coordinates : Coordinates)
    (s s1 : state W) (station_df : list StationData) (i : Z) (d : float)
    (sd : StationData) (id : Z) (e : exn) :
  get_station_df (world s) = Ok station_df ->
  identify_closest_coordinates distance
    (latitude coordinates, longitude coordinates)
    (map (fun r => (lat r, lon r)) station_df) = Ok (i, d) ->
  station_row station_df i = Ok sd ->
  station_id_of (usaf sd) (wban sd) = Ok id ->
  historical
    (str_int (usaf sd) ++ "-" ++ str_int (wban sd) ++ ".parquet")%string
    id s = (Raise e, s1) ->
  annual coordinates s = (Raise e, s).
Proof.
  intros Hdf Hid Hrow Hsid Hhist.
  pose proof (get_historical_temperatures_state _ _ _ _ _ Hhist) as ->.
  unfold get_historical_and_current_temperatures.
  unfold mbind at 1. unfold M_bind at 1. unfold read at 1. rewrite Hdf.
  unfold mbind at 1. unfold M_bind at 1. unfold lift at 1. rewrite Hid.
  unfold mbind at 1. unfold M_bind at 1. unfold lift at 1. rewrite Hrow.
  unfold mbind at 1. unfold M_bind at 1. unfold lift at 1. rewrite Hsid.
  unfold mbind at 1. unfold M_bind at 1. rewrite Hhist.
  reflexivity.
Qed.

End AssemblerFacts.

Lemma annual_request_composition_witness :
  exists (rows : list TemperatureRow) (r : result CurrentWeather)
         (s' : state MockSite.World),
    get_historical_and_current_temperatures MockSite.network MockSite.pause
      Mock.str_float Mock.distance MockSite.get_station_df
      MockSite.read_parquet MockSite.clock MockSite.round1 Mock.coordinates
      (MockSite.start [Mock.is_ok Mock.station_json] [Mock.forecast_23]
         (Ok [Mock.station_data]) (Mock.at_ 2024 1 1 12))
    = (match r with
       | Ok cw =>
           compile_annual_weather cw (Float64.round_Z 0)
             (map timestamp rows)
             (map (fun r => tenths_to_degrees MockSite.round1 (temperature r))
                rows)
             Mock.station_data
       | Raise e => Raise e
       end, s')
    /\ length rows = 8%nat.
Proof.
  do 3 eexists. split.
  - eapply (annual_request_composition MockSite.network MockSite.pause
              Mock.str_float Mock.distance MockSite.get_station_df
              MockSite.read_parquet MockSite.clock MockSite.round1
              Mock.coordinates _ _ [Mock.station_data] 0 (Float64.round_Z 0)
              Mock.station_data 99999954808 _ Mock.coordinates).
    + reflexivity.
    + vm_compute. reflexivity.
    + reflexivity.
    + vm_compute. reflexivity.
    + vm_compute. reflexivity.
    + vm_compute. reflexivity.
    + vm_compute. reflexivity.
  - reflexivity.
Defined.

Lemma annual_request_window_raises_witness :
  get_historical_and_current_temperatures MockSite.network MockSite.pause
    Mock.str_float Mock.distance MockSite.get_station_df
    MockSite.read_parquet MockSite.clock MockSite.round1 Mock.coordinates
    (MockSite.start [Mock.is_ok Mock.station_json] [Mock.forecast_23]
       (Ok [Mock.station_data]) (Mock.at_ 2024 1 2 12))
  = (Raise OutOfBoundsError,
     MockSite.start [Mock.is_ok Mock.station_json] [Mock.forecast_23]
       (Ok [Mock.station_data]) (Mock.at_ 2024 1 2 12)).
Proof.
  eapply (annual_request_window_raises MockSite.network MockSite.pause
            Mock.str_float Mock.distance MockSite.get_station_df
            MockSite.read_parquet MockSite.clock MockSite.round1
            Mock.coordinates _ _ [Mock.station_data] 0 (Float64.round_Z 0)
            Mock.station_data 99999954808).
  - reflexivity.
  - vm_compute. reflexivity.
  - reflexivity.
  - vm_compute. reflexivity.
  - vm_compute. reflexivity.
Defined.
